(** * Solution generation service: retrieval tools, retry wrapper, cache and
      response validation

    A shallow embedding of [SolutionGeneratorService] and of the
    validation of its output, [SolutionOutputDto].

    - JavaScript strings are sequences of UTF-16 code units ([list N]).
    - JavaScript numbers are idealised as exact rationals ([Q]); counters
      and lengths are [nat].
    - Asynchronous, effectful code is written in a state-and-exception
      monad over the service's fields ([embeddingCache],
      [embeddingCounter]), the outside world (embedding provider,
      PostgreSQL, [Math.random]) and a trace of observable effects. *)

From Stdlib Require Import ZArith QArith Qround Qminmax Lia Lqa String Ascii Decimal DecimalString DecimalN.
From stdpp Require Import base option list gmap.

Set Warnings "-register-all".
Local Open Scope Z_scope.

(* ------------------------------------------------------------------ *)
(** ** JavaScript strings *)

Module Js.

(** A string is a list of UTF-16 code units. *)
Abbreviation str := (list N).

Definition lit (s : string) : str :=
  List.map N_of_ascii (list_ascii_of_string s).

(** [String(n)] for a non-negative integer. *)
Definition ofN (n : N) : str :=
  lit (NilEmpty.string_of_uint (N.to_uint n)).

(** [String(n)] for a counter or a length. *)
Definition ofNat (n : nat) : str := ofN (N.of_nat n).

Definition nl : str := [10%N].

(** [s.substring(0, n)] *)
Definition substring0 (n : nat) (s : str) : str := firstn n s.

(** ECMAScript WhiteSpace and LineTerminator code units, the characters
    removed by [String.prototype.trim]. *)
Definition isWhiteSpace (c : N) : bool :=
  ((9 <=? c) && (c <=? 13) || (c =? 32) || (c =? 160) || (c =? 5760)
   || (8192 <=? c) && (c <=? 8202) || (c =? 8232) || (c =? 8233)
   || (c =? 8239) || (c =? 8287) || (c =? 12288) || (c =? 65279))%N.

Fixpoint trimStart (s : str) : str :=
  match s with
  | c :: s' => if isWhiteSpace c then trimStart s' else s
  | [] => []
  end.

Definition trimEnd (s : str) : str := rev (trimStart (rev s)).

Definition trim (s : str) : str := trimEnd (trimStart s).

Definition eqb (a b : str) : bool := bool_decide (a = b).

(** [s.startsWith(p)] *)
Fixpoint startsWith (p s : str) : bool :=
  match p, s with
  | [], _ => true
  | a :: p', b :: s' => (a =? b)%N && startsWith p' s'
  | _ :: _, [] => false
  end.

(** [s.includes(p)] *)
Fixpoint includes (p s : str) : bool :=
  startsWith p s ||
  match s with
  | [] => false
  | _ :: s' => includes p s'
  end.

(** [s.indexOf(c)] for a single code unit; [None] stands for -1. *)
Fixpoint indexOf (c : N) (s : str) : option nat :=
  match s with
  | [] => None
  | d :: s' => if (c =? d)%N then Some O else option_map S (indexOf c s')
  end.

(** [s.lastIndexOf(c)] for a single code unit. *)
Fixpoint lastIndexOf (c : N) (s : str) : option nat :=
  match s with
  | [] => None
  | d :: s' =>
      match lastIndexOf c s' with
      | Some i => Some (S i)
      | None => if (c =? d)%N then Some O else None
      end
  end.

(** [s.substring(a, b)] for [a <= b]. *)
Definition substring (a b : nat) (s : str) : str := firstn (b - a) (skipn a s).

(** [parts.join(sep)] *)
Fixpoint join (sep : str) (parts : list str) : str :=
  match parts with
  | [] => []
  | [p] => p
  | p :: rest => p ++ sep ++ join sep rest
  end.

End Js.

Arguments Js.lit : simpl never.
Arguments Js.ofN : simpl never.
Arguments Js.ofNat : simpl never.

(* ------------------------------------------------------------------ *)
(** ** Values, errors and outcomes *)

(** Values exchanged with the agent and produced by [JSON.parse]. An
    object is its list of own properties, keys unique. *)
Inductive JsVal :=
| VUndefined
| VNull
| VBool (b : bool)
| VNum (q : Q)
| VStr (s : Js.str)
| VArr (items : list JsVal)
| VObj (props : list (Js.str * JsVal)).

(** What a [throw] can carry. [Undefined] is the value of the
    uninitialised [lastError] of [retryOperation]; the other three are
    objects with a [message]. *)
Inductive thrown :=
| Undefined
| Error (message : Js.str)
| TypeError (message : Js.str)
| LLMGenerationError (message : Js.str).

#[global] Instance thrown_eq_dec : EqDecision thrown.
Proof. solve_decision. Defined.

Inductive Outcome (T : Type) :=
| Return (v : T)
| Throw (e : thrown).
Arguments Return {T} v.
Arguments Throw {T} e.

Definition errorOf {T} (o : Outcome T) : option thrown :=
  match o with Throw e => Some e | Return _ => None end.

(** Effects the model records. *)
Inductive ToolName := GenerateEmbedding | VectorSearch | VideoSearch.

Inductive Event :=
| EvSleep (ms : Z)                       (* await setTimeout(resolve, ms) *)
| EvCacheCleared                         (* clearEmbeddingCache ran *)
| EvToolCall (name : ToolName)           (* the agent invoked a tool *)
| EvMatchDocuments (limit : Q)           (* SELECT * FROM match_documents($1, $2, $3) *)
| EvVideoQuery (limit : Q)               (* ... FROM video_recordings ... LIMIT $2 *)
| EvInvoked (error : option thrown).     (* an observed operation ran once *)

(* ------------------------------------------------------------------ *)
(** ** Rows of the two stores *)

(** [VectorSearchResult.metadata]; an absent property is [None]. *)
Record Metadata := mkMetadata {
  book : option Js.str;
  book_title : option Js.str;
  book_id : option Js.str;
  chapter : option Js.str;
  page_number : option Q;
  page_start : option Q;
  page_end : option Q;
  paragraph_number : option Q
}.

(** The [metadata] column of a [match_documents] row: JSON text, an
    already decoded object, or null. *)
Inductive MetadataColumn :=
| MetaText (json : Js.str)
| MetaObject (m : Metadata)
| MetaNull.

Record DocRow := mkDocRow {
  row_id : option Js.str;
  row_content : option Js.str;
  row_metadata : MetadataColumn;
  row_score : option Q
}.

Record VectorSearchResult := mkVectorSearchResult {
  id : Js.str;
  content : Js.str;
  metadata : option Metadata;
  score : Q
}.

(** A row of [video_recordings] with the computed [score]. *)
Record VideoRow := mkVideoRow {
  vrow_video_id : Js.str;
  vrow_time_start : Js.str;
  vrow_time_end : Js.str;
  vrow_content : option Js.str;
  vrow_transcript : option Js.str;
  vrow_score : Q
}.

Record VideoSearchResult := mkVideoSearchResult {
  video_id : Js.str;
  time_start : Js.str;
  time_end : Js.str;
  video_content : Js.str;
  video_score : Q
}.

(** Outcome of [pgPool.connect()] followed by [client.query(...)] raced
    against the 20 s timer of [searchWithTimeout]. *)
Inductive QueryOutcome (Row : Type) :=
| QRows (rows : list Row)
| QError (message : Js.str)      (* connect or query rejected *)
| QTimeout.                      (* the timer fired first *)
Arguments QRows {Row} rows.
Arguments QError {Row} message.
Arguments QTimeout {Row}.

Record ExtractedImage := mkExtractedImage {
  mimeType : Js.str;
  data : Js.str;
  originalUrl : Js.str;
  altText : option Js.str
}.

Record ServicableQuestionWithImages := mkQuestion {
  question : Js.str;
  options : list Js.str;
  images : option (list ExtractedImage)
}.

(* ------------------------------------------------------------------ *)
(** ** The agent *)

Inductive ToolCall :=
| CallGenerateEmbedding (text : Js.str)
| CallVectorSearch (embeddingId : Js.str) (limit : option Q)
| CallVideoSearch (embeddingId : Js.str) (limit : option Q).

Definition toolName (c : ToolCall) : ToolName :=
  match c with
  | CallGenerateEmbedding _ => GenerateEmbedding
  | CallVectorSearch _ _ => VectorSearch
  | CallVideoSearch _ _ => VideoSearch
  end.

(** One run of [agentExecutor.invoke]: the executor and the model are
    outside this service, and reach it only through the three tools.
    A run is the tree of their choices: each tool call continues with
    whatever the tool returned or threw. *)
Inductive AgentRun :=
| AgentDone (output : JsVal)             (* resolves with { output } *)
| AgentRejected (e : thrown)             (* invoke rejects *)
| AgentTimedOut                          (* the timer of executeWithTimeout fires first *)
| AgentToolCall (call : ToolCall) (k : Outcome JsVal -> AgentRun).

Record AgentInput := mkAgentInput {
  input : Js.str;
  systemMessage : Js.str;
  imagesContext : Js.str
}.

Record ProcessedQuestion := mkProcessed {
  pq_question : Js.str;
  pq_options : list Js.str;
  pq_images : list ExtractedImage
}.

(* ------------------------------------------------------------------ *)
(** ** Collaborators *)

(** Everything the service calls but does not define, over a state [W]
    of the outside world. *)
Record Env (W : Type) := mkEnv {
  (* this.embeddings.embedQuery, 3072 dimensions *)
  embedBooks : Js.str -> W -> Outcome (list Q) * W;
  (* this.videoEmbeddings.embedQuery, 1536 dimensions *)
  embedVideos : Js.str -> W -> Outcome (list Q) * W;
  (* this.pgPool.connect() *)
  pgConnect : W -> Outcome unit * W;
  (* match_documents(vector, limit, filter) *)
  matchDocuments : list Q -> Q -> W -> QueryOutcome DocRow * W;
  (* the similarity query over video_recordings *)
  queryVideoRecordings : list Q -> Q -> W -> QueryOutcome VideoRow * W;
  (* Math.random() *)
  mathRandom : W -> Q * W;
  (* Number.prototype.toFixed(3) *)
  toFixed3 : Q -> Js.str;
  (* String(number) *)
  numberToString : Q -> Js.str;
  (* JSON.parse on a metadata column; None is JSON null *)
  parseMetadata : Js.str -> Outcome (option Metadata);
  (* JSON.parse on the agent's text *)
  JSON_parse : Js.str -> Outcome JsVal;
  (* ImageProcessorService.processQuestionAndOptions *)
  processQuestionAndOptions : Js.str -> list Js.str -> W -> ProcessedQuestion * W;
  (* this.agentExecutor.invoke *)
  agentExecutor_invoke : AgentInput -> W -> AgentRun;
  (* message of a failed validation of a value that is not an object *)
  describeInvalid : JsVal -> Js.str
}.
Arguments embedBooks {W} _ _ _.
Arguments embedVideos {W} _ _ _.
Arguments pgConnect {W} _ _.
Arguments matchDocuments {W} _ _ _ _.
Arguments queryVideoRecordings {W} _ _ _ _.
Arguments mathRandom {W} _ _.
Arguments toFixed3 {W} _ _.
Arguments numberToString {W} _ _.
Arguments parseMetadata {W} _ _.
Arguments JSON_parse {W} _ _.
Arguments processQuestionAndOptions {W} _ _ _ _.
Arguments agentExecutor_invoke {W} _ _ _.
Arguments describeInvalid {W} _ _.

(* ------------------------------------------------------------------ *)
(** ** Service state and the monad of its methods *)

Record State (W : Type) := mkState {
  world : W;
  embeddingCache : gmap (list N) (list Q);   (* Map<string, number[]> *)
  embeddingCounter : nat;
  trace : list Event
}.
Arguments mkState {W} _ _ _ _.
Arguments world {W} _.
Arguments embeddingCache {W} _.
Arguments embeddingCounter {W} _.
Arguments trace {W} _.

Definition M (W A : Type) : Type := State W -> Outcome A * State W.

Section Monad.
Context {W : Type}.

Definition ret {A} (a : A) : M W A := fun s => (Return a, s).

Definition throw {A} (e : thrown) : M W A := fun s => (Throw e, s).

Definition bind {A B} (m : M W A) (f : A -> M W B) : M W B :=
  fun s =>
    match m s with
    | (Return a, s') => f a s'
    | (Throw e, s') => (Throw e, s')
    end.

(** [try { m } catch (error) { handler error }] *)
Definition tryCatch {A} (m : M W A) (handler : thrown -> M W A) : M W A :=
  fun s =>
    match m s with
    | (Return a, s') => (Return a, s')
    | (Throw e, s') => handler e s'
    end.

Definition emit (ev : Event) : M W unit :=
  fun s => (Return tt,
            mkState (world s) (embeddingCache s) (embeddingCounter s) (trace s ++ [ev])).

(** [await new Promise(resolve => setTimeout(resolve, ms))] *)
Definition sleep (ms : Z) : M W unit := emit (EvSleep ms).

(** A call into the outside world. *)
Definition external {A} (f : W -> A * W) : M W A :=
  fun s =>
    let '(a, w) := f (world s) in
    (Return a, mkState w (embeddingCache s) (embeddingCounter s) (trace s)).

(** [this.embeddingCache.get(key)] *)
Definition cacheGet (key : Js.str) : M W (option (list Q)) :=
  fun s => (Return (embeddingCache s !! key), s).

(** [this.embeddingCache.set(key, value)] *)
Definition cacheSet (key : Js.str) (value : list Q) : M W unit :=
  fun s => (Return tt,
            mkState (world s) (<[key := value]> (embeddingCache s))
                    (embeddingCounter s) (trace s)).

(** [++this.embeddingCounter] *)
Definition preIncrementCounter : M W nat :=
  fun s => (Return (S (embeddingCounter s)),
            mkState (world s) (embeddingCache s) (S (embeddingCounter s)) (trace s)).

End Monad.

Declare Scope js_scope.
Delimit Scope js_scope with js.
Notation "x <- m ;; k" := (bind m (fun x => k))
  (at level 100, m at next level, right associativity) : js_scope.
Notation "m ;;; k" := (bind m (fun _ => k))
  (at level 100, right associativity) : js_scope.

(** [error.message]; reading a property of [undefined] is itself a
    TypeError. *)
Definition messageOf (e : thrown) : Outcome Js.str :=
  match e with
  | Undefined =>
      Throw (TypeError (Js.lit "Cannot read properties of undefined (reading 'message')"))
  | Error m | TypeError m | LLMGenerationError m => Return m
  end.

(** [a || b] on optional strings: absent and empty are falsy. *)
Definition orStr (a : option Js.str) (b : Js.str) : Js.str :=
  match a with
  | Some (c :: s) => c :: s
  | _ => b
  end.

(** Truthiness of an optional number: absent and zero are falsy. *)
Definition truthyNum (a : option Q) : option Q :=
  match a with
  | Some q => if Qeq_bool q 0 then None else Some q
  | None => None
  end.

(** [a || b || 0] on optional numbers. *)
Definition orNum2 (a b : option Q) : Q :=
  match truthyNum a, truthyNum b with
  | Some q, _ => q
  | None, Some q => q
  | None, None => 0%Q
  end.

(* ------------------------------------------------------------------ *)
(** ** truncateContent, clearEmbeddingCache, retryOperation *)

(** [truncateContent(content, maxLength)] *)
Definition truncateContent (content : Js.str) (maxLength : nat) : Js.str :=
  if (length content <=? maxLength)%nat then content
  else Js.substring0 maxLength content ++ Js.lit "...".

Section Service.
Context {W : Type} (env : Env W).
Local Open Scope js_scope.

(** [clearEmbeddingCache()] *)
Definition clearEmbeddingCache : M W unit :=
  fun s => (Return tt, mkState (world s) ∅ O (trace s ++ [EvCacheCleared])).

(** [Math.floor(baseDelay * Math.pow(2, attempt - 1) * (1 + jitter))]
    with [jitter = Math.random() * 0.3]. The base delay is a whole number
    of milliseconds, as at every call site (1000 and 2000). *)
Definition backoffDelay (baseDelay : Z) (attempt : nat) (random : Q) : Z :=
  let jitter := (random * (3 # 10))%Q in
  Qfloor (inject_Z baseDelay * inject_Z (2 ^ Z.of_nat (attempt - 1)) * (1 + jitter))%Q.

(** The [for (let attempt = 1; attempt <= maxRetries; attempt++)] loop of
    [retryOperation], entered at [attempt] with [remaining] iterations
    left. *)
Fixpoint retryLoop {T} (operation : M W T) (maxRetries : nat) (baseDelay : Z)
    (remaining attempt : nat) (lastError : thrown) : M W T :=
  match remaining with
  | O => throw lastError
  | S remaining' =>
      tryCatch operation (fun error =>
        match messageOf error with
        | Throw e => throw e
        | Return _ =>
            if (attempt =? maxRetries)%nat then throw error
            else
              random <- external (mathRandom env) ;;
              sleep (backoffDelay baseDelay attempt random) ;;;
              retryLoop operation maxRetries baseDelay remaining' (S attempt) error
        end)
  end.

(** [retryOperation(operation, operationName, maxRetries, baseDelay)];
    [operationName] only labels log lines. *)
Definition retryOperation {T} (operation : M W T) (maxRetries : nat) (baseDelay : Z)
    : M W T :=
  retryLoop operation maxRetries baseDelay maxRetries 1 Undefined.

End Service.

Arguments backoffDelay : simpl never.

(* ------------------------------------------------------------------ *)
(** ** Plain helpers of the tools *)

Definition liftO {W A} (o : Outcome A) : M W A := fun s => (o, s).

(** [xs.map(f)] where [f] may throw: the first throw ends the map. *)
Fixpoint mapO {A B} (f : A -> Outcome B) (xs : list A) : Outcome (list B) :=
  match xs with
  | [] => Return []
  | x :: xs' =>
      match f x with
      | Throw e => Throw e
      | Return y =>
          match mapO f xs' with
          | Throw e => Throw e
          | Return ys => Return (y :: ys)
          end
      end
  end.

(** [xs.map((x, index) => f(x, index))], indices from [start]. *)
Fixpoint mapIndexO {A B} (f : A -> nat -> Outcome B) (start : nat) (xs : list A)
    : Outcome (list B) :=
  match xs with
  | [] => Return []
  | x :: xs' =>
      match f x start with
      | Throw e => Throw e
      | Return y =>
          match mapIndexO f (S start) xs' with
          | Throw e => Throw e
          | Return ys => Return (y :: ys)
          end
      end
  end.

Definition quote : Js.str := [34%N].

Definition pleaseCheck : Js.str :=
  Js.lit ". Please check PostgreSQL connection and database status.".

(** Reading a property of a null [metadata]. *)
Definition metadataOf (result : VectorSearchResult) : Outcome Metadata :=
  match metadata result with
  | Some m => Return m
  | None => Throw (TypeError (Js.lit "Cannot read properties of null"))
  end.

Record FormattedSource := mkFormattedSource {
  src_book : Js.str;
  src_chapter : Js.str;
  src_page_number : Q;
  src_paragraph_number : Q
}.

Record FormattedResult := mkFormattedResult {
  fr_index : nat;
  fr_content : Js.str;
  fr_source : FormattedSource;
  fr_similarity : Q
}.

(* ------------------------------------------------------------------ *)
(** ** The three tools *)

Section Tools.
Context {W : Type} (env : Env W).
Local Open Scope js_scope.

(** The operation retried by the generateEmbedding tool. Both requests
    of [Promise.all] are issued; the books rejection is reported when
    both reject. *)
Definition generateEmbeddingOperation (text : Js.str) : M W JsVal :=
  r3072 <- external (embedBooks env text) ;;
  r1536 <- external (embedVideos env text) ;;
  match r3072, r1536 with
  | Return embedding3072, Return embedding1536 =>
      counter <- preIncrementCounter ;;
      let embeddingId := Js.lit "emb_" ++ Js.ofNat counter in
      cacheSet (embeddingId ++ Js.lit "_3072") embedding3072 ;;;
      cacheSet (embeddingId ++ Js.lit "_1536") embedding1536 ;;;
      ret (VObj
        [ (Js.lit "embeddingId", VStr embeddingId);
          (Js.lit "dimensions",
            VObj [ (Js.lit "books", VNum (inject_Z (Z.of_nat (length embedding3072))));
                   (Js.lit "videos", VNum (inject_Z (Z.of_nat (length embedding1536)))) ]);
          (Js.lit "message",
            VStr (Js.lit "Dual embeddings generated and cached as " ++ embeddingId
                  ++ Js.lit ": " ++ Js.ofNat (length embedding3072)
                  ++ Js.lit "D for books, " ++ Js.ofNat (length embedding1536)
                  ++ Js.lit "D for videos")) ])
  | Throw e, _ => throw e
  | _, Throw e => throw e
  end.

(** The generateEmbedding tool. *)
Definition generateEmbedding (text : Js.str) : M W JsVal :=
  retryOperation env (generateEmbeddingOperation text) 5 2000.

(** The operation retried by the vectorSearch tool: connect, query under
    the 20 s timer, and rethrow every failure as "unavailable". *)
Definition vectorSearchQuery (embedding : list Q) (cappedLimit : Q) : M W (list DocRow) :=
  tryCatch
    (connected <- external (pgConnect env) ;;
     liftO connected ;;;
     emit (EvMatchDocuments cappedLimit) ;;;
     result <- external (matchDocuments env embedding cappedLimit) ;;
     match result with
     | QRows rows => ret rows
     | QError message => throw (Error message)
     | QTimeout => throw (Error (Js.lit "Vector search timeout"))
     end)
    (fun searchError =>
       message <- liftO (messageOf searchError) ;;
       throw (Error (Js.lit "Vector search unavailable: " ++ message ++ pleaseCheck))).

(** [rows.map(row => ({ id, content, metadata, score }))] *)
Definition toVectorSearchResult (row : DocRow) : Outcome VectorSearchResult :=
  let mk m :=
    mkVectorSearchResult (orStr (row_id row) (Js.lit "unknown"))
                         (orStr (row_content row) [])
                         m
                         (default 0%Q (truthyNum (row_score row))) in
  match row_metadata row with
  | MetaText json =>
      match parseMetadata env json with
      | Return m => Return (mk m)
      | Throw e => Throw e
      end
  | MetaObject m => Return (mk (Some m))
  | MetaNull => Return (mk None)
  end.

(** [formattedResults]: the entries with their content cut to 500
    characters. The tool computes it and does not use it. *)
Definition formattedResults (results : list VectorSearchResult)
    : Outcome (list FormattedResult) :=
  mapIndexO (fun result index =>
    match metadataOf result with
    | Throw e => Throw e
    | Return m =>
        let page := orNum2 (page_start m) (page_number m) in
        Return (mkFormattedResult
          (index + 1)
          (truncateContent (content result) 500)
          (mkFormattedSource
             (orStr (book_title m) (orStr (book m) (Js.lit "Unknown")))
             (orStr (chapter m) (Js.lit "Page " ++ numberToString env page))
             page
             (default 1%Q (truthyNum (paragraph_number m))))
          (score result))
    end) 0%nat results.

(** One numbered entry of the vectorSearch response. *)
Definition vectorEntry (result : VectorSearchResult) (index : nat) : Outcome Js.str :=
  match metadataOf result with
  | Throw e => Throw e
  | Return m =>
      let title := orStr (book_title m) (orStr (book m) (Js.lit "Unknown")) in
      let bookId := orStr (book_id m) (Js.lit "unknown") in
      let pageStart := numberToString env (orNum2 (page_start m) (page_number m)) in
      let pageEnd := numberToString env (orNum2 (page_end m) (page_number m)) in
      Return (concat
        [ Js.ofNat (index + 1); Js.lit ". [Score: "; toFixed3 env (score result); Js.lit "]"; Js.nl;
          Js.lit "  Book: "; quote; title; quote; Js.lit " "; Js.nl;
          Js.lit "  Book ID: "; quote; bookId; quote; Js.nl;
          Js.lit "  Pages: "; pageStart; Js.lit " - "; pageEnd; Js.nl;
          Js.lit "  "; Js.nl;
          Js.lit "  **FULL CONTENT:**"; Js.nl;
          Js.lit "  "; content result; Js.nl;
          Js.lit "  "; Js.nl;
          Js.lit "  **Reference to include in JSON:** "; Js.nl;
          Js.lit "  {"; Js.nl;
          Js.lit "    "; quote; Js.lit "book_title"; quote; Js.lit ": "; quote; title; quote; Js.lit ","; Js.nl;
          Js.lit "    "; quote; Js.lit "book_id"; quote; Js.lit ": "; quote; bookId; quote; Js.lit ","; Js.nl;
          Js.lit "    "; quote; Js.lit "page_start"; quote; Js.lit ": "; pageStart; Js.lit ","; Js.nl;
          Js.lit "    "; quote; Js.lit "page_end"; quote; Js.lit ": "; pageEnd; Js.nl;
          Js.lit "  }" ])
  end.

(** [toolResponse], the text the vectorSearch tool returns. *)
Definition toolResponse (results : list VectorSearchResult) : Outcome Js.str :=
  match mapIndexO vectorEntry 0%nat results with
  | Throw e => Throw e
  | Return entries =>
      Return (concat
        [ Js.lit "Found "; Js.ofNat (length results);
          Js.lit " relevant textbook documents. **IMPORTANT: Use this source information for your ";
          quote; Js.lit "references"; quote; Js.lit " field in the JSON output.**"; Js.nl; Js.nl;
          Js.join (Js.nl ++ Js.nl) entries; Js.nl; Js.nl;
          Js.lit "**CRITICAL: Include ALL these references in your JSON output ";
          quote; Js.lit "references"; quote;
          Js.lit " array using the exact format shown above.**" ])
  end.

(** The vectorSearch tool; [limit] defaults to 3. *)
Definition vectorSearch (embeddingId : Js.str) (limit : option Q) : M W JsVal :=
  let limit := default 3%Q limit in
  tryCatch
    (cached <- cacheGet (embeddingId ++ Js.lit "_3072") ;;
     match cached with
     | None =>
         throw (Error (Js.lit "3072D embedding not found in cache for ID: " ++ embeddingId))
     | Some embedding =>
         let cappedLimit := Qmin limit 4 in
         sleep 500 ;;;
         rows <- retryOperation env (vectorSearchQuery embedding cappedLimit) 5 2000 ;;
         results <- liftO (mapO toVectorSearchResult rows) ;;
         liftO (formattedResults results) ;;;
         text <- liftO (toolResponse results) ;;
         ret (VStr text)
     end)
    (fun error =>
       message <- liftO (messageOf error) ;;
       throw (Error (Js.lit "Vector search tool failed: " ++ message ++ pleaseCheck))).

End Tools.

Section VideoTool.
Context {W : Type} (env : Env W).
Local Open Scope js_scope.

(** [result.rows.map(row => ({ video_id, time_start, time_end, content, score }))] *)
Definition toVideoSearchResult (row : VideoRow) : VideoSearchResult :=
  mkVideoSearchResult (vrow_video_id row) (vrow_time_start row) (vrow_time_end row)
    (orStr (vrow_content row) (orStr (vrow_transcript row) []))
    (vrow_score row).

(** The operation retried by the videoSearch tool. *)
Definition videoSearchQuery (embedding : list Q) (limit : Q)
    : M W (list VideoSearchResult) :=
  tryCatch
    (connected <- external (pgConnect env) ;;
     liftO connected ;;;
     emit (EvVideoQuery limit) ;;;
     result <- external (queryVideoRecordings env embedding limit) ;;
     match result with
     | QRows rows => ret (List.map toVideoSearchResult rows)
     | QError message => throw (Error message)
     | QTimeout => throw (Error (Js.lit "Video search timeout after 20000ms"))
     end)
    (fun searchError =>
       message <- liftO (messageOf searchError) ;;
       throw (Error (Js.lit "Video search unavailable: " ++ message ++ pleaseCheck))).

Definition noVideosFound : Js.str :=
  Js.lit "No relevant videos found. The video database may be empty or the search terms may be too specific.".

(** One numbered entry of the videoSearch response. *)
Definition videoEntry (index : nat) (video : VideoSearchResult) : Js.str :=
  concat
    [ Js.ofNat (index + 1); Js.lit ". [Score: "; toFixed3 env (video_score video); Js.lit "]"; Js.nl;
      Js.lit "  Video ID: "; video_id video; Js.nl;
      Js.lit "  Time Range: "; time_start video; Js.lit " - "; time_end video; Js.nl;
      Js.lit "  "; Js.nl;
      Js.lit "  **FULL VIDEO CONTENT/TRANSCRIPT:**"; Js.nl;
      Js.lit "  "; video_content video; Js.nl;
      Js.lit "  "; Js.nl;
      Js.lit "  **Video Reference to include in JSON:**"; Js.nl;
      Js.lit "  {"; Js.nl;
      Js.lit "    "; quote; Js.lit "video_id"; quote; Js.lit ": "; quote; video_id video; quote; Js.lit ","; Js.nl;
      Js.lit "    "; quote; Js.lit "time_start"; quote; Js.lit ": "; quote; time_start video; quote; Js.lit ","; Js.nl;
      Js.lit "    "; quote; Js.lit "time_end"; quote; Js.lit ": "; quote; time_end video; quote; Js.nl;
      Js.lit "  }" ].

(** [videoToolResponse] *)
Definition videoToolResponse (videos : list VideoSearchResult) : Js.str :=
  concat
    [ Js.lit "Found "; Js.ofNat (length videos);
      Js.lit " relevant video content. **IMPORTANT: Use this video information for your ";
      quote; Js.lit "video_references"; quote; Js.lit " field in the JSON output.**"; Js.nl; Js.nl;
      Js.join (Js.nl ++ Js.nl) (imap videoEntry videos); Js.nl; Js.nl;
      Js.lit "**CRITICAL: Include ALL these video references in your JSON output ";
      quote; Js.lit "video_references"; quote;
      Js.lit " array. This is required for proper video citation.**" ].

Definition embeddingNotFound (embeddingId : Js.str) : Js.str :=
  Js.lit "Embedding " ++ embeddingId
  ++ Js.lit " not found in cache. Please use generateEmbedding first.".

(** The videoSearch tool; [limit] defaults to 4. Its [catch] returns a
    string. *)
Definition videoSearch (embeddingId : Js.str) (limit : option Q) : M W JsVal :=
  let limit := default 4%Q limit in
  tryCatch
    (sleep 500 ;;;
     let cacheKey := embeddingId ++ Js.lit "_1536" in
     cached <- cacheGet cacheKey ;;
     match cached with
     | None => throw (Error (embeddingNotFound embeddingId))
     | Some embedding =>
         videos <- retryOperation env (videoSearchQuery embedding limit) 5 2000 ;;
         if (length videos =? 0)%nat then ret (VStr noVideosFound)
         else ret (VStr (videoToolResponse videos))
     end)
    (fun error =>
       message <- liftO (messageOf error) ;;
       ret (VStr (Js.lit "Video search unavailable: " ++ message ++ pleaseCheck))).

End VideoTool.

(* ------------------------------------------------------------------ *)
(** ** Running the agent *)

Section Agent.
Context {W : Type} (env : Env W).
Local Open Scope js_scope.

(** Dispatch of a tool call requested by the agent. *)
Definition runTool (call : ToolCall) : M W JsVal :=
  match call with
  | CallGenerateEmbedding text => generateEmbedding env text
  | CallVectorSearch embeddingId limit => vectorSearch env embeddingId limit
  | CallVideoSearch embeddingId limit => videoSearch env embeddingId limit
  end.

(** [executeWithTimeout(this.agentExecutor.invoke(...), timeoutMs)] along
    one run of the agent. *)
Fixpoint runAgent (timeoutMs : N) (run : AgentRun) : M W JsVal :=
  match run with
  | AgentDone output => ret output
  | AgentRejected e => throw e
  | AgentTimedOut =>
      throw (Error (Js.lit "LangChain execution timed out after "
                    ++ Js.ofN timeoutMs ++ Js.lit "ms"))
  | AgentToolCall call k =>
      fun s =>
        let '(outcome, s') := (emit (EvToolCall (toolName call)) ;;; runTool call) s in
        runAgent timeoutMs (k outcome) s'
  end.

Definition executeWithTimeout (agentInput : AgentInput) (timeoutMs : N) : M W JsVal :=
  fun s => runAgent timeoutMs (agentExecutor_invoke env agentInput (world s)) s.

End Agent.

(* ------------------------------------------------------------------ *)
(** ** SolutionOutputDto and its validation *)

(** [object[key]]; an absent property reads as [undefined]. *)
Fixpoint getProp (key : Js.str) (props : list (Js.str * JsVal)) : JsVal :=
  match props with
  | [] => VUndefined
  | (k, v) :: rest => if Js.eqb k key then v else getProp key rest
  end.

(** One [ValidationError] of class-validator: the property and the
    messages of its violated constraints (none when only nested values
    are at fault). *)
Record ValidationError := mkValidationError {
  property : Js.str;
  constraints : list Js.str
}.

Definition isNumber (property : Js.str) (v : JsVal) : list Js.str :=
  match v with
  | VNum _ => []
  | _ => [property ++ Js.lit " must be a number conforming to the specified constraints"]
  end.

Definition isString (property : Js.str) (v : JsVal) : list Js.str :=
  match v with
  | VStr _ => []
  | _ => [property ++ Js.lit " must be a string"]
  end.

Definition isBoolean (property : Js.str) (v : JsVal) : list Js.str :=
  match v with
  | VBool _ => []
  | _ => [property ++ Js.lit " must be a boolean value"]
  end.

(** [@IsOptional()]: the other decorators are skipped on null and
    undefined. *)
Definition isOptional (check : JsVal -> list Js.str) (v : JsVal) : list Js.str :=
  match v with
  | VUndefined | VNull => []
  | _ => check v
  end.

(** Violations of a property list against a list of decorated fields. *)
Definition fieldErrors (fields : list (Js.str * (Js.str -> JsVal -> list Js.str)))
    (props : list (Js.str * JsVal)) : list ValidationError :=
  omap (fun '(name, check) =>
          match check name (getProp name props) with
          | [] => None
          | cs => Some (mkValidationError name cs)
          end) fields.

Definition ReferenceDto : list (Js.str * (Js.str -> JsVal -> list Js.str)) :=
  [ (Js.lit "book_title", isString); (Js.lit "book_id", isString);
    (Js.lit "page_start", isNumber); (Js.lit "page_end", isNumber) ].

Definition VideoReferenceDto : list (Js.str * (Js.str -> JsVal -> list Js.str)) :=
  [ (Js.lit "video_id", isString); (Js.lit "time_start", isString);
    (Js.lit "time_end", isString) ].

Definition ImageDto : list (Js.str * (Js.str -> JsVal -> list Js.str)) :=
  [ (Js.lit "is_required", isBoolean);
    (Js.lit "image_description", fun p => isOptional (isString p)) ].

(** [@ValidateNested({ each: true })] on one element: undefined is
    skipped, arrays are entered, objects are validated as [dto], anything
    else, null included, is an error. *)
Fixpoint nestedInvalid (dto : list (Js.str * (Js.str -> JsVal -> list Js.str)))
    (v : JsVal) {struct v} : bool :=
  match v with
  | VUndefined => false
  | VNull => true
  | VArr items =>
      (fix any (l : list JsVal) : bool :=
         match l with
         | [] => false
         | x :: l' => nestedInvalid dto x || any l'
         end) items
  | VObj props => negb (bool_decide (fieldErrors dto props = []))
  | VBool _ | VNum _ | VStr _ => true
  end.

(** [@IsArray() @ValidateNested({ each: true }) @Type(() => dto)] *)
Definition isArrayOf (dto : list (Js.str * (Js.str -> JsVal -> list Js.str)))
    (property : Js.str) (v : JsVal) : option ValidationError :=
  match v with
  | VArr items =>
      if existsb (nestedInvalid dto) items then Some (mkValidationError property [])
      else None
  | VUndefined | VObj _ =>
      Some (mkValidationError property [property ++ Js.lit " must be an array"])
  | VNull | VBool _ | VNum _ | VStr _ =>
      Some (mkValidationError property
              [ property ++ Js.lit " must be an array";
                Js.lit "nested property " ++ property
                ++ Js.lit " must be either object or array" ])
  end.

(** [validate(dto)] for [SolutionOutputDto]. *)
Definition validate (props : list (Js.str * JsVal)) : list ValidationError :=
  fieldErrors [ (Js.lit "answer", isNumber); (Js.lit "ans_description", isString) ] props
  ++ omap (fun '(name, dto) => isArrayOf dto name (getProp name props))
       [ (Js.lit "references", ReferenceDto);
         (Js.lit "video_references", VideoReferenceDto);
         (Js.lit "images", ImageDto) ].

(** [`Property '${error.property}': ${Object.values(error.constraints || {}).join(', ')}`] *)
Definition errorMessage (error : ValidationError) : Js.str :=
  Js.lit "Property '" ++ property error ++ Js.lit "': "
  ++ Js.join (Js.lit ", ") (constraints error).

(** The body of the [try] of [validateAndTransformResponse] on an object. *)
Definition validateBody (props : list (Js.str * JsVal)) : Outcome JsVal :=
  match validate props with
  | (_ :: _) as errors =>
      Throw (Error (Js.lit "Validation failed: "
                    ++ Js.join (Js.lit "; ") (List.map errorMessage errors)))
  | [] =>
      match getProp (Js.lit "answer") props, getProp (Js.lit "ans_description") props with
      | VNum answer, VStr ans_description =>
          if Qlt_le_dec answer 0 then
            Throw (Error (Js.lit "Answer must be between 0 and 3 (0-based index for options A-D)"))
          else if Qlt_le_dec 3 answer then
            Throw (Error (Js.lit "Answer must be between 0 and 3 (0-based index for options A-D)"))
          else if (length (Js.trim ans_description) =? 0)%nat then
            Throw (Error (Js.lit "Answer description cannot be empty"))
          else Return (VObj props)
      | _, _ => Throw (Error (Js.lit "Answer description cannot be empty"))
      end
  end.

Section Validation.
Context {W : Type} (env : Env W).

(** [validateAndTransformResponse(response)] *)
Definition validateAndTransformResponse (response : JsVal) : Outcome JsVal :=
  let invalid message := Throw (LLMGenerationError (Js.lit "Invalid response format: " ++ message)) in
  match response with
  | VObj props =>
      match validateBody props with
      | Return dto => Return dto
      | Throw error =>
          match messageOf error with
          | Return message => invalid message
          | Throw e => Throw e
          end
      end
  | other => invalid (describeInvalid env other)
  end.

End Validation.

(* ------------------------------------------------------------------ *)
(** ** generate *)

(** [text.includes('![') && text.includes('](')] *)
Definition hasMarkdownImage (text : Js.str) : bool :=
  Js.includes (Js.lit "![") text && Js.includes (Js.lit "](") text.

Definition emptyOutputMessage : Js.str :=
  Js.lit "Agent returned empty output. This could be due to token limit exhaustion, iteration limit reached, database timeouts, or tool execution failures. Check verbose logs for details.".

(** The guard
    [!result.output || (Array.isArray(result.output) && result.output.length === 0)
     || result.output.trim() === ''].
    It yields the text when the output is a string with something other
    than white space in it; a truthy value without [trim] is a
    TypeError. *)
Definition checkOutput (output : JsVal) : Outcome Js.str :=
  let empty := Throw (LLMGenerationError emptyOutputMessage) in
  let noTrim := Throw (TypeError (Js.lit "result.output.trim is not a function")) in
  match output with
  | VUndefined | VNull | VBool false | VStr [] | VArr [] => empty
  | VNum q => if Qeq_bool q 0 then empty else noTrim
  | VStr s => if Js.eqb (Js.trim s) [] then empty else Return s
  | VBool true | VArr (_ :: _) | VObj _ => noTrim
  end.

(** The output counts as empty when the guard above is true. *)
Definition isEmptyOutput (output : JsVal) : bool :=
  match output with
  | VUndefined | VNull | VBool false | VArr [] => true
  | VNum q => Qeq_bool q 0
  | VStr s => Js.eqb (Js.trim s) []
  | VBool true | VArr (_ :: _) | VObj _ => false
  end.

(** The text between the first opening and the last closing brace. *)
Definition extractJson (responseText : Js.str) : Js.str :=
  let jsonString := Js.trim responseText in
  match Js.indexOf 123%N jsonString, Js.lastIndexOf 125%N jsonString with
  | Some jsonStart, Some jsonEnd =>
      if (jsonStart <? jsonEnd)%nat then Js.substring jsonStart (jsonEnd + 1) jsonString
      else jsonString
  | _, _ => jsonString
  end.

Section Generate.
Context {W : Type} (env : Env W).
Local Open Scope js_scope.

Definition parseResponse (responseText : Js.str) : Outcome JsVal :=
  match JSON_parse env (extractJson responseText) with
  | Return parsedResponse => Return parsedResponse
  | Throw parseError =>
      match messageOf parseError with
      | Return message =>
          Throw (LLMGenerationError
                   (Js.lit "Invalid JSON response from LangChain agent: " ++ message))
      | Throw e => Throw e
      end
  end.

Definition textMessageOf (processedQuestion : Js.str) (processedOptions : list Js.str)
    : Js.str :=
  let option i := nth i processedOptions (Js.lit "undefined") in
  concat [ Js.lit "Question: "; processedQuestion; Js.nl;
           Js.lit "Options:"; Js.nl;
           option 0%nat; Js.nl; option 1%nat; Js.nl; option 2%nat; Js.nl; option 3%nat ].

Definition imagesContextOf (extractedImages : list ExtractedImage) : Js.str :=
  match extractedImages with
  | [] => []
  | _ :: _ =>
      concat [ Js.nl; Js.nl; Js.lit "IMAGES PROVIDED: This question includes ";
               Js.ofNat (length extractedImages);
               Js.lit " image(s). The question may contain visual elements that need to be considered when determining the answer. Use the text content and context clues to understand what the images might show and factor this into your analysis." ]
  end.

(** Image extraction, prompt assembly and the agent call under its
    120 s timer. *)
Definition invokeAgent (q : ServicableQuestionWithImages) (systemMessage : Js.str)
    : M W JsVal :=
  let existingImages := default [] (images q) in
  let hasMarkdownImages := existsb hasMarkdownImage (question q :: options q) in
  processed <-
    (if hasMarkdownImages then
       imageResult <- external (processQuestionAndOptions env (question q) (options q)) ;;
       ret (mkProcessed (pq_question imageResult) (pq_options imageResult)
                        (existingImages ++ pq_images imageResult))
     else ret (mkProcessed (question q) (options q) existingImages)) ;;
  let textMessage := textMessageOf (pq_question processed) (pq_options processed) in
  executeWithTimeout env
    (mkAgentInput textMessage systemMessage (imagesContextOf (pq_images processed)))
    120000.

(** The [try] block of [generate] up to the agent's result: the cache is
    cleared first. *)
Definition agentResult (q : ServicableQuestionWithImages) (systemMessage : Js.str)
    : M W JsVal :=
  clearEmbeddingCache ;;;
  invokeAgent q systemMessage.

(** The [try] block of [generate]. *)
Definition generateBody (q : ServicableQuestionWithImages) (systemMessage : Js.str)
    : M W JsVal :=
  output <- agentResult q systemMessage ;;
  responseText <- liftO (checkOutput output) ;;
  parsedResponse <- liftO (parseResponse responseText) ;;
  liftO (validateAndTransformResponse env parsedResponse).

(** [generate(question, systemMessage)] *)
Definition generate (q : ServicableQuestionWithImages) (systemMessage : Js.str)
    : M W JsVal :=
  tryCatch (generateBody q systemMessage)
    (fun error =>
       message <- liftO (messageOf error) ;;
       throw (LLMGenerationError (Js.lit "Failed to generate solution: " ++ message))).

End Generate.

(* ------------------------------------------------------------------ *)
(** ** Observing the retry wrapper *)

Section Observed.
Context {W : Type}.

(** The operation as its caller sees it: one step that records, after
    the trace it started from, that it ran and what it threw. *)
Definition observed {T} (operation : M W T) : M W T :=
  fun s =>
    let '(o, s') := operation s in
    (o, mkState (world s') (embeddingCache s') (embeddingCounter s')
                (trace s ++ [EvInvoked (errorOf o)])).

(** The events of a run of the wrapper over an observed operation:
    failed attempts, each followed by the wait before the next attempt,
    then the attempt that ended the run (none when no attempt was made). *)
Definition retryEvents {T} (failures : list (thrown * Z)) (final : option (Outcome T))
    : list Event :=
  flat_map (fun '(e, d) => [EvInvoked (Some e); EvSleep d]) failures
  ++ match final with
     | Some o => [EvInvoked (errorOf o)]
     | None => []
     end.

End Observed.

Definition isInvoked (ev : Event) : bool :=
  match ev with EvInvoked _ => true | _ => false end.

(** Number of times an observed operation ran. *)
Definition invocations (events : list Event) : nat :=
  length (List.filter isInvoked events).

(** What each attempt of such a run threw, in order; [None] for the
    attempt that returned. *)
Definition attemptErrors {T} (failures : list (thrown * Z)) (final : option (Outcome T))
    : list (option thrown) :=
  List.map (fun p => Some (fst p)) failures
  ++ match final with
     | Some o => [errorOf o]
     | None => []
     end.

(** The wait after failed attempt [k] (counted from 1) is within
    [baseDelay * 2^(k-1)] and 1.3 times that. *)
Definition delayInRange (baseDelay : Z) (k : nat) (d : Z) : Prop :=
  baseDelay * 2 ^ Z.of_nat (k - 1) <= d
  /\ (inject_Z d <= inject_Z (baseDelay * 2 ^ Z.of_nat (k - 1)) * (13 # 10))%Q.

(* ------------------------------------------------------------------ *)
(** ** A concrete world *)

(** A small deterministic instance of the collaborators: the world is the
    number of external calls made so far, the stores are fixed lists of
    rows served in order up to the requested limit. *)
Module Sample.

Definition ofZ (z : Z) : Js.str :=
  (if z <? 0 then Js.lit "-" else []) ++ Js.ofN (Z.abs_N z).

(** Decimal rendering with three fraction digits, nearest thousandth. *)
Definition toFixed3 (q : Q) : Js.str :=
  let n := Qfloor (q * 1000 + (1 # 2))%Q in
  let a := Z.abs n in
  (if n <? 0 then Js.lit "-" else [])
  ++ Js.ofN (Z.to_N (a / 1000)) ++ Js.lit "."
  ++ Js.ofN (Z.to_N (a / 100 mod 10)) ++ Js.ofN (Z.to_N (a / 10 mod 10))
  ++ Js.ofN (Z.to_N (a mod 10)).

Definition numberToString (q : Q) : Js.str :=
  if (Qden q =? 1)%positive then ofZ (Qnum q) else toFixed3 q.

(** Rows served for a limit: an error for a negative limit, else the first
    [floor limit] rows. *)
Definition serve {Row} (rows : list Row) (limit : Q) (w : nat) : QueryOutcome Row * nat :=
  if Qlt_le_dec limit 0 then (QError (Js.lit "LIMIT must not be negative"), S w)
  else (QRows (firstn (Z.to_nat (Qfloor limit)) rows), S w).

Definition longContent : Js.str := repeat 97%N 600.

Definition anatomy : Metadata :=
  mkMetadata None (Some (Js.lit "Anatomy")) (Some (Js.lit "b-7")) None
             None (Some 12%Q) (Some 14%Q) None.

Definition doc (text : Js.str) (similarity : Q) : DocRow :=
  mkDocRow (Some (Js.lit "d")) (Some text) (MetaObject anatomy) (Some similarity).

Definition docs : list DocRow :=
  [ doc longContent (9 # 10); doc (Js.lit "Stroke volume") (8 # 10);
    doc (Js.lit "Cardiac output") (7 # 10); doc (Js.lit "Preload") (6 # 10);
    doc (Js.lit "Afterload") (5 # 10); doc (Js.lit "Heart rate") (4 # 10) ].

Definition video (n : nat) : VideoRow :=
  mkVideoRow (Js.lit "v" ++ Js.ofNat n) (Js.lit "00:01:00") (Js.lit "00:02:00")
             (Some (Js.lit "Lecture segment")) None (9 # 10).

Definition videos : list VideoRow := List.map video (seq 1 6).

Definition q (text : string) : Js.str := quote ++ Js.lit text ++ quote.

(** The text of the response below, as a model would write it. *)
Definition json : Js.str :=
  concat
    [ Js.lit "{"; q "answer"; Js.lit ":1,";
      q "ans_description"; Js.lit ":"; q "60-100 beats per minute."; Js.lit ",";
      q "references"; Js.lit ":[{"; q "book_title"; Js.lit ":"; q "Anatomy"; Js.lit ",";
      q "book_id"; Js.lit ":"; q "b-7"; Js.lit ",";
      q "page_start"; Js.lit ":12,"; q "page_end"; Js.lit ":14}],";
      q "video_references"; Js.lit ":[],";
      q "images"; Js.lit ":[{"; q "is_required"; Js.lit ":false,";
      q "image_description"; Js.lit ":null}]}" ].

(** A parsed response with one reference, no video and one image entry. *)
Definition response (answer : Q) (description : string) : list (Js.str * JsVal) :=
  [ (Js.lit "answer", VNum answer);
    (Js.lit "ans_description", VStr (Js.lit description));
    (Js.lit "references",
      VArr [ VObj [ (Js.lit "book_title", VStr (Js.lit "Anatomy"));
                    (Js.lit "book_id", VStr (Js.lit "b-7"));
                    (Js.lit "page_start", VNum 12); (Js.lit "page_end", VNum 14) ] ]);
    (Js.lit "video_references", VArr []);
    (Js.lit "images",
      VArr [ VObj [ (Js.lit "is_required", VBool false);
                    (Js.lit "image_description", VNull) ] ]) ].

(** An agent that embeds the question, searches both stores and answers
    with [answer]. *)
Definition agent (answer : JsVal) (agentInput : AgentInput) (w : nat) : AgentRun :=
  AgentToolCall (CallGenerateEmbedding (input agentInput)) (fun _ =>
  AgentToolCall (CallVectorSearch (Js.lit "emb_1") (Some 10%Q)) (fun _ =>
  AgentToolCall (CallVideoSearch (Js.lit "emb_1") None) (fun _ =>
  AgentDone answer))).

Definition env (documents : list DocRow) (recordings : list VideoRow) (answer : JsVal)
    : Env nat :=
  mkEnv nat
    (fun _ w => (Return [1; 2; 3]%Q, S w))                   (* embedBooks *)
    (fun _ w => (Return [4; 5]%Q, S w))                      (* embedVideos *)
    (fun w => (Return tt, S w))                              (* pgConnect *)
    (fun _ => serve documents)                               (* matchDocuments *)
    (fun _ => serve recordings)                              (* queryVideoRecordings *)
    (fun w => ((1 # 10)%Q, S w))                             (* mathRandom *)
    toFixed3
    numberToString
    (fun _ => Return None)                                   (* parseMetadata *)
    (fun text =>                                             (* JSON_parse *)
       if Js.eqb text json
       then Return (VObj (response 1 "60-100 beats per minute."))
       else Throw (Error (Js.lit "Unexpected token")))
    (fun q opts w => (mkProcessed q opts [], S w))           (* processQuestionAndOptions *)
    (agent answer)                                           (* agentExecutor_invoke *)
    (fun _ => Js.lit "Validation failed").                   (* describeInvalid *)

(** The service before any request. *)
Definition initial : State nat := mkState O ∅ O [].

(** The service with one embedding pair cached as [emb_1]. *)
Definition cached : State nat :=
  mkState O (<[Js.lit "emb_1_1536" := [4; 5]%Q]> (<[Js.lit "emb_1_3072" := [1; 2; 3]%Q]> ∅))
          1 [].

(** An operation that always rejects. *)
Definition failing : M nat unit := fun s => (Throw (Error (Js.lit "ECONNRESET")), s).

Definition heartRate : ServicableQuestionWithImages :=
  mkQuestion (Js.lit "What is the normal heart rate for an adult?")
             [ Js.lit "50-70 bpm"; Js.lit "60-100 bpm"; Js.lit "80-120 bpm";
               Js.lit "100-140 bpm" ]
             None.

End Sample.

(* ------------------------------------------------------------------ *)
(** ** Vocabulary of the statements *)

(** Every run of [m] takes a state to one related to it by [R]. *)
Definition steps {W A} (R : relation (State W)) (m : M W A) : Prop :=
  forall s, R s (snd (m s)).

(** [R] relates a state to the same state with another world. *)
Definition worldStep {W} (R : relation (State W)) : Prop :=
  forall s w, R s (mkState w (embeddingCache s) (embeddingCounter s) (trace s)).

(** The trace grew by events that all satisfy [P]; nothing is said of
    the rest of the state. *)
Definition appended {W} (P : Event -> Prop) (s s' : State W) : Prop :=
  exists evs, trace s' = trace s ++ evs /\ Forall P evs.

(** Whether a value holds an array anywhere inside it. *)
Fixpoint containsArray (v : JsVal) : bool :=
  match v with
  | VArr _ => true
  | VObj props =>
      (fix any (l : list (Js.str * JsVal)) : bool :=
         match l with
         | [] => false
         | (_, x) :: l' => containsArray x || any l'
         end) props
  | VUndefined | VNull | VBool _ | VNum _ | VStr _ => false
  end.

(** Well-formed parts of a parsed response. *)
Definition hasString (key : string) (props : list (Js.str * JsVal)) : Prop :=
  exists text, getProp (Js.lit key) props = VStr text.

Definition hasNumber (key : string) (props : list (Js.str * JsVal)) : Prop :=
  exists q, getProp (Js.lit key) props = VNum q.

Definition isReference (v : JsVal) : Prop :=
  exists props, v = VObj props
    /\ hasString "book_title" props /\ hasString "book_id" props
    /\ hasNumber "page_start" props /\ hasNumber "page_end" props.

Definition isVideoReference (v : JsVal) : Prop :=
  exists props, v = VObj props
    /\ hasString "video_id" props /\ hasString "time_start" props
    /\ hasString "time_end" props.

Definition isImage (v : JsVal) : Prop :=
  exists props, v = VObj props
    /\ (exists b, getProp (Js.lit "is_required") props = VBool b)
    /\ (hasString "image_description" props
        \/ getProp (Js.lit "image_description") props = VNull
        \/ getProp (Js.lit "image_description") props = VUndefined).

Definition isArrayWhere (P : JsVal -> Prop) (v : JsVal) : Prop :=
  exists items, v = VArr items /\ Forall P items.

(** [references], [video_references] and [images] are arrays of
    well-formed records. *)
Definition listsWellFormed (props : list (Js.str * JsVal)) : Prop :=
  isArrayWhere isReference (getProp (Js.lit "references") props)
  /\ isArrayWhere isVideoReference (getProp (Js.lit "video_references") props)
  /\ isArrayWhere isImage (getProp (Js.lit "images") props).

(** The text has a character that is not white space. *)
Definition hasVisibleCharacter (text : Js.str) : Prop :=
  Exists (fun c => Js.isWhiteSpace c = false) text.

(** The text is empty or white space only. *)
Definition isBlank (text : Js.str) : Prop :=
  Forall (fun c => Js.isWhiteSpace c = true) text.

(** The relation that holds of any two states. *)
Definition anyState {W} : relation (State W) := fun _ _ => True.

(** The counter did not go down. *)
Definition counterKept {W} (s s' : State W) : Prop :=
  (embeddingCounter s <= embeddingCounter s')%nat.

(** A state reached from [s] without touching the service's cache and
    counter. *)
Definition sameService {W} (s s' : State W) : Prop :=
  embeddingCache s' = embeddingCache s /\ embeddingCounter s' = embeddingCounter s.

(* ------------------------------------------------------------------ *)
(** ** Measures on the trace *)

(** Milliseconds spent in the waits recorded by the events; a negative
    delay does not wait. *)
Definition sleepOf (ev : Event) : Z :=
  match ev with
  | EvSleep ms => Z.max 0 ms
  | _ => 0
  end.

(** One for each query sent to a store. *)
Definition queryOf (ev : Event) : Z :=
  match ev with
  | EvMatchDocuments _ | EvVideoQuery _ => 1
  | _ => 0
  end.

(** Sum of a measure over events. *)
Definition total (measure : Event -> Z) (events : list Event) : Z :=
  foldr (fun ev acc => measure ev + acc) 0 events.

(** Every run of [m] appends events whose measure adds up to at most
    [budget]. *)
Definition spends {W A} (measure : Event -> Z) (budget : Z) (m : M W A) : Prop :=
  forall s, exists evs,
    trace (snd (m s)) = trace s ++ evs /\ total measure evs <= budget.

(** What the loop of [retryOperation] may spend from [attempt] on, when
    one run of the operation spends at most [perAttempt] and the wait after
    failed attempt [k] at most [perWait k]. *)
Fixpoint retryBudget (perAttempt : Z) (perWait : nat -> Z) (maxRetries : nat)
    (remaining attempt : nat) : Z :=
  match remaining with
  | O => 0
  | S remaining' =>
      perAttempt
      + (if (attempt =? maxRetries)%nat then 0
         else perWait attempt
              + retryBudget perAttempt perWait maxRetries remaining' (S attempt))
  end.

(* ------------------------------------------------------------------ *)
(** ** A world with outages *)

(** The sample world with the connection to PostgreSQL refused and the
    second embedding provider down. *)
Module Outage.

Definition env (documents : list DocRow) : Env nat :=
  mkEnv nat
    (fun _ w => (Return [1; 2; 3]%Q, S w))                   (* embedBooks *)
    (fun _ w => (Throw (Error (Js.lit "429 rate limit")), S w))   (* embedVideos *)
    (fun w => (Throw (Error (Js.lit "ECONNREFUSED")), S w))  (* pgConnect *)
    (fun _ => Sample.serve documents)                        (* matchDocuments *)
    (fun _ => Sample.serve [])                               (* queryVideoRecordings *)
    (fun w => ((2 # 10)%Q, S w))                             (* mathRandom *)
    Sample.toFixed3
    Sample.numberToString
    (fun _ => Return None)                                   (* parseMetadata *)
    (fun _ => Throw (Error (Js.lit "Unexpected token")))     (* JSON_parse *)
    (fun q opts w => (mkProcessed q opts [], S w))           (* processQuestionAndOptions *)
    (fun _ _ => AgentRejected (Error (Js.lit "fetch failed")))   (* agentExecutor_invoke *)
    (fun _ => Js.lit "Validation failed").                   (* describeInvalid *)

End Outage.

(* ------------------------------------------------------------------ *)
(** ** The cache and the ids handed out *)

(** The cache key of one half of the pair [emb_<n>]: the id followed by
    [_3072] or [_1536]. *)
Definition cacheKey (n : nat) (suffix : string) : Js.str :=
  (Js.lit "emb_" ++ Js.ofNat n) ++ Js.lit suffix.

(** The cache holds both halves of the pairs [emb_1] to
    [emb_<embeddingCounter>] and nothing else. *)
Definition pairsCached {W} (s : State W) : Prop :=
  forall key,
    is_Some (embeddingCache s !! key)
    <-> exists n suffix,
          (1 <= n <= embeddingCounter s)%nat
          /\ (suffix = "_3072"%string \/ suffix = "_1536"%string)
          /\ key = cacheKey n suffix.

(** From a cache of whole pairs the service went to a cache of whole
    pairs, handing out further ids and keeping every entry. *)
Definition cacheGrows {W} (s s' : State W) : Prop :=
  pairsCached s ->
  pairsCached s'
  /\ (embeddingCounter s <= embeddingCounter s')%nat
  /\ forall key value,
       embeddingCache s !! key = Some value -> embeddingCache s' !! key = Some value.

(** Every rejection along the run of the agent carries an error object. *)
Fixpoint rejectsWithErrors (run : AgentRun) : Prop :=
  match run with
  | AgentRejected e => e <> Undefined
  | AgentToolCall _ k => forall outcome, rejectsWithErrors (k outcome)
  | AgentDone _ | AgentTimedOut => True
  end.

(* ------------------------------------------------------------------ *)
(** ** QuestionTaggerService: validation of a classification *)

Module QuestionTagger.

(** [!response || typeof response !== 'object']; an array is an object. *)
Definition notAnObject (response : JsVal) : bool :=
  match response with
  | VObj _ | VArr _ => false
  | VUndefined | VNull | VBool _ | VNum _ | VStr _ => true
  end.

(** [response.subject_id] and the like; a parsed array has no such
    property. *)
Definition field (key : string) (response : JsVal) : JsVal :=
  match response with
  | VObj props => getProp (Js.lit key) props
  | _ => VUndefined
  end.

(** [value === 0 ? null : value] *)
Definition zeroToNull (value : JsVal) : JsVal :=
  match value with
  | VNum q => if Qeq_bool q 0 then VNull else value
  | _ => value
  end.

(** [ClassificationOutputDto]: [subject_id] is [@IsNumber()], the other
    two [@IsNumber() @IsOptional()]. *)
Definition ClassificationOutputDto : list (Js.str * (Js.str -> JsVal -> list Js.str)) :=
  [ (Js.lit "subject_id", isNumber);
    (Js.lit "topic_id", fun p => isOptional (isNumber p));
    (Js.lit "category_id", fun p => isOptional (isNumber p)) ].

(** [!value] *)
Definition falsy (value : JsVal) : bool :=
  match value with
  | VUndefined | VNull | VBool false | VStr [] => true
  | VNum q => Qeq_bool q 0
  | _ => false
  end.

(** [value <= 0] on what the decorators let through: a number, or null
    or undefined in an optional field. [null <= 0] is true and
    [undefined <= 0] is false; other values do not reach the
    comparison. *)
Definition atMostZero (value : JsVal) : bool :=
  match value with
  | VNum q => if Qlt_le_dec 0 q then false else true
  | VNull => true
  | _ => false
  end.

(** [value !== null] *)
Definition notNull (value : JsVal) : bool :=
  match value with
  | VNull => false
  | _ => true
  end.

(** The [try] block of [validateAndTransformResponse]. *)
Definition validateBody (response : JsVal) : Outcome JsVal :=
  if notAnObject response then Throw (Error (Js.lit "Response must be a valid object"))
  else
    let transformedResponse :=
      [ (Js.lit "subject_id", field "subject_id" response);
        (Js.lit "topic_id", zeroToNull (field "topic_id" response));
        (Js.lit "category_id", zeroToNull (field "category_id" response)) ] in
    match fieldErrors ClassificationOutputDto transformedResponse with
    | (_ :: _) as errors =>
        Throw (Error (Js.lit "Validation failed: "
                      ++ Js.join (Js.lit "; ")
                           (List.map (fun error => Js.join (Js.lit ", ") (constraints error))
                                     errors)))
    | [] =>
        let subject_id := getProp (Js.lit "subject_id") transformedResponse in
        let topic_id := getProp (Js.lit "topic_id") transformedResponse in
        let category_id := getProp (Js.lit "category_id") transformedResponse in
        if falsy subject_id || atMostZero subject_id then
          Throw (Error (Js.lit "Subject ID must be a positive integer"))
        else if notNull topic_id && atMostZero topic_id then
          Throw (Error (Js.lit "Topic ID must be null or a positive integer"))
        else if notNull category_id && atMostZero category_id then
          Throw (Error (Js.lit "Category ID must be null or a positive integer"))
        else Return (VObj transformedResponse)
    end.

(** [validateAndTransformResponse(response)] of the tagger. *)
Definition validateAndTransformResponse (response : JsVal) : Outcome JsVal :=
  match validateBody response with
  | Return dto => Return dto
  | Throw error =>
      match messageOf error with
      | Return message =>
          Throw (LLMGenerationError
                   (Js.lit "Invalid classification response format: " ++ message))
      | Throw e => Throw e
      end
  end.

(** What the tagger sends to its agent: the text alone, or a
    [HumanMessage] of the text and one [image_url] part per image. *)
Inductive AgentInput :=
| TextInput (input : Js.str)
| MultimodalInput (text : Js.str) (imageUrls : list Js.str).

(** How [agentExecutor.invoke(agentInput)] ends under the timer of
    [executeWithTimeout]; the agent's tools only read the NPrep API. *)
Inductive AgentEnd :=
| Answered (output : JsVal)             (* resolves with { output } *)
| Failed (e : thrown)                   (* invoke rejects *)
| TimedOut.                             (* the timer fires first *)

(** The collaborators of [classifyQuestion]. *)
Record Tagger (W : Type) := mkTagger {
  agentExecutor_invoke : AgentInput -> W -> AgentEnd * W;
  JSON_parse : Js.str -> Outcome JsVal
}.
Arguments agentExecutor_invoke {W} _ _ _.
Arguments JSON_parse {W} _ _.

Section Service.
Context {W : Type} (tagger : Tagger W).
Local Open Scope js_scope.

(** The user message: question, options and, when given, the
    solution. *)
Definition textMessageOf (request : ServicableQuestionWithImages) (solution : option Js.str)
    : Js.str :=
  let option i := nth i (options request) (Js.lit "undefined") in
  concat [ Js.lit "Question:"; Js.nl; question request; Js.nl; Js.nl;
           Js.lit "Options:"; Js.nl;
           option 0%nat; Js.nl; option 1%nat; Js.nl; option 2%nat; Js.nl; option 3%nat ]
  ++ match solution with
     | Some (c :: text) => concat [ Js.nl; Js.nl; Js.lit "Solution:"; Js.nl; c :: text ]
     | Some [] | None => []
     end.



(** [executeWithTimeout(this.agentExecutor.invoke(agentInput), 60000)],
    then [result.output]. *)
Definition invokeAgent (agentInput : AgentInput) : M W JsVal :=
  agentEnd <- external (agentExecutor_invoke tagger agentInput) ;;
  match agentEnd with
  | Answered output => ret output
  | Failed e => throw e
  | TimedOut => throw (Error (Js.lit "LangChain execution timed out after 60000ms"))
  end.

(** The inner [try]: the JSON text is cut out of the reply and parsed;
    its [catch] wraps whatever was thrown, a reply without [trim]
    included. *)
Definition parseResponse (responseText : JsVal) : Outcome JsVal :=
  let parsed :=
    match responseText with
    | VStr text => JSON_parse tagger (extractJson text)
    | VUndefined =>
        Throw (TypeError (Js.lit "Cannot read properties of undefined (reading 'trim')"))
    | VNull => Throw (TypeError (Js.lit "Cannot read properties of null (reading 'trim')"))
    | VBool _ | VNum _ | VArr _ | VObj _ =>
        Throw (TypeError (Js.lit "responseText.trim is not a function"))
    end in
  match parsed with
  | Return parsedResponse => Return parsedResponse
  | Throw parseError =>
      match messageOf parseError with
      | Return message =>
          Throw (LLMGenerationError
                   (Js.lit "Invalid JSON response from LangChain agent: " ++ message))
      | Throw e => Throw e
      end
  end.


End Service.

End QuestionTagger.

(** An optional id as a response may give it: left out, null, zero or a
    positive number. *)
Definition optionalId (value : JsVal) : Prop :=
  value = VUndefined \/ value = VNull \/ exists q, value = VNum q /\ (0 <= q)%Q.

(* ------------------------------------------------------------------ *)
(** ** ImageProcessorService *)

Module ImageProcessor.

(** What [axios.get(imageUrl, { responseType: 'arraybuffer', ... })]
    resolves with, as far as the service reads it. *)
Record AxiosResponse := mkAxiosResponse {
  contentType : option Js.str;         (* response.headers['content-type'] *)
  body : list N                        (* response.data *)
}.

(** The collaborators of the image processor. *)
Record Net (W : Type) := mkNet {
  axios_get : Js.str -> W -> Outcome AxiosResponse * W;
    (** [Buffer.from(data, 'binary').toString('base64')] *)
  base64 : list N -> Js.str;
    (** [String.prototype.toLowerCase] *)
  toLowerCase : Js.str -> Js.str
}.
Arguments axios_get {W} _ _ _.
Arguments base64 {W} _ _.
Arguments toLowerCase {W} _ _.

(** The longest prefix of [text] without the code unit [stop], and what
    follows it: the way the two negated character classes match. *)
Fixpoint upTo (stop : N) (text : Js.str) : Js.str * Js.str :=
  match text with
  | [] => ([], [])
  | c :: rest =>
      if (c =? stop)%N then ([], text)
      else let '(taken, after) := upTo stop rest in (c :: taken, after)
  end.

(** What follows the literal [p] at the start of [s], when [s] starts
    with it. *)
Fixpoint stripPrefix (p s : Js.str) : option Js.str :=
  match p, s with
  | [], _ => Some s
  | a :: p', b :: s' => if (a =? b)%N then stripPrefix p' s' else None
  | _ :: _, [] => None
  end.

(** A match of the image pattern at the start of [text]: an exclamation
    mark and an opening bracket, the alt text (any run of characters
    other than a closing bracket), a closing bracket and an opening
    parenthesis, the URL (one character or more, none a closing
    parenthesis), a closing parenthesis. It yields the alt text, the URL
    and the text after the match. Both groups are runs of a negated class
    followed by the delimiter the class excludes, so the regular
    expression has one way to match. *)
Definition matchAt (text : Js.str) : option (Js.str * Js.str * Js.str) :=
  match stripPrefix (Js.lit "![") text with
  | None => None
  | Some afterOpen =>
      let '(alt, closing) := upTo 93%N afterOpen in
      match stripPrefix (Js.lit "](") closing with
      | None => None
      | Some afterParen =>
          let '(url, closingParen) := upTo 41%N afterParen in
          match url, stripPrefix (Js.lit ")") closingParen with
          | _ :: _, Some rest => Some (alt, url, rest)
          | _, _ => None
          end
      end
  end.

(** The successive matches of the global regular expression, as the
    [while ((match = imageRegex.exec(markdownText)) !== null)] loop sees
    them: [(match[1], match[2])], left to right, the search resuming after
    each match. Every step consumes a character, so [fuel] at least the
    length of the text reaches its end. *)
Fixpoint matchesFrom (fuel : nat) (text : Js.str) : list (Js.str * Js.str) :=
  match fuel with
  | O => []
  | S fuel' =>
      match matchAt text with
      | Some (alt, url, rest) => (alt, url) :: matchesFrom fuel' rest
      | None =>
          match text with
          | [] => []
          | _ :: rest => matchesFrom fuel' rest
          end
      end
  end.

Definition matches (text : Js.str) : list (Js.str * Js.str) :=
  matchesFrom (length text) text.

(** [markdownText.replace(imagePattern, '')], the pattern global: every
    match is dropped, the text between matches kept. *)
Fixpoint removeFrom (fuel : nat) (text : Js.str) : Js.str :=
  match fuel with
  | O => []
  | S fuel' =>
      match matchAt text with
      | Some (_, _, rest) => removeFrom fuel' rest
      | None =>
          match text with
          | [] => []
          | c :: rest => c :: removeFrom fuel' rest
          end
      end
  end.

(** [removeImageMarkdown(markdownText)] *)
Definition removeImageMarkdown (markdownText : Js.str) : Js.str :=
  Js.trim (removeFrom (length markdownText) markdownText).

(** [s.endsWith(suffix)] *)
Definition endsWith (suffix s : Js.str) : bool :=
  Js.startsWith (rev suffix) (rev s).

(** [isSupportedImageFormat(mimeType)] *)
Definition isSupportedImageFormat (mimeType : Js.str) : bool :=
  existsb (Js.eqb mimeType)
    [ Js.lit "image/png"; Js.lit "image/jpeg"; Js.lit "image/webp";
      Js.lit "image/heic"; Js.lit "image/heif" ].

Section Service.
Context {W : Type} (net : Net W).

(** [determineMimeType(contentType, imageUrl)]; [split(';')[0]] is the
    header up to its first semicolon. *)
Definition determineMimeType (contentType : option Js.str) (imageUrl : Js.str) : Js.str :=
  let byExtension :=
    let urlLower := toLowerCase net imageUrl in
    if endsWith (Js.lit ".png") urlLower then Js.lit "image/png"
    else if endsWith (Js.lit ".jpg") urlLower || endsWith (Js.lit ".jpeg") urlLower
      then Js.lit "image/jpeg"
    else if endsWith (Js.lit ".webp") urlLower then Js.lit "image/webp"
    else if endsWith (Js.lit ".heic") urlLower then Js.lit "image/heic"
    else if endsWith (Js.lit ".heif") urlLower then Js.lit "image/heif"
    else Js.lit "image/jpeg" in
  match contentType with
  | Some header =>
      if Js.startsWith (Js.lit "image/") header then fst (upTo 59%N header)
      else byExtension
  | None => byExtension
  end.

(** [downloadAndConvertToBase64(imageUrl, altText)]; its [catch] logs
    [error.message] and rethrows. *)
Definition downloadAndConvertToBase64 (imageUrl altText : Js.str) (w : W)
    : Outcome ExtractedImage * W :=
  let rethrow error :=
    match messageOf error with
    | Return _ => Throw error
    | Throw e => Throw e
    end in
  match axios_get net imageUrl w with
  | (Throw error, w') => (rethrow error, w')
  | (Return response, w') =>
      let base64Data := base64 net (body response) in
      let mimeType := determineMimeType (contentType response) imageUrl in
      if isSupportedImageFormat mimeType then
        (Return (mkExtractedImage mimeType base64Data imageUrl (Some altText)), w')
      else
        (rethrow (Error (Js.lit "Unsupported image format: " ++ mimeType)), w')
  end.

(** The body of the [while] loop of [extractAndProcessImages] over the
    matches still to come; a failed image is logged and skipped. *)
Fixpoint processMatches (found : list (Js.str * Js.str))
    (extractedImages : list ExtractedImage) (w : W)
    : Outcome (list ExtractedImage) * W :=
  match found with
  | [] => (Return extractedImages, w)
  | (altText, imageUrl) :: rest =>
      match downloadAndConvertToBase64 imageUrl altText w with
      | (Return processedImage, w') =>
          processMatches rest (extractedImages ++ [processedImage]) w'
      | (Throw error, w') =>
          match messageOf error with
          | Return _ => processMatches rest extractedImages w'
          | Throw e => (Throw e, w')
          end
      end
  end.

(** [extractAndProcessImages(markdownText)]; the outer [catch] returns
    an empty list. *)
Definition extractAndProcessImages (markdownText : Js.str) (w : W)
    : list ExtractedImage * W :=
  match processMatches (matches markdownText) [] w with
  | (Return extractedImages, w') => (extractedImages, w')
  | (Throw _, w') => ([], w')
  end.

(** [processQuestionAndOptions(question, options)] *)
Definition processQuestionAndOptions (question : Js.str) (options : list Js.str) (w : W)
    : ProcessedQuestion * W :=
  let allText := Js.join Js.nl (question :: options) in
  let '(images, w') := extractAndProcessImages allText w in
  (mkProcessed (removeImageMarkdown question) (List.map removeImageMarkdown options) images,
   w').

End Service.

End ImageProcessor.

(** A web of three kinds of image: a missing one, a GIF and PNGs. *)
Module Album.

Definition lowerCase (text : Js.str) : Js.str :=
  List.map (fun c => if ((65 <=? c) && (c <=? 90))%N then (c + 32)%N else c) text.

Definition net : ImageProcessor.Net nat :=
  ImageProcessor.mkNet nat
    (fun url w =>
       if Js.includes (Js.lit "missing") url then
         (Throw (Error (Js.lit "Request failed with status code 404")), S w)
       else if ImageProcessor.endsWith (Js.lit ".gif") url then
         (Return (ImageProcessor.mkAxiosResponse (Some (Js.lit "image/gif")) [71; 73; 70]%N),
          S w)
       else
         (Return (ImageProcessor.mkAxiosResponse (Some (Js.lit "image/png; charset=binary"))
                    [137; 80; 78; 71]%N),
          S w))
    (fun bytes => Js.lit "base64:" ++ Js.ofNat (length bytes))
    lowerCase.

Definition question : Js.str :=
  Js.lit "Name the bone ![x-ray](http://img/arm.PNG) shown, not ![](http://img/missing.png) or ![anim](http://img/a.gif).".

(** A text whose first image cannot be downloaded. *)
Definition afterFailure : Js.str :=
  Js.lit "Not ![](http://img/missing.png) but ![x-ray](http://img/arm.PNG).".

End Album.

(* ------------------------------------------------------------------ *)
(** ** SolutionGenerationController *)

Module Controller.

(** What the handler rejects with: a value thrown by a service or by the
    language, or an [HttpException] of its own. *)
Inductive Rejection :=
| Thrown (e : thrown)
| HttpException (message : Js.str) (status : N).

(** [error instanceof HttpException]; [LLMGenerationError] extends
    [HttpException]. *)
Definition instanceofHttpException (error : Rejection) : bool :=
  match error with
  | HttpException _ _ | Thrown (LLMGenerationError _) => true
  | Thrown _ => false
  end.

(** [error.getStatus()]; [LLMGenerationError] is built with
    [HttpStatus.SERVICE_UNAVAILABLE]. *)
Definition statusOf (error : Rejection) : option N :=
  match error with
  | HttpException _ status => Some status
  | Thrown (LLMGenerationError _) => Some 503%N
  | Thrown _ => None
  end.

(** [error.message] *)
Definition messageOfRejection (error : Rejection) : Outcome Js.str :=
  match error with
  | Thrown e => messageOf e
  | HttpException message _ => Return message
  end.

Inductive Result (A : Type) :=
| Resolved (value : A)
| Rejected (error : Rejection).
Arguments Resolved {A} value.
Arguments Rejected {A} error.

(** The handler's computations: the service state is threaded as in
    [M], a rejection carries a [Rejection]. *)
Definition C (W A : Type) : Type := State W -> Result A * State W.

Section Monad.
Context {W : Type}.

Definition resolve {A} (a : A) : C W A := fun s => (Resolved a, s).

Definition reject {A} (error : Rejection) : C W A := fun s => (Rejected error, s).

Definition andThen {A B} (m : C W A) (f : A -> C W B) : C W B :=
  fun s =>
    match m s with
    | (Resolved a, s') => f a s'
    | (Rejected error, s') => (Rejected error, s')
    end.

(** [await] of a service call. *)
Definition await {A} (m : M W A) : C W A :=
  fun s =>
    match m s with
    | (Return a, s') => (Resolved a, s')
    | (Throw e, s') => (Rejected (Thrown e), s')
    end.

(** An expression that may throw. *)
Definition evaluate {A} (o : Outcome A) : C W A := await (liftO o).

(** [try { m } catch (error) { handler error }] *)
Definition catch {A} (m : C W A) (handler : Rejection -> C W A) : C W A :=
  fun s =>
    match m s with
    | (Resolved a, s') => (Resolved a, s')
    | (Rejected error, s') => handler error s'
    end.

End Monad.

Declare Scope controller_scope.
Delimit Scope controller_scope with controller.
Notation "x <- m ;; k" := (andThen m (fun x => k))
  (at level 100, m at next level, right associativity) : controller_scope.
Notation "m ;;; k" := (andThen m (fun _ => k))
  (at level 100, right associativity) : controller_scope.

(** The services the controller is built with. *)
Record Services (W : Type) := mkServices {
  imageProcessorService_extractAndProcessImages : Js.str -> W -> list ExtractedImage * W;
  solutionGeneratorService_generateSolution : ServicableQuestionWithImages -> M W JsVal;
  difficultyGraderService_gradeQuestion : ServicableQuestionWithImages -> JsVal -> M W JsVal;
  questionTaggerService_classifyQuestion : ServicableQuestionWithImages -> JsVal -> M W JsVal;
    (** [value.toString()] of a number, a boolean, an array or an object *)
  stringify : JsVal -> Js.str
}.
Arguments imageProcessorService_extractAndProcessImages {W} _ _ _.
Arguments solutionGeneratorService_generateSolution {W} _ _ _.
Arguments difficultyGraderService_gradeQuestion {W} _ _ _ _.
Arguments questionTaggerService_classifyQuestion {W} _ _ _ _.
Arguments stringify {W} _ _.

(** [questionDto.question.substring(0, 100)] of the first log line: the
    question when it is a string. *)
Definition questionText (question : JsVal) : Outcome Js.str :=
  match question with
  | VStr text => Return text
  | VUndefined =>
      Throw (TypeError (Js.lit "Cannot read properties of undefined (reading 'substring')"))
  | VNull =>
      Throw (TypeError (Js.lit "Cannot read properties of null (reading 'substring')"))
  | VBool _ | VNum _ | VArr _ | VObj _ =>
      Throw (TypeError (Js.lit "questionDto.question.substring is not a function"))
  end.

(** [!questionDto.options || questionDto.options.length !== 4] *)
Definition notFourOptions (options : JsVal) : bool :=
  match options with
  | VArr items => negb (length items =? 4)%nat
  | VStr text => negb (length text =? 4)%nat
  | VObj props =>
      match getProp (Js.lit "length") props with
      | VNum n => negb (Qeq_bool n 4)
      | _ => true
      end
  | VUndefined | VNull | VBool _ | VNum _ => true
  end.

(** [options.some(option => !option || option.trim().length === 0)] on
    the elements of an array, left to right. *)
Fixpoint someBlank (options : list JsVal) : Outcome bool :=
  let noTrim := Throw (TypeError (Js.lit "option.trim is not a function")) in
  match options with
  | [] => Return false
  | option :: rest =>
      match option with
      | VStr text => if Js.eqb (Js.trim text) [] then Return true else someBlank rest
      | VUndefined | VNull | VBool false => Return true
      | VNum n => if Qeq_bool n 0 then Return true else noTrim
      | VBool true | VArr _ | VObj _ => noTrim
      end
  end.

(** [questionDto.options.some(...)] *)
Definition anyOptionBlank (options : JsVal) : Outcome bool :=
  match options with
  | VArr items => someBlank items
  | _ => Throw (TypeError (Js.lit "questionDto.options.some is not a function"))
  end.

(** The options as texts; the checks before leave an array of strings. *)
Definition optionTexts (options : JsVal) : list Js.str :=
  match options with
  | VArr items => omap (fun item => match item with VStr text => Some text | _ => None end) items
  | _ => []
  end.

(** [value.key] for a key that no string, number, boolean or array
    has. *)
Definition propOf (value : JsVal) (key : string) : Outcome JsVal :=
  match value with
  | VObj props => Return (getProp (Js.lit key) props)
  | VUndefined =>
      Throw (TypeError (Js.lit "Cannot read properties of undefined (reading '"
                        ++ Js.lit key ++ Js.lit "')"))
  | VNull =>
      Throw (TypeError (Js.lit "Cannot read properties of null (reading '"
                        ++ Js.lit key ++ Js.lit "')"))
  | VBool _ | VNum _ | VStr _ | VArr _ => Return VUndefined
  end.

Section Handler.
Context {W : Type} (services : Services W).
Local Open Scope controller_scope.

(** [ref => ({ book: ref.book_title, chapter: ref.book_id.toString(),
    page_number: ref.page_start, paragraph_number: 1 })] *)
Definition toReference (ref : JsVal) : Outcome JsVal :=
  match propOf ref "book_title" with
  | Throw e => Throw e
  | Return book =>
      match propOf ref "book_id" with
      | Throw e => Throw e
      | Return book_id =>
          let chapter :=
            match book_id with
            | VStr text => Return (VStr text)
            | VUndefined =>
                Throw (TypeError
                  (Js.lit "Cannot read properties of undefined (reading 'toString')"))
            | VNull =>
                Throw (TypeError (Js.lit "Cannot read properties of null (reading 'toString')"))
            | other => Return (VStr (stringify services other))
            end in
          match chapter with
          | Throw e => Throw e
          | Return chapter =>
              match propOf ref "page_start" with
              | Throw e => Throw e
              | Return page_start =>
                  Return (VObj [ (Js.lit "book", book); (Js.lit "chapter", chapter);
                                 (Js.lit "page_number", page_start);
                                 (Js.lit "paragraph_number", VNum 1) ])
              end
          end
      end
  end.

(** [solutionOutput.references.map(...)] *)
Definition mapReferences (references : JsVal) : Outcome JsVal :=
  match references with
  | VArr items =>
      match mapO toReference items with
      | Return mapped => Return (VArr mapped)
      | Throw e => Throw e
      end
  | VUndefined =>
      Throw (TypeError (Js.lit "Cannot read properties of undefined (reading 'map')"))
  | VNull => Throw (TypeError (Js.lit "Cannot read properties of null (reading 'map')"))
  | _ => Throw (TypeError (Js.lit "solutionOutput.references.map is not a function"))
  end.

(** The object literal [comprehensiveSolution], its properties evaluated
    in order. *)
Definition comprehensiveSolution (question options solutionOutput gradingResult
    classificationResult : JsVal) : Outcome JsVal :=
  let read (value : JsVal) (key : string) (k : JsVal -> Outcome JsVal) : Outcome JsVal :=
    match propOf value key with
    | Return v => k v
    | Throw e => Throw e
    end in
  read solutionOutput "answer"%string (fun answer =>
  read solutionOutput "ans_description"%string (fun ans_description =>
  read solutionOutput "references"%string (fun references =>
  match mapReferences references with
  | Throw e => Throw e
  | Return mapped =>
      read classificationResult "subject_id"%string (fun subject_id =>
      read classificationResult "topic_id"%string (fun topic_id =>
      read classificationResult "category_id"%string (fun category_id =>
      read gradingResult "difficultyRating"%string (fun difficulty =>
      Return (VObj [ (Js.lit "question", question); (Js.lit "options", options);
                     (Js.lit "answer", answer);
                     (Js.lit "ans_description", ans_description);
                     (Js.lit "references", mapped);
                     (Js.lit "subject_id", subject_id);
                     (Js.lit "topic_id", topic_id);
                     (Js.lit "category_id", category_id);
                     (Js.lit "difficulty", difficulty) ])))))
  end))).

(** [await Promise.all([gradeQuestion(...), classifyQuestion(...)])]: both
    calls are made; when both reject, the rejection that settles first
    wins. *)
Definition gradeAndClassify (gradingSettlesFirst : bool)
    (questionWithImages : ServicableQuestionWithImages) (ans_description : JsVal)
    : C W (JsVal * JsVal) :=
  fun s =>
    let '(grading, s1) := difficultyGraderService_gradeQuestion services questionWithImages ans_description s in
    let '(classification, s2) :=
      questionTaggerService_classifyQuestion services questionWithImages ans_description s1 in
    match grading, classification with
    | Return gradingResult, Return classificationResult =>
        (Resolved (gradingResult, classificationResult), s2)
    | Throw e, Return _ | Return _, Throw e => (Rejected (Thrown e), s2)
    | Throw gradingError, Throw classificationError =>
        (Rejected (Thrown (if gradingSettlesFirst then gradingError
                           else classificationError)), s2)
    end.

(** The [try] block of [generateSolution]. *)
Definition generateSolutionBody (gradingSettlesFirst : bool) (question options : JsVal)
    : C W JsVal :=
  text <- evaluate (questionText question) ;;
  if Js.eqb (Js.trim text) [] then
    reject (HttpException (Js.lit "Question text is required") 400)
  else if notFourOptions options then
    reject (HttpException (Js.lit "Exactly 4 options (A, B, C, D) are required") 400)
  else
    blank <- evaluate (anyOptionBlank options) ;;
    if (blank : bool) then
      reject (HttpException (Js.lit "All options must have non-empty text") 400)
    else
      let texts := optionTexts options in
      images <- await (external (imageProcessorService_extractAndProcessImages services
                                   (text ++ Js.nl ++ Js.join Js.nl texts))) ;;
      let questionWithImages := mkQuestion text texts (Some images) in
      solutionOutput <- await (solutionGeneratorService_generateSolution services questionWithImages) ;;
      ans_description <- evaluate (propOf solutionOutput "ans_description") ;;
      results <- gradeAndClassify gradingSettlesFirst questionWithImages ans_description ;;
      evaluate (comprehensiveSolution question options solutionOutput
                  (fst results) (snd results)).

(** [generateSolution(questionDto)], the handler of
    [POST solution-generation/generate]. *)
Definition generateSolution (gradingSettlesFirst : bool) (question options : JsVal)
    : C W JsVal :=
  catch (generateSolutionBody gradingSettlesFirst question options)
    (fun error =>
       message <- evaluate (messageOfRejection error) ;;
       if instanceofHttpException error then reject error
       else reject (HttpException
                      (Js.lit "Failed to generate comprehensive solution: " ++ message)
                      500)).

End Handler.

End Controller.

(** A request with a question and four options, served by services that
    answer at once; [generateSolution] is the generator of this file on a
    given environment. *)
Module Desk.

Definition services (env : Env nat) : Controller.Services nat :=
  Controller.mkServices nat
    (ImageProcessor.extractAndProcessImages Album.net)
    (fun question => generate env question (Js.lit "You are a nursing tutor."))
    (fun _ _ => ret (VObj [ (Js.lit "difficultyRating", VStr (Js.lit "easy")) ]))
    (fun _ _ => ret (VObj [ (Js.lit "subject_id", VNum 3); (Js.lit "topic_id", VNull);
                            (Js.lit "category_id", VNum 7) ]))
    (fun _ => Js.lit "[object Object]").

Definition question : JsVal := VStr (Js.lit "What is the normal heart rate for an adult?").

Definition options : JsVal :=
  VArr [ VStr (Js.lit "50-70 bpm"); VStr (Js.lit "60-100 bpm"); VStr (Js.lit "80-120 bpm");
         VStr (Js.lit "100-140 bpm") ].

End Desk.

(** The generator's environment when its image processor is the one of
    this file, over the sample web. *)
Module Studio.

Definition env (answer : JsVal) : Env nat :=
  mkEnv nat
    (fun _ w => (Return [1; 2; 3]%Q, S w))                   (* embedBooks *)
    (fun _ w => (Return [4; 5]%Q, S w))                      (* embedVideos *)
    (fun w => (Return tt, S w))                              (* pgConnect *)
    (fun _ => Sample.serve Sample.docs)                      (* matchDocuments *)
    (fun _ => Sample.serve Sample.videos)                    (* queryVideoRecordings *)
    (fun w => ((1 # 10)%Q, S w))                             (* mathRandom *)
    Sample.toFixed3
    Sample.numberToString
    (fun _ => Return None)                                   (* parseMetadata *)
    (fun _ => Throw (Error (Js.lit "Unexpected token")))     (* JSON_parse *)
    (ImageProcessor.processQuestionAndOptions Album.net)     (* processQuestionAndOptions *)
    (fun _ _ => AgentDone answer)                            (* agentExecutor_invoke *)
    (fun _ => Js.lit "Validation failed").                   (* describeInvalid *)

Definition options : list Js.str :=
  [ Js.lit "Humerus"; Js.lit "Femur"; Js.lit "Tibia"; Js.lit "Radius" ].

End Studio.


(** A tagger whose agent picks subject 3 and topic 12 and finds no
    category. *)
Module Registry.

Definition reply : Js.str :=
  Js.lit "The classification is {" ++ Sample.q "subject_id" ++ Js.lit ": 3, "
  ++ Sample.q "topic_id" ++ Js.lit ": 12, " ++ Sample.q "category_id" ++ Js.lit ": 0}.".

Definition tagger : QuestionTagger.Tagger nat :=
  QuestionTagger.mkTagger nat
    (fun _ w => (QuestionTagger.Answered (VStr reply), S w))
    (fun text =>
       if Js.eqb text (extractJson reply)
       then Return (VObj [ (Js.lit "subject_id", VNum 3); (Js.lit "topic_id", VNum 12);
                           (Js.lit "category_id", VNum 0) ])
       else Throw (Error (Js.lit "Unexpected token"))).

End Registry.

(** Tool calls recorded by the events. *)
Definition toolCallOf (ev : Event) : Z :=
  match ev with
  | EvToolCall _ => 1
  | _ => 0
  end.

(** What was added to the trace stays within five store queries and
    39.5 seconds of waiting for each tool call in it. *)
Definition withinToolBudget {W} (s s' : State W) : Prop :=
  exists events,
    trace s' = trace s ++ events
    /\ total queryOf events <= 5 * total toolCallOf events
    /\ total sleepOf events <= 39500 * total toolCallOf events.

(* ------------------------------------------------------------------ *)
(** ** QuestionTaggerService: the NPrep API *)

Module TaggerApi.

(** [this.httpService.get(url, { headers: { Authorization }, params })] *)
Record Request := mkRequest {
  url : Js.str;
  authorization : Js.str;
  params : list (Js.str * Js.str)
}.

(** How [firstValueFrom(this.httpService.get(...))] ends: a response, or
    an error with its [error.response?.status]. *)
Inductive HttpEnd :=
| Responded (status : N) (data : JsVal)
| Errored (e : thrown) (responseStatus : option N).

Record Api (W : Type) := mkApi {
    (** [this.configService.get('NPREP_API_BEARER_TOKEN')] *)
  token : option Js.str;
  httpService_get : Request -> W -> HttpEnd * W;
    (** [`${id}`] of a number *)
  numberToString : Q -> Js.str
}.
Arguments token {W} _.
Arguments httpService_get {W} _ _ _.
Arguments numberToString {W} _ _.

(** What the three fetchers reject with. *)
Inductive Rejection :=
| ApiRequestError (message : Js.str) (statusCode : N)
| Uncaught (e : thrown).

Inductive Result :=
| Resolved (data : JsVal)
| Rejected (error : Rejection).

(** [HttpStatus.BAD_GATEWAY], the default status of [ApiRequestError]. *)
Definition BAD_GATEWAY : N := 502.

Definition baseUrl : Js.str := Js.lit "https://api.nprep.in/v3/admin".

Section Service.
Context {W : Type} (api : Api W).

(** The body the three fetchers share: the token check, the request,
    the status check, and the [catch] that passes an [ApiRequestError] on
    and wraps anything else. *)
Definition fetch (path : Js.str) (params : list (Js.str * Js.str))
    (failedWithStatus : N -> Js.str) (failed : Js.str) (w : W) : Result * W :=
  match token api with
  | None | Some [] =>
      (Rejected (ApiRequestError (Js.lit "NPREP API Bearer token not configured") BAD_GATEWAY),
       w)
  | Some bearer =>
      match httpService_get api
              (mkRequest (baseUrl ++ path) (Js.lit "Bearer " ++ bearer) params) w with
      | (Responded status data, w') =>
          if (status =? 200)%N then (Resolved data, w')
          else (Rejected (ApiRequestError (failedWithStatus status) status), w')
      | (Errored error responseStatus, w') =>
          match messageOf error with
          | Throw e => (Rejected (Uncaught e), w')
          | Return _ =>
              (Rejected (ApiRequestError failed (default BAD_GATEWAY responseStatus)), w')
          end
      end
  end.

(** [getSubjects()] *)
Definition getSubjects : W -> Result * W :=
  fetch (Js.lit "/subject") [ (Js.lit "fields", Js.lit "id,name") ]
    (fun status => Js.lit "Failed to fetch subjects: HTTP " ++ Js.ofN status)
    (Js.lit "Failed to fetch subjects from API").

(** [getTopics(subjectId)] *)
Definition getTopics (subjectId : Q) : W -> Result * W :=
  let id := numberToString api subjectId in
  fetch (Js.lit "/topic")
    [ (Js.lit "filters", Js.lit "subject_id||$eq||" ++ id);
      (Js.lit "fields", Js.lit "id,name") ]
    (fun status => Js.lit "Failed to fetch topics for subject " ++ id
                   ++ Js.lit ": HTTP " ++ Js.ofN status)
    (Js.lit "Failed to fetch topics for subject " ++ id ++ Js.lit " from API").

(** [getCategories(topicId)] *)
Definition getCategories (topicId : Q) : W -> Result * W :=
  let id := numberToString api topicId in
  fetch (Js.lit "/question-category")
    [ (Js.lit "filters", Js.lit "topic_id||$eq||" ++ id);
      (Js.lit "fields", Js.lit "id,name") ]
    (fun status => Js.lit "Failed to fetch categories for topic " ++ id
                   ++ Js.lit ": HTTP " ++ Js.ofN status)
    (Js.lit "Failed to fetch categories for topic " ++ id ++ Js.lit " from API").

End Service.

(** The three lists the tagger's tools read. *)
Inductive Listing :=
| Subjects
| Topics (subjectId : Q)
| Categories (topicId : Q).

Definition get {W} (api : Api W) (listing : Listing) : W -> Result * W :=
  match listing with
  | Subjects => getSubjects api
  | Topics subjectId => getTopics api subjectId
  | Categories topicId => getCategories api topicId
  end.

(** An API that answers 503 to every request. *)
Definition down (bearer : option Js.str) : Api nat :=
  mkApi nat bearer
    (fun _ w => (Errored (Error (Js.lit "Request failed with status code 503")) (Some 503%N),
                 S w))
    Sample.numberToString.

End TaggerApi.

(* ================================================================== *)
(** * Properties *)

(** ** The retry wrapper *)

Lemma backoffDelay_bounds (baseDelay : Z) (attempt : nat) (random : Q) :
  0 <= baseDelay ->
  (0 <= random)%Q -> (random < 1)%Q ->
  baseDelay * 2 ^ Z.of_nat (attempt - 1) <= backoffDelay baseDelay attempt random
  /\ (inject_Z (backoffDelay baseDelay attempt random)
      <= inject_Z (baseDelay * 2 ^ Z.of_nat (attempt - 1)) * (13 # 10))%Q.
Proof.
  intros Hb Hr0 Hr1. unfold backoffDelay.
  set (x := baseDelay * 2 ^ Z.of_nat (attempt - 1)).
  assert (Hx : 0 <= x) by (subst x; apply Z.mul_nonneg_nonneg; [lia | apply Z.pow_nonneg; lia]).
  assert (Hxq : (inject_Z 0 <= inject_Z x)%Q) by (rewrite <- Zle_Qle; exact Hx).
  change (inject_Z 0) with 0%Q in Hxq.
  assert (Heq : (inject_Z baseDelay * inject_Z (2 ^ Z.of_nat (attempt - 1)) == inject_Z x)%Q)
    by (subst x; rewrite inject_Z_mult; reflexivity).
  split.
  - rewrite <- (Qfloor_Z x) at 1. apply Qfloor_resp_le.
    rewrite Heq. nra.
  - eapply Qle_trans; [apply Qfloor_le|]. rewrite Heq. nra.
Qed.

Section RetryProperties.
Context {W T : Type} (env : Env W) (operation : M W T).
Context (maxRetries : nat) (baseDelay : Z).
Hypothesis random_range :
  forall w, (0 <= fst (mathRandom env w))%Q /\ (fst (mathRandom env w) < 1)%Q.
Hypothesis baseDelay_nonneg : 0 <= baseDelay.

Lemma messageOf_defined (e : thrown) :
  e <> Undefined -> exists m, messageOf e = Return m.
Proof. destruct e; [congruence | eauto ..]. Qed.

Lemma retryLoop_run (remaining attempt : nat) (lastError : thrown) (s : State W) :
  (attempt + remaining = S maxRetries)%nat ->
  exists (failures : list (thrown * Z)) (final : option (Outcome T)),
    let r := retryLoop env (observed operation) maxRetries baseDelay
               remaining attempt lastError s in
    trace (snd r) = trace s ++ retryEvents failures final
    /\ (forall i e d, failures !! i = Some (e, d) ->
          (attempt + i < maxRetries)%nat /\ e <> Undefined
          /\ delayInRange baseDelay (attempt + i) d)
    /\ match final with
       | None => remaining = O /\ failures = [] /\ fst r = Throw lastError
       | Some (Return v) =>
           (attempt + length failures <= maxRetries)%nat /\ fst r = Return v
       | Some (Throw e) =>
           (attempt + length failures <= maxRetries)%nat
           /\ (e <> Undefined ->
               (attempt + length failures = maxRetries)%nat /\ fst r = Throw e)
       end.
Proof.
  revert attempt lastError s.
  induction remaining as [|remaining IH]; intros attempt lastError s Hinv.
  - exists [], None. cbn. rewrite app_nil_r. repeat split; intros; discriminate.
  - cbn [retryLoop]. unfold tryCatch.
    destruct (operation s) as [o s1] eqn:Hop.
    assert (Hobs : observed operation s =
                   (o, mkState (world s1) (embeddingCache s1) (embeddingCounter s1)
                               (trace s ++ [EvInvoked (errorOf o)])))
      by (unfold observed; rewrite Hop; reflexivity).
    destruct o as [v|e].
    + exists [], (Some (Return v)). cbn zeta. rewrite Hobs. cbn.
      repeat split; try (intros; discriminate). lia.
    + destruct (decide (e = Undefined)) as [->|Hdef].
      { exists [], (Some (Throw Undefined)). cbn zeta. rewrite Hobs. cbn.
        repeat split; try (intros; discriminate); try lia; congruence. }
      destruct (messageOf_defined e Hdef) as [m Hm].
      destruct (Nat.eqb_spec attempt maxRetries) as [Heq|Hne].
      { exists [], (Some (Throw e)). cbn zeta. rewrite Hobs, Hm. cbn.
        repeat split; try (intros; discriminate); lia. }
      cbn zeta. rewrite Hobs, Hm.
      unfold bind, external, sleep, emit. cbn [world trace embeddingCache embeddingCounter].
      destruct (mathRandom env (world s1)) as [random w2] eqn:Hrand.
      cbn [world trace embeddingCache embeddingCounter errorOf].
      set (d := backoffDelay baseDelay attempt random).
      match goal with
      | |- context [retryLoop _ _ _ _ _ _ _ ?s2] =>
          destruct (IH (S attempt) e s2 ltac:(lia)) as (failures & final & Htr & Hds & Hfin)
      end.
      cbn zeta in Htr, Hfin. cbn [trace] in Htr.
      exists ((e, d) :: failures), final. cbn zeta.
      split; [|split].
      * rewrite Htr. unfold retryEvents. cbn [flat_map].
        rewrite <- !app_assoc. reflexivity.
      * intros [|i] e' d' Hi; cbn in Hi.
        -- injection Hi as <- <-. rewrite Nat.add_0_r.
           split; [lia|]. split; [exact Hdef|].
           destruct (random_range (world s1)) as [H0 H1]. rewrite Hrand in H0, H1.
           apply backoffDelay_bounds; assumption.
        -- destruct (Hds i e' d' Hi) as (? & ? & ?).
           replace (attempt + S i)%nat with (S attempt + i)%nat by lia. auto with lia.
      * destruct final as [[v|e']|]; cbn [length].
        -- destruct Hfin as [? ->]. split; [lia|reflexivity].
        -- destruct Hfin as [? Hfin]. split; [lia|]. intros He'.
           destruct (Hfin He') as [? ->]. split; [lia|reflexivity].
        -- destruct Hfin as [-> _]. lia.
Qed.

Lemma invocations_retryEvents (failures : list (thrown * Z)) (final : option (Outcome T)) :
  invocations (retryEvents failures final) = length (attemptErrors failures final).
Proof.
  unfold invocations, retryEvents, attemptErrors.
  rewrite List.filter_app, !length_app, length_map. f_equal.
  - induction failures as [|[e d] failures IH]; cbn; [reflexivity | now rewrite IH].
  - destruct final; reflexivity.
Qed.

End RetryProperties.

(** C3. [retryOperation] with [maxRetries = N] and base delay [b >= 0]
    (whole milliseconds), [Math.random] drawing from [0, 1): the operation
    runs at most [N] times; when attempt [k < N] fails with an error
    object, the wait that follows it, before attempt [k + 1], is within
    [b * 2^(k-1)] and [b * 2^(k-1) * 1.3]; a run that ends in a failed
    attempt has made all [N] attempts and throws the error of the last
    one. *)
Theorem C3_retry_attempts_and_backoff {W T : Type} (env : Env W) (operation : M W T)
    (N : nat) (b : Z) (s : State W) :
  (forall w, (0 <= fst (mathRandom env w))%Q /\ (fst (mathRandom env w) < 1)%Q) ->
  0 <= b ->
  exists (failures : list (thrown * Z)) (final : option (Outcome T)),
    let r := retryOperation env (observed operation) N b s in
    trace (snd r) = trace s ++ retryEvents failures final
    /\ (invocations (retryEvents failures final) <= N)%nat
    /\ (forall k e, (1 <= k < N)%nat ->
          attemptErrors failures final !! (k - 1)%nat = Some (Some e) ->
          e <> Undefined ->
          exists d, failures !! (k - 1)%nat = Some (e, d) /\ delayInRange b k d)
    /\ (forall e, final = Some (Throw e) -> e <> Undefined ->
          invocations (retryEvents failures final) = N /\ fst r = Throw e)
    /\ (forall v, final = Some (Return v) -> fst r = Return v)
    /\ (final = None -> N = O /\ fst r = Throw Undefined).
Proof.
  intros Hrand Hb. unfold retryOperation.
  destruct (retryLoop_run env operation N b Hrand Hb N 1 Undefined s ltac:(lia))
    as (failures & final & Htr & Hds & Hfin).
  exists failures, final. cbn zeta in *.
  rewrite invocations_retryEvents.
  assert (Hlen : length (attemptErrors failures final)
                 = (length failures + match final with Some _ => 1 | None => 0 end)%nat).
  { unfold attemptErrors. rewrite length_app, length_map. destruct final; reflexivity. }
  split; [exact Htr|]. split; [|split; [|split; [|split]]].
  - rewrite Hlen. destruct final as [[v|e]|].
    + destruct Hfin as [? _]. lia.
    + destruct Hfin as [? _]. lia.
    + destruct Hfin as (-> & -> & _). cbn. lia.
  - intros k e Hk Hat Hne. unfold attemptErrors in Hat.
    destruct (decide (k - 1 < length failures)%nat) as [Hlt|Hge].
    + rewrite lookup_app_l in Hat by (rewrite length_map; exact Hlt).
      rewrite list_lookup_fmap in Hat.
      destruct (failures !! (k - 1)%nat) as [[e' d]|] eqn:Hf; [|discriminate].
      cbn in Hat. injection Hat as ->. exists d. split; [reflexivity|].
      destruct (Hds _ _ _ Hf) as (_ & _ & Hr).
      replace (1 + (k - 1))%nat with k in Hr by lia. exact Hr.
    + rewrite lookup_app_r in Hat by (rewrite length_map; lia).
      rewrite length_map in Hat.
      destruct final as [[v|e']|]; cbn in Hat.
      * destruct (k - 1 - length failures)%nat; cbn in Hat; discriminate.
      * destruct (k - 1 - length failures)%nat eqn:Hz; cbn in Hat; [|discriminate].
        injection Hat as ->. destruct Hfin as [_ Hfin].
        destruct (Hfin Hne) as [? _]. lia.
      * rewrite lookup_nil in Hat. discriminate.
  - intros e -> Hne. destruct Hfin as [_ Hfin]. destruct (Hfin Hne) as [? ->].
    rewrite Hlen. split; [lia|reflexivity].
  - intros v ->. apply Hfin.
  - intros ->. destruct Hfin as (-> & _ & ->). split; reflexivity.
Qed.

Lemma C3_retry_witness :
  exists (failures : list (thrown * Z)) (final : option (Outcome unit)),
    let r := retryOperation (Sample.env [] [] VNull) (observed Sample.failing) 3 1000
               Sample.initial in
    trace (snd r) = trace Sample.initial ++ retryEvents failures final
    /\ (invocations (retryEvents failures final) <= 3)%nat.
Proof.
  destruct (C3_retry_attempts_and_backoff (Sample.env [] [] VNull) Sample.failing 3 1000
              Sample.initial) as (failures & final & Htr & Hn & _).
  - intros w. split; [discriminate | reflexivity].
  - lia.
  - exists failures, final. split; [exact Htr | exact Hn].
Defined.

(** Three attempts at base delay 1000 ms with every draw 0.1: waits of
    1030 ms and 2060 ms, then the last error. *)
Example retry_three_attempts :
  let r := retryOperation (Sample.env [] [] VNull) (observed Sample.failing) 3 1000
             Sample.initial in
  fst r = Throw (Error (Js.lit "ECONNRESET"))
  /\ trace (snd r)
     = [ EvInvoked (Some (Error (Js.lit "ECONNRESET"))); EvSleep 1030;
         EvInvoked (Some (Error (Js.lit "ECONNRESET"))); EvSleep 2060;
         EvInvoked (Some (Error (Js.lit "ECONNRESET"))) ].
Proof. vm_compute. split; reflexivity. Qed.

(** ** Relating the state before and after a computation *)

Section Steps.
Context {W : Type} (R : relation (State W)) `{!PreOrder R}.

Lemma steps_ret {A} (a : A) : steps R (ret a).
Proof. intros s. reflexivity. Qed.

Lemma steps_throw {A} (e : thrown) : steps R (throw (A := A) e).
Proof. intros s. reflexivity. Qed.

Lemma steps_liftO {A} (o : Outcome A) : steps R (liftO o).
Proof. intros s. reflexivity. Qed.

Lemma steps_cacheGet (key : Js.str) : steps R (cacheGet key).
Proof. intros s. reflexivity. Qed.

Lemma steps_external {A} (f : W -> A * W) : worldStep R -> steps R (external f).
Proof. intros Hw s. unfold external. destruct (f (world s)). apply Hw. Qed.

Lemma steps_bind {A B} (m : M W A) (f : A -> M W B) :
  steps R m -> (forall a, steps R (f a)) -> steps R (bind m f).
Proof.
  intros Hm Hf s. unfold bind. specialize (Hm s).
  destruct (m s) as [[a|e] s1]; cbn in Hm; [|exact Hm].
  etransitivity; [exact Hm | apply Hf].
Qed.

Lemma steps_tryCatch {A} (m : M W A) (handler : thrown -> M W A) :
  steps R m -> (forall e, steps R (handler e)) -> steps R (tryCatch m handler).
Proof.
  intros Hm Hh s. unfold tryCatch. specialize (Hm s).
  destruct (m s) as [[a|e] s1]; cbn in Hm; [exact Hm|].
  etransitivity; [exact Hm | apply Hh].
Qed.

Lemma steps_retryLoop {T} (env : Env W) (operation : M W T) (maxRetries : nat)
    (baseDelay : Z) (remaining attempt : nat) (lastError : thrown) :
  worldStep R ->
  (forall d, steps R (emit (EvSleep d))) ->
  steps R operation ->
  steps R (retryLoop env operation maxRetries baseDelay remaining attempt lastError).
Proof.
  intros Hw Hsleep Hop. revert attempt lastError.
  induction remaining as [|remaining IH]; intros attempt lastError; cbn [retryLoop].
  - apply steps_throw.
  - apply steps_tryCatch; [exact Hop|]. intros error.
    destruct (messageOf error); [|apply steps_throw].
    destruct (attempt =? maxRetries)%nat; [apply steps_throw|].
    apply steps_bind; [apply steps_external, Hw|]. intros random.
    apply steps_bind; [apply Hsleep|]. intros _. apply IH.
Qed.

Lemma steps_retryOperation {T} (env : Env W) (operation : M W T) (maxRetries : nat)
    (baseDelay : Z) :
  worldStep R ->
  (forall d, steps R (emit (EvSleep d))) ->
  steps R operation ->
  steps R (retryOperation env operation maxRetries baseDelay).
Proof. intros. apply steps_retryLoop; assumption. Qed.

End Steps.

(** ** What a retried operation returns *)

Section RetryReturns.
Context {W T : Type} (env : Env W) (operation : M W T).
Context (R : relation (State W)) `{!PreOrder R}.
Hypothesis world_step : worldStep R.
Hypothesis sleep_step : forall d, steps R (emit (EvSleep d)).
Hypothesis failed_step : forall s1 e s2, operation s1 = (Throw e, s2) -> R s1 s2.

(** A value returned by the wrapper is the value of one run of the
    operation, started in a state that the failed attempts and the waits
    reached from the initial one; the final state is that run's. *)
Lemma retryLoop_returns (maxRetries : nat) (baseDelay : Z) (remaining attempt : nat)
    (lastError : thrown) (s s' : State W) (v : T) :
  retryLoop env operation maxRetries baseDelay remaining attempt lastError s = (Return v, s') ->
  exists s1, R s s1 /\ operation s1 = (Return v, s').
Proof.
  revert attempt lastError s.
  induction remaining as [|remaining IH]; intros attempt lastError s; cbn [retryLoop].
  - discriminate.
  - unfold tryCatch. destruct (operation s) as [[v0|e] s1] eqn:Hop.
    + intros [= -> ->]. exists s. split; [reflexivity | exact Hop].
    + destruct (messageOf e); [|discriminate].
      destruct (attempt =? maxRetries)%nat; [discriminate|].
      unfold bind, external, sleep.
      destruct (mathRandom env (world s1)) as [random w2] eqn:Hrand.
      pose proof (sleep_step (backoffDelay baseDelay attempt random)
                    (mkState w2 (embeddingCache s1) (embeddingCounter s1) (trace s1)))
        as Hsl.
      destruct (emit (EvSleep (backoffDelay baseDelay attempt random))
                  (mkState w2 (embeddingCache s1) (embeddingCounter s1) (trace s1)))
        as [[[]|e'] s3] eqn:Hemit; [|discriminate Hemit].
      cbn [snd] in Hsl.
      intros Hrun. apply IH in Hrun. destruct Hrun as (s4 & HR & Hrun).
      exists s4. split; [|exact Hrun].
      transitivity s1; [eapply failed_step, Hop|].
      transitivity (mkState w2 (embeddingCache s1) (embeddingCounter s1) (trace s1));
        [apply world_step|].
      transitivity s3; assumption.
Qed.

Lemma retryOperation_returns (maxRetries : nat) (baseDelay : Z) (s s' : State W) (v : T) :
  retryOperation env operation maxRetries baseDelay s = (Return v, s') ->
  exists s1, R s s1 /\ operation s1 = (Return v, s').
Proof. apply retryLoop_returns. Qed.

End RetryReturns.

#[global] Instance appended_preorder {W} (P : Event -> Prop) : PreOrder (appended (W := W) P).
Proof.
  split.
  - intros s. exists []. rewrite app_nil_r. auto.
  - intros s1 s2 s3 (evs1 & H1 & HP1) (evs2 & H2 & HP2).
    exists (evs1 ++ evs2). rewrite H2, H1, app_assoc. split; [reflexivity|].
    apply Forall_app; auto.
Qed.

#[global] Instance sameService_preorder {W} : PreOrder (sameService (W := W)).
Proof.
  split.
  - intros s. split; reflexivity.
  - intros s1 s2 s3 [H1 H1'] [H2 H2']. split; congruence.
Qed.

#[global] Instance counterKept_preorder {W} : PreOrder (counterKept (W := W)).
Proof.
  split.
  - intros s. unfold counterKept. lia.
  - intros s1 s2 s3. unfold counterKept. lia.
Qed.

(** ** How the tools step *)

(** Follows the structure of a method, leaving the steps of its
    primitives to the hypotheses at hand. *)
Ltac step_through :=
  repeat lazymatch goal with
  | |- PreOrder _ => exact _
  | |- worldStep _ => assumption
  | |- steps _ (ret _) => apply steps_ret
  | |- steps _ (throw _) => apply steps_throw
  | |- steps _ (liftO _) => apply steps_liftO
  | |- steps _ (cacheGet _) => apply steps_cacheGet
  | |- steps _ (external _) => apply steps_external
  | |- steps _ (bind _ _) => apply steps_bind; [ | | intros ?]
  | |- steps _ (tryCatch _ _) => apply steps_tryCatch; [ | | intros ?]
  | |- steps _ (retryOperation _ _ _ _) => apply steps_retryOperation
  | |- steps _ (sleep _) => unfold sleep
  | |- steps _ (match ?x with _ => _ end) => destruct x
  | |- forall _, _ => intros ?
  | |- steps _ _ => solve [auto]
  end.

Section ToolSteps.
Context {W : Type} (env : Env W) (R : relation (State W)) `{!PreOrder R}.
Hypothesis world_step : worldStep R.
Hypothesis sleep_step : forall d, steps R (emit (EvSleep d)).

Lemma steps_vectorSearchQuery (embedding : list Q) (cappedLimit : Q) :
  steps R (emit (EvMatchDocuments cappedLimit)) ->
  steps R (vectorSearchQuery env embedding cappedLimit).
Proof. intros Hq. unfold vectorSearchQuery. step_through. Qed.

Lemma steps_vectorSearch (embeddingId : Js.str) (limit : option Q) :
  steps R (emit (EvMatchDocuments (Qmin (default 3%Q limit) 4))) ->
  steps R (vectorSearch env embeddingId limit).
Proof.
  intros Hq. pose proof steps_vectorSearchQuery. unfold vectorSearch. step_through.
Qed.

Lemma steps_videoSearchQuery (embedding : list Q) (limit : Q) :
  steps R (emit (EvVideoQuery limit)) ->
  steps R (videoSearchQuery env embedding limit).
Proof. intros Hq. unfold videoSearchQuery. step_through. Qed.

Lemma steps_videoSearch (embeddingId : Js.str) (limit : option Q) :
  steps R (emit (EvVideoQuery (default 4%Q limit))) ->
  steps R (videoSearch env embeddingId limit).
Proof.
  intros Hq. pose proof steps_videoSearchQuery. unfold videoSearch. step_through.
Qed.

Hypothesis counter_step : steps R preIncrementCounter.
Hypothesis cache_step : forall key value, steps R (cacheSet key value).

Lemma steps_generateEmbedding (text : Js.str) : steps R (generateEmbedding env text).
Proof. unfold generateEmbedding, generateEmbeddingOperation. step_through. Qed.

Hypothesis query_step :
  forall ev, match ev with
             | EvMatchDocuments _ | EvVideoQuery _ | EvToolCall _ => True
             | _ => False
             end -> steps R (emit ev).

Lemma steps_runTool (call : ToolCall) : steps R (runTool env call).
Proof.
  destruct call; cbn [runTool].
  - apply steps_generateEmbedding.
  - apply steps_vectorSearch, query_step. exact I.
  - apply steps_videoSearch, query_step. exact I.
Qed.


End ToolSteps.

(** ** The trace of the tools and of the agent *)

Section Appended.
Context {W : Type} (P : Event -> Prop).

Lemma appended_world : worldStep (appended (W := W) P).
Proof. intros s w. exists []. cbn. rewrite app_nil_r. auto. Qed.

Lemma appended_emit (ev : Event) : P ev -> steps (appended (W := W) P) (emit ev).
Proof. intros Hev s. exists [ev]. cbn. auto. Qed.



End Appended.



(** ** generateEmbedding *)

Lemma lit_inj (a b : string) : Js.lit a = Js.lit b -> a = b.
Proof.
  unfold Js.lit. intros H.
  rewrite <- (string_of_list_ascii_of_string a), <- (string_of_list_ascii_of_string b).
  f_equal. revert H. generalize (list_ascii_of_string b).
  induction (list_ascii_of_string a) as [|x xs IH]; intros [|y ys]; cbn;
    try discriminate; [reflexivity|].
  intros [= Hxy Hrest]. f_equal; [|apply IH, Hrest].
  rewrite <- (ascii_N_embedding x), <- (ascii_N_embedding y). now rewrite Hxy.
Qed.

(** Different counters print differently. *)
Lemma ofNat_inj (n m : nat) : Js.ofNat n = Js.ofNat m -> n = m.
Proof.
  unfold Js.ofNat, Js.ofN. intros H. apply lit_inj in H.
  assert (Hu : N.to_uint (N.of_nat n) = N.to_uint (N.of_nat m)).
  { pose proof (NilEmpty.usu (N.to_uint (N.of_nat n))) as Hn.
    pose proof (NilEmpty.usu (N.to_uint (N.of_nat m))) as Hm.
    rewrite H in Hn. congruence. }
  apply Nat2N.inj.
  rewrite <- (DecimalN.Unsigned.of_to (N.of_nat n)), <- (DecimalN.Unsigned.of_to (N.of_nat m)).
  now rewrite Hu.
Qed.

Lemma sameService_world {W} : worldStep (sameService (W := W)).
Proof. intros s w. split; reflexivity. Qed.

Lemma sameService_emit {W} (ev : Event) : steps (sameService (W := W)) (emit ev).
Proof. intros s. split; reflexivity. Qed.

Lemma counterKept_world {W} : worldStep (counterKept (W := W)).
Proof. intros s w. unfold counterKept. cbn. lia. Qed.

Lemma counterKept_emit {W} (ev : Event) : steps (counterKept (W := W)) (emit ev).
Proof. intros s. unfold counterKept. cbn. lia. Qed.

(** No tool call lowers the counter. *)
Lemma runTool_counterKept {W} (env : Env W) (call : ToolCall) :
  steps counterKept (runTool env call).
Proof.
  apply steps_runTool.
  - exact _.
  - apply counterKept_world.
  - intros d. apply counterKept_emit.
  - intros s. unfold counterKept. cbn. lia.
  - intros key value s. unfold counterKept. cbn. lia.
  - intros ev _. apply counterKept_emit.
Qed.

Section GenerateEmbedding.
Context {W : Type} (env : Env W) (text : Js.str).

Lemma generateEmbeddingOperation_throws (s1 s2 : State W) (e : thrown) :
  generateEmbeddingOperation env text s1 = (Throw e, s2) -> sameService s1 s2.
Proof.
  unfold generateEmbeddingOperation, bind, external.
  destruct (embedBooks env text (world s1)) as [r1 w1]. cbn [world].
  destruct (embedVideos env text w1) as [r2 w2].
  destruct r1 as [e3072|e1], r2 as [e1536|e2]; cbn; try discriminate;
    intros [= _ <-]; split; reflexivity.
Qed.

Lemma generateEmbeddingOperation_returns (s1 s' : State W) (v : JsVal) :
  generateEmbeddingOperation env text s1 = (Return v, s') ->
  let counter := S (embeddingCounter s1) in
  let embeddingId := Js.lit "emb_" ++ Js.ofNat counter in
  exists (embedding3072 embedding1536 : list Q) (w w' w'' : W),
    embedBooks env text w = (Return embedding3072, w')
    /\ embedVideos env text w' = (Return embedding1536, w'')
    /\ embeddingCounter s' = counter
    /\ embeddingCache s'
       = <[embeddingId ++ Js.lit "_1536" := embedding1536]>
           (<[embeddingId ++ Js.lit "_3072" := embedding3072]> (embeddingCache s1))
    /\ v = VObj
        [ (Js.lit "embeddingId", VStr embeddingId);
          (Js.lit "dimensions",
            VObj [ (Js.lit "books", VNum (inject_Z (Z.of_nat (length embedding3072))));
                   (Js.lit "videos", VNum (inject_Z (Z.of_nat (length embedding1536)))) ]);
          (Js.lit "message",
            VStr (Js.lit "Dual embeddings generated and cached as " ++ embeddingId
                  ++ Js.lit ": " ++ Js.ofNat (length embedding3072)
                  ++ Js.lit "D for books, " ++ Js.ofNat (length embedding1536)
                  ++ Js.lit "D for videos")) ].
Proof.
  unfold generateEmbeddingOperation, bind, external.
  destruct (embedBooks env text (world s1)) as [r1 w1] eqn:H1. cbn [world].
  destruct (embedVideos env text w1) as [r2 w2] eqn:H2.
  destruct r1 as [e3072|e1], r2 as [e1536|e2]; cbn; try discriminate.
  intros [= <- <-]. exists e3072, e1536, (world s1), w1, w2. cbn.
  repeat split; assumption.
Qed.

End GenerateEmbedding.

(** C6. A successful generateEmbedding call mints the id
    [emb_<counter + 1>], raises the counter by one, and stores the 3072-
    and the 1536-dimension vector obtained from the two providers under
    the keys [<id>_3072] and [<id>_1536], leaving every other key as it
    was. What it returns to the agent is the id, the two dimensions and a
    message built from them: no array occurs in it. No tool call lowers
    the counter and different counters give different ids, so the ids
    minted within one request are strictly increasing and distinct. *)
Theorem C6_generateEmbedding_caches_pair_returns_metadata {W : Type} (env : Env W)
    (text : Js.str) (s s' : State W) (v : JsVal) :
  generateEmbedding env text s = (Return v, s') ->
  let counter := S (embeddingCounter s) in
  let embeddingId := Js.lit "emb_" ++ Js.ofNat counter in
  exists embedding3072 embedding1536 : list Q,
    (exists w w', embedBooks env text w = (Return embedding3072, w'))
    /\ (exists w w', embedVideos env text w = (Return embedding1536, w'))
    /\ embeddingCounter s' = counter
    /\ (embeddingCounter s < embeddingCounter s')%nat
    /\ embeddingCache s' !! (embeddingId ++ Js.lit "_3072") = Some embedding3072
    /\ embeddingCache s' !! (embeddingId ++ Js.lit "_1536") = Some embedding1536
    /\ (forall key, key <> embeddingId ++ Js.lit "_3072" ->
                    key <> embeddingId ++ Js.lit "_1536" ->
                    embeddingCache s' !! key = embeddingCache s !! key)
    /\ v = VObj
        [ (Js.lit "embeddingId", VStr embeddingId);
          (Js.lit "dimensions",
            VObj [ (Js.lit "books", VNum (inject_Z (Z.of_nat (length embedding3072))));
                   (Js.lit "videos", VNum (inject_Z (Z.of_nat (length embedding1536)))) ]);
          (Js.lit "message",
            VStr (Js.lit "Dual embeddings generated and cached as " ++ embeddingId
                  ++ Js.lit ": " ++ Js.ofNat (length embedding3072)
                  ++ Js.lit "D for books, " ++ Js.ofNat (length embedding1536)
                  ++ Js.lit "D for videos")) ]
    /\ containsArray v = false
    /\ (forall call s0,
          (embeddingCounter s0 <= embeddingCounter (snd (runTool env call s0)))%nat)
    /\ (forall n m, Js.lit "emb_" ++ Js.ofNat n = Js.lit "emb_" ++ Js.ofNat m -> n = m).
Proof.
  intros Hrun counter embeddingId.
  unfold generateEmbedding in Hrun.
  apply (retryOperation_returns env _ sameService sameService_world
           (fun d => sameService_emit (EvSleep d))
           (fun s1 e s2 => generateEmbeddingOperation_throws env text s1 s2 e)) in Hrun.
  destruct Hrun as (s1 & [Hcache Hcounter] & Hop).
  apply generateEmbeddingOperation_returns in Hop.
  destruct Hop as (e3072 & e1536 & w & w' & w'' & Hb & Hv & Hn & Hc & Hval).
  rewrite Hcounter in Hn, Hc, Hval. rewrite Hcache in Hc.
  fold counter in Hn, Hc, Hval. fold embeddingId in Hc, Hval. subst v.
  assert (Hkeys : embeddingId ++ Js.lit "_3072" <> embeddingId ++ Js.lit "_1536").
  { intros Heq. apply app_inv_head in Heq. vm_compute in Heq. discriminate. }
  exists e3072, e1536.
  repeat match goal with |- _ /\ _ => split end.
  - eauto.
  - eauto.
  - exact Hn.
  - rewrite Hn. unfold counter. lia.
  - rewrite Hc, lookup_insert_ne, lookup_insert_eq by congruence. reflexivity.
  - rewrite Hc, lookup_insert_eq. reflexivity.
  - intros key H1 H2. rewrite Hc, !lookup_insert_ne by congruence. reflexivity.
  - reflexivity.
  - reflexivity.
  - intros call s0. apply (runTool_counterKept env call s0).
  - intros n m Heq. apply app_inv_head in Heq. apply ofNat_inj, Heq.
Qed.

Lemma C6_generateEmbedding_witness :
  exists embedding3072 embedding1536 : list Q,
    embeddingCache
      (snd (generateEmbedding (Sample.env Sample.docs Sample.videos VNull)
              (Js.lit "normal adult heart rate") Sample.cached))
      !! (Js.lit "emb_" ++ Js.ofNat 2 ++ Js.lit "_3072") = Some embedding3072
    /\ embeddingCache
         (snd (generateEmbedding (Sample.env Sample.docs Sample.videos VNull)
                 (Js.lit "normal adult heart rate") Sample.cached))
         !! (Js.lit "emb_" ++ Js.ofNat 2 ++ Js.lit "_1536") = Some embedding1536.
Proof.
  destruct (generateEmbedding (Sample.env Sample.docs Sample.videos VNull)
              (Js.lit "normal adult heart rate") Sample.cached) as [o s'] eqn:Hrun.
  assert (Hret : exists v, o = Return v).
  { apply (f_equal fst) in Hrun. vm_compute in Hrun. subst o. eauto. }
  destruct Hret as [v ->].
  destruct (C6_generateEmbedding_caches_pair_returns_metadata _ _ _ _ _ Hrun)
    as (e3072 & e1536 & _ & _ & _ & _ & H1 & H2 & _).
  exists e3072, e1536. cbn [snd]. rewrite <- !app_assoc in H1, H2.
  split; [exact H1 | exact H2].
Defined.

(** ** videoSearch *)

(** An operation that returns at once is not retried. *)
Lemma retryOperation_first_attempt {W T} (env : Env W) (operation : M W T)
    (maxRetries : nat) (baseDelay : Z) (s s' : State W) (v : T) :
  operation s = (Return v, s') ->
  retryOperation env operation (S maxRetries) baseDelay s = (Return v, s').
Proof.
  intros Hop. unfold retryOperation. cbn [retryLoop]. unfold tryCatch.
  rewrite Hop. reflexivity.
Qed.

(** C9. With the 1536-dimension vector in the cache, when the retried
    query over the video store returns no segment (in particular when the
    store answers the first query with zero rows), the videoSearch tool
    returns, as an ordinary result, the sentence that begins "No relevant
    videos found". *)
Theorem C9_videoSearch_no_results_sentinel {W : Type} (env : Env W)
    (embeddingId : Js.str) (limit : option Q) (embedding : list Q) (s : State W) :
  embeddingCache s !! (embeddingId ++ Js.lit "_1536") = Some embedding ->
  (forall s2,
      retryOperation env (videoSearchQuery env embedding (default 4%Q limit)) 5 2000
        (snd (sleep 500 s)) = (Return [], s2) ->
      videoSearch env embeddingId limit s = (Return (VStr noVideosFound), s2))
  /\ (forall w1 w2,
        pgConnect env (world s) = (Return tt, w1) ->
        queryVideoRecordings env embedding (default 4%Q limit) w1 = (QRows [], w2) ->
        fst (videoSearch env embeddingId limit s) = Return (VStr noVideosFound))
  /\ Js.startsWith (Js.lit "No relevant videos found") noVideosFound = true.
Proof.
  intros Hcached.
  assert (Hmain : forall s2,
             retryOperation env (videoSearchQuery env embedding (default 4%Q limit)) 5 2000
               (snd (sleep 500 s)) = (Return [], s2) ->
             videoSearch env embeddingId limit s = (Return (VStr noVideosFound), s2)).
  { intros s2 Hquery.
    unfold videoSearch, tryCatch. unfold bind at 1. cbn [sleep emit].
    unfold bind at 1. unfold cacheGet at 1. cbn [embeddingCache].
    rewrite Hcached. unfold bind at 1.
    cbn [sleep emit snd] in Hquery. rewrite Hquery. reflexivity. }
  split; [exact Hmain|]. split; [|reflexivity].
  intros w1 w2 Hconnect Hquery.
  erewrite Hmain; [reflexivity|].
  apply retryOperation_first_attempt.
  unfold sleep. unfold videoSearchQuery, tryCatch, bind, external, liftO, emit.
  cbn [snd world embeddingCache embeddingCounter trace].
  rewrite Hconnect. cbn [world embeddingCache embeddingCounter trace].
  rewrite Hquery. reflexivity.
Qed.

Lemma C9_videoSearch_no_results_witness :
  fst (videoSearch (Sample.env Sample.docs [] VNull) (Js.lit "emb_1") None Sample.cached)
  = Return (VStr noVideosFound).
Proof.
  apply (proj1 (proj2 (C9_videoSearch_no_results_sentinel
                         (Sample.env Sample.docs [] VNull)
                         (Js.lit "emb_1") None [4; 5]%Q Sample.cached
                         ltac:(vm_compute; reflexivity)))
           1%nat 2%nat).
  - reflexivity.
  - reflexivity.
Defined.

(** The text of a videoSearch result: the count, then one numbered entry
    for each segment, in order, each naming its score, id and time
    range. *)
Lemma videoToolResponse_lists_segments {W : Type} (env : Env W) (rows : list VideoRow) :
  exists entries,
    videoToolResponse env (List.map toVideoSearchResult rows)
    = concat
        [ Js.lit "Found "; Js.ofNat (length rows);
          Js.lit " relevant video content. **IMPORTANT: Use this video information for your ";
          quote; Js.lit "video_references"; quote; Js.lit " field in the JSON output.**";
          Js.nl; Js.nl;
          Js.join (Js.nl ++ Js.nl) entries; Js.nl; Js.nl;
          Js.lit "**CRITICAL: Include ALL these video references in your JSON output ";
          quote; Js.lit "video_references"; quote;
          Js.lit " array. This is required for proper video citation.**" ]
    /\ length entries = length rows
    /\ forall k r, rows !! k = Some r ->
         exists rest,
           entries !! k
           = Some (Js.ofNat (k + 1) ++ Js.lit ". [Score: " ++ toFixed3 env (vrow_score r)
                   ++ Js.lit "]" ++ Js.nl
                   ++ Js.lit "  Video ID: " ++ vrow_video_id r ++ Js.nl
                   ++ Js.lit "  Time Range: " ++ vrow_time_start r ++ Js.lit " - "
                   ++ vrow_time_end r ++ Js.nl ++ rest).
Proof.
  exists (imap (videoEntry env) (List.map toVideoSearchResult rows)).
  split; [|split].
  - unfold videoToolResponse. rewrite length_map. reflexivity.
  - rewrite length_imap, length_map. reflexivity.
  - intros k r Hr. rewrite list_lookup_imap.
    change (List.map toVideoSearchResult rows) with (toVideoSearchResult <$> rows).
    rewrite list_lookup_fmap, Hr. cbn [fmap option_fmap option_map].
    unfold videoEntry. cbn [concat toVideoSearchResult video_score video_id time_start
                            time_end].
    eexists. reflexivity.
Qed.

(** C10. The videoSearch tool passes the limit it was given, or 4 when
    none was given, to every query it issues over the video store, with no
    upper bound; when the store answers the first query with rows, all of
    them are in the text returned, however many: the text gives their
    count and one numbered entry for each row, in order, with its score,
    video id and time range. With six recordings and a limit of six the
    text returned announces six segments and lists the entries 1 to 6 of
    the videos v1 to v6. *)
Theorem C10_videoSearch_limit_uncapped {W : Type} (env : Env W)
    (embeddingId : Js.str) (limit : option Q) (s : State W) :
  (exists evs,
      trace (snd (videoSearch env embeddingId limit s)) = trace s ++ evs
      /\ Forall (fun ev => forall l, ev = EvVideoQuery l -> l = default 4%Q limit) evs)
  /\ (forall embedding w1 w2 row rows,
        embeddingCache s !! (embeddingId ++ Js.lit "_1536") = Some embedding ->
        pgConnect env (world s) = (Return tt, w1) ->
        queryVideoRecordings env embedding (default 4%Q limit) w1 = (QRows (row :: rows), w2) ->
        fst (videoSearch env embeddingId limit s)
        = Return (VStr (videoToolResponse env (List.map toVideoSearchResult (row :: rows))))
        /\ exists entries,
             fst (videoSearch env embeddingId limit s)
             = Return (VStr (concat
                 [ Js.lit "Found "; Js.ofNat (length (row :: rows));
                   Js.lit " relevant video content. **IMPORTANT: Use this video information for your ";
                   quote; Js.lit "video_references"; quote;
                   Js.lit " field in the JSON output.**"; Js.nl; Js.nl;
                   Js.join (Js.nl ++ Js.nl) entries; Js.nl; Js.nl;
                   Js.lit "**CRITICAL: Include ALL these video references in your JSON output ";
                   quote; Js.lit "video_references"; quote;
                   Js.lit " array. This is required for proper video citation.**" ]))
             /\ length entries = length (row :: rows)
             /\ forall k r, (row :: rows) !! k = Some r ->
                  exists rest,
                    entries !! k
                    = Some (Js.ofNat (k + 1) ++ Js.lit ". [Score: "
                            ++ toFixed3 env (vrow_score r) ++ Js.lit "]" ++ Js.nl
                            ++ Js.lit "  Video ID: " ++ vrow_video_id r ++ Js.nl
                            ++ Js.lit "  Time Range: " ++ vrow_time_start r ++ Js.lit " - "
                            ++ vrow_time_end r ++ Js.nl ++ rest))
  /\ ((fst (videoSearch (Sample.env Sample.docs Sample.videos VNull) (Js.lit "emb_1")
              (Some 6%Q) Sample.cached)
       = Return (VStr (videoToolResponse (Sample.env Sample.docs Sample.videos VNull)
                         (List.map toVideoSearchResult Sample.videos)))
       /\ length Sample.videos = 6%nat)
      /\ exists text,
           fst (videoSearch (Sample.env Sample.docs Sample.videos VNull) (Js.lit "emb_1")
                  (Some 6%Q) Sample.cached)
           = Return (VStr text)
           /\ Js.startsWith (Js.lit "Found 6 relevant video content.") text = true
           /\ Forall (fun n =>
                        Js.includes (Js.ofNat n ++ Js.lit ". [Score: 0.900]" ++ Js.nl
                                     ++ Js.lit "  Video ID: v" ++ Js.ofNat n ++ Js.nl
                                     ++ Js.lit "  Time Range: 00:01:00 - 00:02:00" ++ Js.nl)
                                    text = true)
                     (seq 1 6)).
Proof.
  split; [|split].
  - set (P := fun ev => forall l, ev = EvVideoQuery l -> l = default 4%Q limit).
    apply (steps_videoSearch env (appended P)).
    + apply appended_world.
    + intros d. apply appended_emit. intros l; discriminate.
    + apply appended_emit. intros l [= ->]. reflexivity.
  - intros embedding w1 w2 row rows Hcached Hconnect Hquery.
    assert (Hrun : fst (videoSearch env embeddingId limit s)
                   = Return (VStr (videoToolResponse env
                                     (List.map toVideoSearchResult (row :: rows))))).
    { unfold videoSearch, tryCatch. unfold bind at 1. cbn [sleep emit].
      unfold bind at 1. unfold cacheGet at 1. cbn [embeddingCache].
      rewrite Hcached. unfold bind at 1.
      erewrite (retryOperation_first_attempt env _ _ _ _ _
                  (List.map toVideoSearchResult (row :: rows))); [reflexivity|].
      unfold videoSearchQuery, tryCatch, bind, external, liftO, emit.
      cbn [world embeddingCache embeddingCounter trace].
      rewrite Hconnect. cbn [world embeddingCache embeddingCounter trace].
      rewrite Hquery. reflexivity. }
    split; [exact Hrun|].
    destruct (videoToolResponse_lists_segments env (row :: rows))
      as (entries & Htext & Hlength & Hentries).
    exists entries. rewrite Hrun, Htext. auto.
  - split.
    + split; [vm_compute; reflexivity | reflexivity].
    + eexists. split; [vm_compute; reflexivity|].
      split; [vm_compute; reflexivity|].
      repeat constructor.
Qed.

Lemma C10_videoSearch_limit_witness :
  fst (videoSearch (Sample.env Sample.docs Sample.videos VNull) (Js.lit "emb_1")
         (Some 5%Q) Sample.cached)
  = Return (VStr (videoToolResponse (Sample.env Sample.docs Sample.videos VNull)
                    (List.map toVideoSearchResult (firstn 5 Sample.videos))))
  /\ exists entries,
       fst (videoSearch (Sample.env Sample.docs Sample.videos VNull) (Js.lit "emb_1")
              (Some 5%Q) Sample.cached)
       = Return (VStr (concat
           [ Js.lit "Found "; Js.ofNat 5;
             Js.lit " relevant video content. **IMPORTANT: Use this video information for your ";
             quote; Js.lit "video_references"; quote;
             Js.lit " field in the JSON output.**"; Js.nl; Js.nl;
             Js.join (Js.nl ++ Js.nl) entries; Js.nl; Js.nl;
             Js.lit "**CRITICAL: Include ALL these video references in your JSON output ";
             quote; Js.lit "video_references"; quote;
             Js.lit " array. This is required for proper video citation.**" ]))
       /\ length entries = 5%nat
       /\ forall k r, firstn 5 Sample.videos !! k = Some r ->
            exists rest,
              entries !! k
              = Some (Js.ofNat (k + 1) ++ Js.lit ". [Score: "
                      ++ Sample.toFixed3 (vrow_score r) ++ Js.lit "]" ++ Js.nl
                      ++ Js.lit "  Video ID: " ++ vrow_video_id r ++ Js.nl
                      ++ Js.lit "  Time Range: " ++ vrow_time_start r ++ Js.lit " - "
                      ++ vrow_time_end r ++ Js.nl ++ rest).
Proof.
  apply (proj1 (proj2 (C10_videoSearch_limit_uncapped
                         (Sample.env Sample.docs Sample.videos VNull) (Js.lit "emb_1")
                         (Some 5%Q) Sample.cached))
           [4; 5]%Q 1%nat 2%nat (Sample.video 1) (List.map Sample.video (seq 2 4))).
  - vm_compute. reflexivity.
  - reflexivity.
  - reflexivity.
Defined.

(** ** vectorSearch *)

#[global] Instance anyState_preorder {W} : PreOrder (anyState (W := W)).
Proof. split; [intros s | intros s1 s2 s3 _ _]; exact I. Qed.

Lemma mapO_length {A B} (f : A -> Outcome B) (xs : list A) (ys : list B) :
  mapO f xs = Return ys -> length ys = length xs.
Proof.
  revert ys. induction xs as [|x xs IH]; intros ys; cbn.
  - intros [= <-]. reflexivity.
  - destruct (f x); [|discriminate]. destruct (mapO f xs); [|discriminate].
    intros [= <-]. cbn. f_equal. apply IH. reflexivity.
Qed.

Section VectorSearch.
Context {W : Type} (env : Env W).

(** What a successful vectorSearch call went through. *)
Lemma vectorSearch_returns (embeddingId : Js.str) (limit : option Q)
    (s s' : State W) (v : JsVal) :
  vectorSearch env embeddingId limit s = (Return v, s') ->
  exists embedding rows results formatted text,
    embeddingCache s !! (embeddingId ++ Js.lit "_3072") = Some embedding
    /\ retryOperation env
         (vectorSearchQuery env embedding (Qmin (default 3%Q limit) 4)) 5 2000
         (snd (sleep 500 s)) = (Return rows, s')
    /\ mapO (toVectorSearchResult env) rows = Return results
    /\ formattedResults env results = Return formatted
    /\ toolResponse env results = Return text
    /\ v = VStr text.
Proof.
  unfold vectorSearch, tryCatch. unfold bind at 1. unfold cacheGet at 1.
  cbn [embeddingCache].
  destruct (embeddingCache s !! (embeddingId ++ Js.lit "_3072")) as [embedding|].
  2:{ cbn. discriminate. }
  unfold bind at 1. cbn [sleep emit]. unfold bind at 1.
  destruct (retryOperation _ _ _ _ _) as [[rows|e] s2] eqn:Hretry.
  2:{ destruct e; cbn; discriminate. }
  unfold bind at 1. unfold liftO at 1.
  destruct (mapO (toVectorSearchResult env) rows) as [results|e] eqn:Hmap.
  2:{ destruct e; cbn; discriminate. }
  unfold bind at 1. unfold liftO at 1.
  destruct (formattedResults env results) as [formatted|e] eqn:Hfmt.
  2:{ destruct e; cbn; discriminate. }
  unfold bind at 1. unfold liftO at 1.
  destruct (toolResponse env results) as [text|e] eqn:Htext.
  2:{ destruct e; cbn; discriminate. }
  cbn. intros [= <- <-].
  exists embedding, rows, results, formatted, text. auto 10.
Qed.

(** Rows returned by the retried query are rows the store gave for the
    capped limit. *)
Lemma vectorSearchQuery_returns (embedding : list Q) (cappedLimit : Q)
    (s s' : State W) (rows : list DocRow) :
  vectorSearchQuery env embedding cappedLimit s = (Return rows, s') ->
  exists w, fst (matchDocuments env embedding cappedLimit w) = QRows rows.
Proof.
  unfold vectorSearchQuery, tryCatch. unfold bind at 1. unfold external at 1.
  destruct (pgConnect env (world s)) as [[[]|e] w1].
  2:{ cbn. destruct e; cbn; discriminate. }
  unfold bind, liftO, emit, external. cbn [world embeddingCache embeddingCounter trace].
  destruct (matchDocuments env embedding cappedLimit w1) as [[rows'|m|] w2] eqn:Hq;
    cbn; try discriminate.
  intros [= <- <-]. exists w1. rewrite Hq. reflexivity.
Qed.

End VectorSearch.

(** C4. Whatever limit the model asks for, every [match_documents] query
    the vectorSearch tool issues carries a limit of at most 4; and as the
    store returns no more rows than the limit it is given, a successful
    call returns a text that lists at most 4 passages. *)
Theorem C4_vectorSearch_limit_capped {W : Type} (env : Env W)
    (embeddingId : Js.str) (limit : option Q) (s : State W) :
  (exists evs,
      trace (snd (vectorSearch env embeddingId limit s)) = trace s ++ evs
      /\ Forall (fun ev => forall l, ev = EvMatchDocuments l -> (l <= 4)%Q) evs)
  /\ ((forall embedding l w rows,
         fst (matchDocuments env embedding l w) = QRows rows ->
         (inject_Z (Z.of_nat (length rows)) <= l)%Q) ->
      forall v,
        fst (vectorSearch env embeddingId limit s) = Return v ->
        exists results text,
          v = VStr text
          /\ toolResponse env results = Return text
          /\ (length results <= 4)%nat).
Proof.
  split.
  - set (P := fun ev => forall l, ev = EvMatchDocuments l -> (l <= 4)%Q).
    apply (steps_vectorSearch env (appended P)).
    + apply appended_world.
    + intros d. apply appended_emit. intros l; discriminate.
    + apply appended_emit. intros l [= <-]. apply Q.le_min_r.
  - intros Hstore v Hv.
    destruct (vectorSearch env embeddingId limit s) as [o s'] eqn:Hrun.
    cbn [fst] in Hv. subst o.
    apply vectorSearch_returns in Hrun.
    destruct Hrun as (embedding & rows & results & formatted & text
                      & _ & Hretry & Hmap & _ & Htext & ->).
    exists results, text. split; [reflexivity|]. split; [exact Htext|].
    apply (retryOperation_returns env _ anyState) in Hretry;
      [| intros ? ?; exact I | intros ? ?; exact I | intros ? ? ? _; exact I].
    destruct Hretry as (s1 & _ & Hop).
    apply vectorSearchQuery_returns in Hop. destruct Hop as [w Hq].
    apply Hstore in Hq.
    rewrite (mapO_length _ _ _ Hmap).
    assert (H4 : (inject_Z (Z.of_nat (length rows)) <= inject_Z 4)%Q).
    { eapply Qle_trans; [exact Hq|]. apply Q.le_min_r. }
    rewrite <- Zle_Qle in H4. lia.
Qed.

Lemma Sample_serve_bound {Row} (rows out : list Row) (limit : Q) (w : nat) :
  fst (Sample.serve rows limit w) = QRows out ->
  (inject_Z (Z.of_nat (length out)) <= limit)%Q.
Proof.
  unfold Sample.serve. destruct (Qlt_le_dec limit 0) as [Hneg|Hpos]; cbn; [discriminate|].
  intros [= <-].
  assert (H0 : 0 <= Qfloor limit).
  { change 0 with (Qfloor 0). apply Qfloor_resp_le, Hpos. }
  eapply Qle_trans; [|apply Qfloor_le].
  rewrite <- Zle_Qle. rewrite length_firstn. lia.
Qed.

Lemma C4_vectorSearch_limit_witness :
  exists results text,
    fst (vectorSearch (Sample.env Sample.docs Sample.videos VNull) (Js.lit "emb_1")
           (Some 10%Q) Sample.cached) = Return (VStr text)
    /\ toolResponse (Sample.env Sample.docs Sample.videos VNull) results = Return text
    /\ (length results <= 4)%nat.
Proof.
  destruct (vectorSearch (Sample.env Sample.docs Sample.videos VNull) (Js.lit "emb_1")
              (Some 10%Q) Sample.cached) as [o s'] eqn:Hrun.
  assert (Hret : exists v, o = Return v).
  { apply (f_equal fst) in Hrun. vm_compute in Hrun. subst o. eauto. }
  destruct Hret as [v ->].
  destruct (proj2 (C4_vectorSearch_limit_capped
                     (Sample.env Sample.docs Sample.videos VNull) (Js.lit "emb_1")
                     (Some 10%Q) Sample.cached)
              (fun embedding l w rows => Sample_serve_bound Sample.docs rows l w) v)
    as (results & text & -> & Htext & Hlen).
  - rewrite Hrun. reflexivity.
  - exists results, text. cbn [fst]. auto.
Defined.

(** Ten passages asked for, four queried and listed. *)
Example vectorSearch_ten_requested :
  let r := vectorSearch (Sample.env Sample.docs Sample.videos VNull) (Js.lit "emb_1")
             (Some 10%Q) Sample.cached in
  trace (snd r) = [EvSleep 500; EvMatchDocuments 4]
  /\ match fst r with
     | Return (VStr text) =>
         Js.startsWith (Js.lit "Found 4 relevant textbook documents.") text
     | _ => false
     end = true.
Proof. vm_compute. split; reflexivity. Qed.

(** ** A missing embedding in videoSearch *)

(** C2, as amended. When the cache holds no 1536-dimension vector for the
    id, the videoSearch tool, after its fixed 500 ms wait and with no
    connection, query or retry, returns as an ordinary result the text
    "Video search unavailable: Embedding <id> not found in cache. Please
    use generateEmbedding first.. Please check PostgreSQL connection and
    database status."; it does not throw. *)
Theorem C2_videoSearch_missing_embedding_returns_message {W : Type} (env : Env W)
    (embeddingId : Js.str) (limit : option Q) (s : State W) :
  embeddingCache s !! (embeddingId ++ Js.lit "_1536") = None ->
  videoSearch env embeddingId limit s
  = (Return (VStr (Js.lit "Video search unavailable: "
                   ++ Js.lit "Embedding " ++ embeddingId
                   ++ Js.lit " not found in cache. Please use generateEmbedding first."
                   ++ Js.lit ". Please check PostgreSQL connection and database status.")),
     mkState (world s) (embeddingCache s) (embeddingCounter s) (trace s ++ [EvSleep 500])).
Proof.
  intros Hmissing.
  unfold videoSearch, tryCatch. unfold bind at 1. cbn [sleep emit].
  unfold bind at 1. unfold cacheGet at 1. cbn [embeddingCache].
  rewrite Hmissing. cbn. unfold embeddingNotFound, pleaseCheck.
  rewrite <- !app_assoc. reflexivity.
Qed.

Lemma C2_videoSearch_missing_embedding_witness :
  fst (videoSearch (Sample.env Sample.docs Sample.videos VNull) (Js.lit "emb_7") None
         Sample.cached)
  = Return (VStr (Js.lit "Video search unavailable: "
                  ++ Js.lit "Embedding " ++ Js.lit "emb_7"
                  ++ Js.lit " not found in cache. Please use generateEmbedding first."
                  ++ Js.lit ". Please check PostgreSQL connection and database status.")).
Proof.
  rewrite (C2_videoSearch_missing_embedding_returns_message
             (Sample.env Sample.docs Sample.videos VNull) (Js.lit "emb_7") None Sample.cached).
  - reflexivity.
  - vm_compute. reflexivity.
Defined.

(** The claim as first stated fails: with nothing cached the tool
    returns, it does not throw. *)
Lemma C2_videoSearch_counterexample :
  embeddingCache Sample.initial !! (Js.lit "emb_1" ++ Js.lit "_1536") = None
  /\ fst (videoSearch (Sample.env Sample.docs Sample.videos VNull) (Js.lit "emb_1") None
            Sample.initial)
     = Return (VStr (Js.lit "Video search unavailable: Embedding emb_1 not found in cache. Please use generateEmbedding first.. Please check PostgreSQL connection and database status."))
  /\ ~ (exists e,
          fst (videoSearch (Sample.env Sample.docs Sample.videos VNull) (Js.lit "emb_1") None
                 Sample.initial) = Throw e).
Proof.
  split; [reflexivity|]. split; [vm_compute; reflexivity|].
  intros [e He]. vm_compute in He. discriminate.
Qed.

(** ** Truncation in vectorSearch *)

Lemma truncateContent_length (text : Js.str) (maxLength : nat) :
  (length (truncateContent text maxLength) <= maxLength + 3)%nat.
Proof.
  unfold truncateContent. destruct (Nat.leb_spec (length text) maxLength) as [Hle|Hgt].
  - lia.
  - unfold Js.substring0. rewrite length_app, length_firstn.
    change (length (Js.lit "...")) with 3%nat. lia.
Qed.

Lemma mapIndexO_Forall {A B} (f : A -> nat -> Outcome B) (P : B -> Prop)
    (start : nat) (xs : list A) (ys : list B) :
  (forall x i y, f x i = Return y -> P y) ->
  mapIndexO f start xs = Return ys -> Forall P ys.
Proof.
  intros Hf. revert start ys. induction xs as [|x xs IH]; intros start ys; cbn.
  - intros [= <-]. constructor.
  - destruct (f x start) as [y|] eqn:Hy; [|discriminate].
    destruct (mapIndexO f (S start) xs) as [ys'|] eqn:Hys; [|discriminate].
    intros [= <-]. constructor; [eapply Hf, Hy | eapply IH, Hys].
Qed.

(** The list the tool computes and drops does hold content of at most 500
    characters plus the ellipsis. *)
Lemma formattedResults_truncated {W} (env : Env W) (results : list VectorSearchResult)
    (formatted : list FormattedResult) :
  formattedResults env results = Return formatted ->
  Forall (fun entry => (length (fr_content entry) <= 503)%nat) formatted.
Proof.
  unfold formattedResults. apply mapIndexO_Forall.
  intros result index entry. destruct (metadataOf result); [|discriminate].
  intros [= <-]. cbn. apply (truncateContent_length _ 500).
Qed.

(** C1 fails on the code. A passage of 600 characters comes back from the
    vectorSearch tool in full: the returned text contains all 600
    characters and does not contain the passage cut to 500 characters and
    an ellipsis. *)
Theorem C1_vectorSearch_returns_untruncated_content :
  exists text,
    fst (vectorSearch (Sample.env Sample.docs Sample.videos VNull) (Js.lit "emb_1")
           (Some 1%Q) Sample.cached) = Return (VStr text)
    /\ length Sample.longContent = 600%nat
    /\ length (truncateContent Sample.longContent 500) = 503%nat
    /\ Js.includes Sample.longContent text = true
    /\ Js.includes (truncateContent Sample.longContent 500) text = false.
Proof.
  eexists. split; [vm_compute; reflexivity|].
  repeat split; vm_compute; reflexivity.
Qed.

(** ** The response validator *)

Lemma trimStart_blank (text : Js.str) : isBlank text -> Js.trimStart text = [].
Proof.
  induction 1 as [|c text Hc _ IH]; cbn; [reflexivity|]. rewrite Hc. exact IH.
Qed.

Lemma trim_blank (text : Js.str) : isBlank text -> Js.trim text = [].
Proof. intros H. unfold Js.trim, Js.trimEnd. rewrite (trimStart_blank _ H). reflexivity. Qed.

Lemma trimStart_visible (text : Js.str) :
  hasVisibleCharacter text -> hasVisibleCharacter (Js.trimStart text).
Proof.
  induction 1 as [c text Hc|c text _ IH]; cbn.
  - rewrite Hc. constructor. exact Hc.
  - destruct (Js.isWhiteSpace c) eqn:Hc; [exact IH|]. constructor. exact Hc.
Qed.

Lemma trim_visible (text : Js.str) : hasVisibleCharacter text -> Js.trim text <> [].
Proof.
  intros H. unfold Js.trim, Js.trimEnd.
  assert (Hv : hasVisibleCharacter
                 (rev (Js.trimStart (rev (Js.trimStart text))))).
  { unfold hasVisibleCharacter. rewrite Exists_exists.
    apply trimStart_visible in H.
    assert (Hr : hasVisibleCharacter (rev (Js.trimStart text))).
    { unfold hasVisibleCharacter in *. rewrite Exists_exists in *.
      destruct H as (c & Hin & Hc). exists c. split; [|exact Hc].
      apply list_elem_of_In, in_rev. rewrite rev_involutive.
      apply list_elem_of_In, Hin. }
    apply trimStart_visible in Hr. unfold hasVisibleCharacter in Hr.
    rewrite Exists_exists in Hr. destruct Hr as (c & Hin & Hc).
    exists c. split; [|exact Hc].
    apply list_elem_of_In, in_rev. rewrite rev_involutive.
    apply list_elem_of_In, Hin. }
  intros Heq. rewrite Heq in Hv. inversion Hv.
Qed.

Lemma validateBody_returns (props : list (Js.str * JsVal)) (dto : JsVal) :
  validateBody props = Return dto ->
  exists answer description,
    getProp (Js.lit "answer") props = VNum answer
    /\ getProp (Js.lit "ans_description") props = VStr description
    /\ (0 <= answer)%Q /\ (answer <= 3)%Q
    /\ Js.trim description <> []
    /\ validate props = []
    /\ dto = VObj props.
Proof.
  unfold validateBody. destruct (validate props); [|discriminate].
  destruct (getProp (Js.lit "answer") props) as [| | |answer| | |]; try discriminate.
  destruct (getProp (Js.lit "ans_description") props) as [| | | |description| |];
    try discriminate.
  destruct (Qlt_le_dec answer 0) as [|H0]; [discriminate|].
  destruct (Qlt_le_dec 3 answer) as [|H3]; [discriminate|].
  destruct (length (Js.trim description)) eqn:Hlen; [discriminate|].
  intros [= <-]. exists answer, description.
  repeat split; try assumption. intros Heq. rewrite Heq in Hlen. discriminate.
Qed.

Lemma validateBody_throws (props : list (Js.str * JsVal)) (e : thrown) :
  validateBody props = Throw e -> exists message, e = Error message.
Proof.
  unfold validateBody. destruct (validate props).
  - destruct (getProp (Js.lit "answer") props) as [| | |answer| | |];
      try (intros [= <-]; eauto).
    destruct (getProp (Js.lit "ans_description") props) as [| | | |description| |];
      try (intros [= <-]; eauto).
    destruct (Qlt_le_dec answer 0); [intros [= <-]; eauto|].
    destruct (Qlt_le_dec 3 answer); [intros [= <-]; eauto|].
    destruct (length (Js.trim description) =? 0)%nat; [intros [= <-]; eauto|discriminate].
  - intros [= <-]. eauto.
Qed.

(** A response that the body of the validator does not return is
    rejected with a validation error. *)
Lemma validateAndTransformResponse_rejects {W} (env : Env W)
    (props : list (Js.str * JsVal)) :
  (forall dto, validateBody props <> Return dto) ->
  exists message,
    validateAndTransformResponse env (VObj props)
    = Throw (LLMGenerationError (Js.lit "Invalid response format: " ++ message)).
Proof.
  intros Hno. unfold validateAndTransformResponse.
  destruct (validateBody props) as [dto|e] eqn:Hbody; [destruct (Hno dto); reflexivity|].
  destruct (validateBody_throws _ _ Hbody) as [message ->]. cbn. eauto.
Qed.

Lemma fieldErrors_reference (props : list (Js.str * JsVal)) :
  hasString "book_title" props -> hasString "book_id" props ->
  hasNumber "page_start" props -> hasNumber "page_end" props ->
  fieldErrors ReferenceDto props = [].
Proof.
  intros [? H1] [? H2] [? H3] [? H4]. unfold fieldErrors, ReferenceDto. cbn.
  rewrite H1, H2, H3, H4. reflexivity.
Qed.

Lemma fieldErrors_videoReference (props : list (Js.str * JsVal)) :
  hasString "video_id" props -> hasString "time_start" props ->
  hasString "time_end" props ->
  fieldErrors VideoReferenceDto props = [].
Proof.
  intros [? H1] [? H2] [? H3]. unfold fieldErrors, VideoReferenceDto. cbn.
  rewrite H1, H2, H3. reflexivity.
Qed.

Lemma fieldErrors_image (props : list (Js.str * JsVal)) :
  (exists b, getProp (Js.lit "is_required") props = VBool b) ->
  (hasString "image_description" props
   \/ getProp (Js.lit "image_description") props = VNull
   \/ getProp (Js.lit "image_description") props = VUndefined) ->
  fieldErrors ImageDto props = [].
Proof.
  intros [? H1] H2. unfold fieldErrors, ImageDto. cbn. rewrite H1.
  destruct H2 as [[? H2]|[H2|H2]]; rewrite H2; reflexivity.
Qed.

Lemma isArrayOf_accepts (dto : list (Js.str * (Js.str -> JsVal -> list Js.str)))
    (P : JsVal -> Prop) (property : Js.str) (v : JsVal) :
  (forall item, P item -> nestedInvalid dto item = false) ->
  isArrayWhere P v -> isArrayOf dto property v = None.
Proof.
  intros HP (items & -> & Hitems). cbn.
  replace (existsb (nestedInvalid dto) items) with false; [reflexivity|].
  symmetry. induction Hitems as [|item items Hitem _ IH]; cbn; [reflexivity|].
  rewrite (HP _ Hitem). exact IH.
Qed.

Lemma validate_accepts (props : list (Js.str * JsVal)) (answer : Q) (description : Js.str) :
  getProp (Js.lit "answer") props = VNum answer ->
  getProp (Js.lit "ans_description") props = VStr description ->
  listsWellFormed props ->
  validate props = [].
Proof.
  intros Ha Hd (Hrefs & Hvideos & Himages). unfold validate, fieldErrors. cbn.
  rewrite Ha, Hd. cbn.
  rewrite (isArrayOf_accepts ReferenceDto isReference _ _) by
    (try assumption; intros item (p & -> & ? & ? & ? & ?); cbn [nestedInvalid];
     rewrite fieldErrors_reference by assumption; reflexivity).
  rewrite (isArrayOf_accepts VideoReferenceDto isVideoReference _ _) by
    (try assumption; intros item (p & -> & ? & ? & ?); cbn [nestedInvalid];
     rewrite fieldErrors_videoReference by assumption; reflexivity).
  rewrite (isArrayOf_accepts ImageDto isImage _ _) by
    (try assumption; intros item (p & -> & ? & ?); cbn [nestedInvalid];
     rewrite fieldErrors_image by assumption; reflexivity).
  reflexivity.
Qed.

(** C5. On a parsed response object: an [answer] equal to 0, 1, 2 or 3
    with an [ans_description] that has a character other than white space,
    the three lists being arrays of well-formed records, is accepted and
    returned as it is; an [answer] that is not a number from 0 to 3 (4 and
    -1 among them), or an [ans_description] that is not a string or is
    empty or white space only, is rejected with the error "Invalid
    response format: ...". *)
Theorem C5_response_validation {W : Type} (env : Env W) (props : list (Js.str * JsVal)) :
  (forall answer description,
      getProp (Js.lit "answer") props = VNum answer ->
      (answer == 0 \/ answer == 1 \/ answer == 2 \/ answer == 3)%Q ->
      getProp (Js.lit "ans_description") props = VStr description ->
      hasVisibleCharacter description ->
      listsWellFormed props ->
      validateAndTransformResponse env (VObj props) = Return (VObj props))
  /\ ((forall answer, getProp (Js.lit "answer") props = VNum answer ->
                      (answer < 0 \/ 3 < answer)%Q) ->
      exists message,
        validateAndTransformResponse env (VObj props)
        = Throw (LLMGenerationError (Js.lit "Invalid response format: " ++ message)))
  /\ ((forall description, getProp (Js.lit "ans_description") props = VStr description ->
                           isBlank description) ->
      exists message,
        validateAndTransformResponse env (VObj props)
        = Throw (LLMGenerationError (Js.lit "Invalid response format: " ++ message))).
Proof.
  split; [|split].
  - intros answer description Ha Hrange Hd Hvisible Hlists.
    unfold validateAndTransformResponse, validateBody.
    rewrite (validate_accepts _ _ _ Ha Hd Hlists), Ha, Hd.
    destruct (Qlt_le_dec answer 0) as [Hneg|_].
    { exfalso. destruct Hrange as [H|[H|[H|H]]]; rewrite H in Hneg; discriminate Hneg. }
    destruct (Qlt_le_dec 3 answer) as [Hbig|_].
    { exfalso. destruct Hrange as [H|[H|[H|H]]]; rewrite H in Hbig; discriminate Hbig. }
    pose proof (trim_visible _ Hvisible) as Htrim.
    destruct (Js.trim description); [congruence|]. reflexivity.
  - intros Hbad. apply validateAndTransformResponse_rejects. intros dto Hbody.
    apply validateBody_returns in Hbody.
    destruct Hbody as (answer & description & Ha & _ & H0 & H3 & _).
    destruct (Hbad _ Ha) as [Hneg|Hbig]; lra.
  - intros Hblank. apply validateAndTransformResponse_rejects. intros dto Hbody.
    apply validateBody_returns in Hbody.
    destruct Hbody as (answer & description & _ & Hd & _ & _ & Htrim & _).
    apply Htrim, trim_blank, Hblank, Hd.
Qed.

Lemma Sample_response_lists (answer : Q) (description : string) :
  listsWellFormed (Sample.response answer description).
Proof.
  repeat split.
  - eexists. split; [reflexivity|]. repeat constructor.
    eexists. split; [reflexivity|]. repeat split; eexists; reflexivity.
  - eexists. split; [reflexivity|]. constructor.
  - eexists. split; [reflexivity|]. repeat constructor.
    eexists. split; [reflexivity|]. split; [eexists; reflexivity|].
    right. left. reflexivity.
Qed.

Lemma C5_response_validation_witness :
  validateAndTransformResponse (Sample.env [] [] VNull)
    (VObj (Sample.response 2 "60-100 beats per minute."))
  = Return (VObj (Sample.response 2 "60-100 beats per minute."))
  /\ (exists message,
        validateAndTransformResponse (Sample.env [] [] VNull)
          (VObj (Sample.response 4 "60-100 beats per minute."))
        = Throw (LLMGenerationError (Js.lit "Invalid response format: " ++ message)))
  /\ (exists message,
        validateAndTransformResponse (Sample.env [] [] VNull)
          (VObj (Sample.response (-1) "60-100 beats per minute."))
        = Throw (LLMGenerationError (Js.lit "Invalid response format: " ++ message)))
  /\ (exists message,
        validateAndTransformResponse (Sample.env [] [] VNull)
          (VObj (Sample.response 1 "   "))
        = Throw (LLMGenerationError (Js.lit "Invalid response format: " ++ message))).
Proof.
  split; [|split; [|split]].
  - apply (proj1 (C5_response_validation (Sample.env [] [] VNull)
                    (Sample.response 2 "60-100 beats per minute."))
             2%Q (Js.lit "60-100 beats per minute.")).
    + reflexivity.
    + right. right. left. reflexivity.
    + reflexivity.
    + constructor. reflexivity.
    + apply Sample_response_lists.
  - apply (proj1 (proj2 (C5_response_validation (Sample.env [] [] VNull)
                           (Sample.response 4 "60-100 beats per minute.")))).
    intros answer [= <-]. right. reflexivity.
  - apply (proj1 (proj2 (C5_response_validation (Sample.env [] [] VNull)
                           (Sample.response (-1) "60-100 beats per minute.")))).
    intros answer [= <-]. left. reflexivity.
  - apply (proj2 (proj2 (C5_response_validation (Sample.env [] [] VNull)
                           (Sample.response 1 "   ")))).
    intros description [= <-]. repeat constructor.
Defined.

(** The messages for an answer of 4 and for a blank description. *)
Example validator_messages :
  validateAndTransformResponse (Sample.env [] [] VNull)
    (VObj (Sample.response 4 "60-100 beats per minute."))
  = Throw (LLMGenerationError (Js.lit "Invalid response format: Answer must be between 0 and 3 (0-based index for options A-D)"))
  /\ validateAndTransformResponse (Sample.env [] [] VNull)
       (VObj (Sample.response 1 "   "))
     = Throw (LLMGenerationError (Js.lit "Invalid response format: Answer description cannot be empty"))
  /\ validateAndTransformResponse (Sample.env [] [] VNull)
       (VObj [ (Js.lit "answer", VStr (Js.lit "2")) ])
     = Throw (LLMGenerationError (Js.lit "Invalid response format: Validation failed: Property 'answer': answer must be a number conforming to the specified constraints; Property 'ans_description': ans_description must be a string; Property 'references': references must be an array; Property 'video_references': video_references must be an array; Property 'images': images must be an array")).
Proof. vm_compute. repeat split; reflexivity. Qed.

(** ** generate on an empty agent output *)

Lemma checkOutput_empty (output : JsVal) :
  isEmptyOutput output = true ->
  checkOutput output = Throw (LLMGenerationError emptyOutputMessage).
Proof.
  destruct output as [| |[]|q|[|c t]|[|x l]|props]; cbn; try discriminate; try reflexivity.
  - intros ->. reflexivity.
  - intros ->. reflexivity.
Qed.

Lemma validateAndTransformResponse_returns {W} (env : Env W) (response dto : JsVal) :
  validateAndTransformResponse env response = Return dto ->
  exists props, response = VObj props /\ validateBody props = Return dto.
Proof.
  unfold validateAndTransformResponse. destruct response; try discriminate.
  destruct (validateBody props) as [dto'|e] eqn:Hbody.
  - intros [= <-]. eauto.
  - destruct (messageOf e); discriminate.
Qed.

(** C8. When the agent call of a [generate] invocation resolves with an
    empty output (absent, null, false, zero, an empty array, or a string
    of nothing but white space), whatever made the agent stop, [generate]
    throws the error "Failed to generate solution: Agent returned empty
    output. ..." and returns nothing. Whenever [generate] does return, the
    result is an object that passed the whole validation: a numeric answer
    from 0 to 3 and a description that is not blank. *)
Theorem C8_empty_agent_output_fails {W : Type} (env : Env W)
    (q : ServicableQuestionWithImages) (systemMessage : Js.str) (s : State W) :
  (forall output s',
      agentResult env q systemMessage s = (Return output, s') ->
      isEmptyOutput output = true ->
      generate env q systemMessage s
      = (Throw (LLMGenerationError
                  (Js.lit "Failed to generate solution: " ++ emptyOutputMessage)), s'))
  /\ (forall v s',
        generate env q systemMessage s = (Return v, s') ->
        exists props answer description,
          v = VObj props
          /\ validate props = []
          /\ getProp (Js.lit "answer") props = VNum answer
          /\ (0 <= answer)%Q /\ (answer <= 3)%Q
          /\ getProp (Js.lit "ans_description") props = VStr description
          /\ Js.trim description <> []).
Proof.
  split.
  - intros output s' Hagent Hempty.
    unfold generate, generateBody, tryCatch. unfold bind at 1. rewrite Hagent.
    unfold bind at 1. unfold liftO at 1. rewrite (checkOutput_empty _ Hempty).
    reflexivity.
  - intros v s'. unfold generate, tryCatch.
    destruct (generateBody env q systemMessage s) as [[v0|e] s1] eqn:Hbody.
    2:{ unfold bind, liftO, throw. destruct (messageOf e); discriminate. }
    intros [= <- <-]. revert Hbody. unfold generateBody. unfold bind at 1.
    destruct (agentResult env q systemMessage s) as [[output|e] s2]; [|discriminate].
    unfold bind, liftO.
    destruct (checkOutput output) as [responseText|e]; [|discriminate].
    destruct (parseResponse env responseText) as [parsedResponse|e]; [|discriminate].
    destruct (validateAndTransformResponse env parsedResponse) as [dto|e] eqn:Hvalid;
      [|discriminate].
    intros [= <- <-].
    apply validateAndTransformResponse_returns in Hvalid.
    destruct Hvalid as (props & -> & Hvalid).
    apply validateBody_returns in Hvalid.
    destruct Hvalid as (answer & description & Ha & Hd & H0 & H3 & Htrim & Hv & ->).
    exists props, answer, description. auto 10.
Qed.

Lemma C8_empty_agent_output_witness :
  exists s',
    generate (Sample.env Sample.docs Sample.videos (VStr (Js.lit "  ")))
      Sample.heartRate (Js.lit "You are a nursing tutor.") Sample.initial
    = (Throw (LLMGenerationError
                (Js.lit "Failed to generate solution: " ++ emptyOutputMessage)), s').
Proof.
  eexists.
  apply (proj1 (C8_empty_agent_output_fails _ _ _ _) (VStr (Js.lit "  "))).
  - vm_compute. reflexivity.
  - reflexivity.
Defined.

(** ** A whole request *)

(** The agent embeds the question, searches both stores and answers with
    commentary around the JSON: the cache is cleared once, the tools run
    in order, and the validated object is returned. *)
Example generate_end_to_end :
  let answer := VStr (Js.lit "Final answer: " ++ Sample.json ++ Js.nl ++ Js.lit "Done.") in
  let r := generate (Sample.env Sample.docs Sample.videos answer) Sample.heartRate
             (Js.lit "You are a nursing tutor.") Sample.cached in
  fst r = Return (VObj (Sample.response 1 "60-100 beats per minute."))
  /\ trace (snd r)
     = [ EvCacheCleared; EvToolCall GenerateEmbedding;
         EvToolCall VectorSearch; EvSleep 500; EvMatchDocuments 4;
         EvToolCall VideoSearch; EvSleep 500; EvVideoQuery 4 ]
  /\ embeddingCounter (snd r) = 1%nat.
Proof. vm_compute. repeat split; reflexivity. Qed.

(* ================================================================== *)
(** * Further properties of the service *)

(** ** truncateContent *)

(** X1. [truncateContent] returns at most [maxLength + 3] characters,
    keeps the first [maxLength] characters of the content, and cutting an
    already cut text again changes nothing. *)
Theorem X1_truncateContent_bound_prefix_idempotent (text : Js.str) (maxLength : nat) :
  (length (truncateContent text maxLength) <= maxLength + 3)%nat
  /\ firstn maxLength (truncateContent text maxLength) = firstn maxLength text
  /\ truncateContent (truncateContent text maxLength) maxLength
     = truncateContent text maxLength.
Proof.
  split; [apply truncateContent_length|].
  unfold truncateContent, Js.substring0.
  destruct (Nat.leb_spec (length text) maxLength) as [Hle|Hgt].
  - split; [reflexivity|].
    destruct (Nat.leb_spec (length text) maxLength); [reflexivity | lia].
  - assert (Hlen : length (firstn maxLength text) = maxLength)
      by (rewrite length_firstn; lia).
    assert (Hfirst : firstn maxLength (firstn maxLength text ++ Js.lit "...")
                     = firstn maxLength text).
    { rewrite firstn_app, Hlen, Nat.sub_diag. cbn [firstn].
      rewrite app_nil_r. apply firstn_all2. lia. }
    split; [exact Hfirst|].
    destruct (Nat.leb_spec (length (firstn maxLength text ++ Js.lit "...")) maxLength)
      as [Hle'|_].
    + rewrite length_app, Hlen in Hle'.
      change (length (Js.lit "...")) with 3%nat in Hle'. lia.
    + rewrite Hfirst. reflexivity.
Qed.

(** ** The waits of the retry wrapper *)

Lemma total_app (measure : Event -> Z) (evs1 evs2 : list Event) :
  total measure (evs1 ++ evs2) = total measure evs1 + total measure evs2.
Proof.
  unfold total. induction evs1 as [|ev evs1 IH]; cbn; [reflexivity|]. rewrite IH. lia.
Qed.

Lemma delayInRange_tenths (baseDelay : Z) (k : nat) (d : Z) :
  delayInRange baseDelay k d ->
  baseDelay * 2 ^ Z.of_nat (k - 1) <= d
  /\ 10 * d <= 13 * (baseDelay * 2 ^ Z.of_nat (k - 1)).
Proof.
  intros [Hlow Hhigh]. split; [exact Hlow|].
  unfold Qle in Hhigh. cbn in Hhigh. lia.
Qed.

Section RetryWaits.
Context {W T : Type} (env : Env W) (operation : M W T).
Context (maxRetries : nat) (baseDelay : Z).
Hypothesis random_range :
  forall w, (0 <= fst (mathRandom env w))%Q /\ (fst (mathRandom env w) < 1)%Q.
Hypothesis baseDelay_nonneg : 0 <= baseDelay.

(** From [attempt] on, the waits of a run add up to at most 1.3 times
    the waits of the schedule that is left, and to at least that schedule
    when the run ends in a throw of an operation that throws error objects
    only. *)
Lemma retryLoop_waits (remaining attempt : nat) (lastError : thrown) (s : State W) :
  (attempt + remaining = S maxRetries)%nat -> (1 <= attempt)%nat ->
  let r := retryLoop env (observed operation) maxRetries baseDelay
             remaining attempt lastError s in
  let schedule :=
    baseDelay * 2 ^ Z.of_nat (attempt - 1) * (2 ^ Z.of_nat (remaining - 1) - 1) in
  exists evs,
    trace (snd r) = trace s ++ evs
    /\ 10 * total sleepOf evs <= 13 * schedule
    /\ ((forall s0, fst (operation s0) <> Throw Undefined) ->
        forall e, fst r = Throw e -> schedule <= total sleepOf evs).
Proof.
  revert attempt lastError s.
  induction remaining as [|remaining IH]; intros attempt lastError s Hinv Hattempt.
  - exists []. cbn. rewrite app_nil_r. repeat split; intros; lia.
  - cbn zeta. cbn [retryLoop]. unfold tryCatch.
    destruct (operation s) as [o s1] eqn:Hop.
    assert (Hobs : observed operation s =
                   (o, mkState (world s1) (embeddingCache s1) (embeddingCounter s1)
                               (trace s ++ [EvInvoked (errorOf o)])))
      by (unfold observed; rewrite Hop; reflexivity).
    rewrite Hobs.
    assert (Hpow : 0 < 2 ^ Z.of_nat (attempt - 1)) by (apply Z.pow_pos_nonneg; lia).
    assert (Hpow' : 1 <= 2 ^ Z.of_nat (S remaining - 1))
      by (pose proof (Z.pow_pos_nonneg 2 (Z.of_nat (S remaining - 1))); lia).
    destruct o as [v|e].
    + exists [EvInvoked None]. cbn -[Z.pow Z.mul].
      split; [reflexivity|]. split; [nia|]. intros; discriminate.
    + destruct (decide (e = Undefined)) as [->|Hdef].
      { exists [EvInvoked (Some Undefined)]. cbn -[Z.pow Z.mul].
        split; [reflexivity|]. split; [nia|].
        intros Hnever. exfalso. apply (Hnever s). rewrite Hop. reflexivity. }
      destruct (messageOf_defined e Hdef) as [m Hm]. rewrite Hm.
      destruct (Nat.eqb_spec attempt maxRetries) as [Heq|Hne].
      { exists [EvInvoked (Some e)]. cbn -[Z.pow Z.mul].
        assert (remaining = O) by lia. subst remaining.
        split; [reflexivity|]. split; [cbn; lia|]. intros _ e' _. cbn. lia. }
      unfold bind, external, sleep, emit.
      cbn [world trace embeddingCache embeddingCounter].
      destruct (mathRandom env (world s1)) as [random w2] eqn:Hrand.
      cbn [world trace embeddingCache embeddingCounter errorOf].
      set (d := backoffDelay baseDelay attempt random).
      match goal with
      | |- context [retryLoop _ _ _ _ _ _ _ ?s2] =>
          destruct (IH (S attempt) e s2 ltac:(lia) ltac:(lia)) as (evs & Htr & Hup & Hlow)
      end.
      cbn zeta in Htr, Hup, Hlow. cbn [trace] in Htr.
      assert (Hd : baseDelay * 2 ^ Z.of_nat (attempt - 1) <= d
                   /\ 10 * d <= 13 * (baseDelay * 2 ^ Z.of_nat (attempt - 1))).
      { apply delayInRange_tenths.
        destruct (random_range (world s1)) as [H0 H1]. rewrite Hrand in H0, H1.
        apply backoffDelay_bounds; assumption. }
      assert (Hsucc : 2 ^ Z.of_nat (S attempt - 1) = 2 * 2 ^ Z.of_nat (attempt - 1)).
      { replace (Z.of_nat (S attempt - 1)) with (Z.succ (Z.of_nat (attempt - 1))) by lia.
        apply Z.pow_succ_r. lia. }
      assert (Hrem : remaining <> O) by lia.
      assert (Hsucc' : 2 ^ Z.of_nat (S remaining - 1)
                       = 2 * 2 ^ Z.of_nat (remaining - 1)).
      { replace (Z.of_nat (S remaining - 1)) with (Z.succ (Z.of_nat (remaining - 1)))
          by lia.
        apply Z.pow_succ_r. lia. }
      rewrite Hsucc in Hup, Hlow. rewrite Hsucc'.
      exists ([EvInvoked (Some e); EvSleep d] ++ evs).
      split; [rewrite Htr, <- !app_assoc; reflexivity|].
      rewrite total_app. cbn [total foldr sleepOf].
      assert (Hmax : Z.max 0 d = d) by nia.
      rewrite Hmax.
      split; [nia|].
      intros Hnever e' He'. specialize (Hlow Hnever e' He'). nia.
Qed.

End RetryWaits.

(** X2. Over a run of [retryOperation] with [maxRetries = N] and a base
    delay [b >= 0], [Math.random] drawing from [0, 1), the waits add up to
    at most 1.3 * b * (2^(N-1) - 1) milliseconds; and when the run ends in
    a throw, the operation throwing error objects only, they add up to at
    least b * (2^(N-1) - 1). *)
Theorem X2_retry_total_wait {W T : Type} (env : Env W) (operation : M W T)
    (N : nat) (b : Z) (s : State W) :
  (forall w, (0 <= fst (mathRandom env w))%Q /\ (fst (mathRandom env w) < 1)%Q) ->
  0 <= b ->
  let r := retryOperation env (observed operation) N b s in
  exists evs,
    trace (snd r) = trace s ++ evs
    /\ 10 * total sleepOf evs <= 13 * (b * (2 ^ Z.of_nat (N - 1) - 1))
    /\ ((forall s0, fst (operation s0) <> Throw Undefined) ->
        forall e, fst r = Throw e ->
        b * (2 ^ Z.of_nat (N - 1) - 1) <= total sleepOf evs).
Proof.
  intros Hrand Hb. unfold retryOperation.
  destruct (retryLoop_waits env operation N b Hrand Hb N 1 Undefined s ltac:(lia) ltac:(lia))
    as (evs & Htr & Hup & Hlow).
  cbn zeta in *. change (2 ^ Z.of_nat (1 - 1)) with 1 in Hup, Hlow.
  rewrite Z.mul_1_r in Hup, Hlow.
  exists evs. auto.
Qed.

Lemma X2_retry_total_wait_witness :
  exists evs,
    trace (snd (retryOperation (Sample.env [] [] VNull) (observed Sample.failing) 5 2000
                  Sample.initial)) = trace Sample.initial ++ evs
    /\ total sleepOf evs <= 39000
    /\ 30000 <= total sleepOf evs.
Proof.
  destruct (X2_retry_total_wait (Sample.env [] [] VNull) Sample.failing 5 2000
              Sample.initial) as (evs & Htr & Hup & Hlow).
  - intros w. split; [discriminate | reflexivity].
  - lia.
  - exists evs. split; [exact Htr|].
    change (2 ^ Z.of_nat (5 - 1)) with 16 in Hup, Hlow.
    split; [lia|].
    eapply (Hlow ltac:(intros s0; discriminate)).
    vm_compute. reflexivity.
Defined.

(** ** What the tools throw *)

Section RetryThrows.
Context {W T : Type} (env : Env W) (operation : M W T).

(** The wrapper throws [undefined] only when it made no attempt or the
    operation did. *)
Lemma retryLoop_throws_defined (maxRetries : nat) (baseDelay : Z)
    (remaining attempt : nat) (lastError e : thrown) (s s' : State W) :
  (forall s1 s2, operation s1 <> (Throw Undefined, s2)) ->
  (remaining = O -> lastError <> Undefined) ->
  retryLoop env operation maxRetries baseDelay remaining attempt lastError s = (Throw e, s') ->
  e <> Undefined.
Proof.
  intros Hop. revert attempt lastError s.
  induction remaining as [|remaining IH]; intros attempt lastError s Hlast; cbn [retryLoop].
  - intros [= <- _]. auto.
  - unfold tryCatch. destruct (operation s) as [[v|e0] s1] eqn:Hrun; [discriminate|].
    destruct e0 as [|m|m|m]; [destruct (Hop _ _ Hrun)| | |]; cbn [messageOf].
    all: destruct (attempt =? maxRetries)%nat; [intros [= <- _]; discriminate|].
    all: unfold bind, external, sleep, emit;
      destruct (mathRandom env (world s1)) as [random w2];
      cbn [world trace embeddingCache embeddingCounter];
      apply IH; intros _; discriminate.
Qed.

Context (R : relation (State W)) `{!PreOrder R}.
Hypothesis world_step : worldStep R.
Hypothesis sleep_step : forall d, steps R (emit (EvSleep d)).
Hypothesis failed_step : forall s1 e s2, operation s1 = (Throw e, s2) -> R s1 s2.

(** A run of the wrapper that throws went through failed attempts and
    waits only. *)
Lemma retryLoop_throws (maxRetries : nat) (baseDelay : Z) (remaining attempt : nat)
    (lastError e : thrown) (s s' : State W) :
  retryLoop env operation maxRetries baseDelay remaining attempt lastError s = (Throw e, s') ->
  R s s'.
Proof.
  revert attempt lastError s.
  induction remaining as [|remaining IH]; intros attempt lastError s; cbn [retryLoop].
  - intros [= _ <-]. reflexivity.
  - unfold tryCatch. destruct (operation s) as [[v|e0] s1] eqn:Hop; [discriminate|].
    pose proof (failed_step _ _ _ Hop) as Hs1.
    destruct (messageOf e0); [|intros [= _ <-]; exact Hs1].
    destruct (attempt =? maxRetries)%nat; [intros [= _ <-]; exact Hs1|].
    unfold bind, external, sleep.
    destruct (mathRandom env (world s1)) as [random w2] eqn:Hrand.
    pose proof (sleep_step (backoffDelay baseDelay attempt random)
                  (mkState w2 (embeddingCache s1) (embeddingCounter s1) (trace s1)))
      as Hsl.
    destruct (emit (EvSleep (backoffDelay baseDelay attempt random))
                (mkState w2 (embeddingCache s1) (embeddingCounter s1) (trace s1)))
      as [[[]|e'] s3] eqn:Hemit; [|discriminate Hemit].
    cbn [snd] in Hsl. intros Hrun. apply IH in Hrun.
    transitivity s1; [exact Hs1|].
    transitivity (mkState w2 (embeddingCache s1) (embeddingCounter s1) (trace s1));
      [apply world_step|].
    transitivity s3; assumption.
Qed.

End RetryThrows.

Lemma videoSearchQuery_throws_defined {W} (env : Env W) (embedding : list Q) (limit : Q)
    (s1 s2 : State W) :
  videoSearchQuery env embedding limit s1 <> (Throw Undefined, s2).
Proof.
  unfold videoSearchQuery, tryCatch.
  destruct (bind (external (pgConnect env)) _ s1) as [[v|e] s3]; [discriminate|].
  destruct e; cbn; discriminate.
Qed.

Lemma vectorSearchQuery_throws_defined {W} (env : Env W) (embedding : list Q)
    (cappedLimit : Q) (s1 s2 : State W) :
  vectorSearchQuery env embedding cappedLimit s1 <> (Throw Undefined, s2).
Proof.
  unfold vectorSearchQuery, tryCatch.
  destruct (bind (external (pgConnect env)) _ s1) as [[v|e] s3]; [discriminate|].
  destruct e; cbn; discriminate.
Qed.

(** X3. The videoSearch tool never throws: whatever the cache, the
    store and the connection do, a call returns a text to the agent. *)
Theorem X3_videoSearch_always_returns_text {W : Type} (env : Env W)
    (embeddingId : Js.str) (limit : option Q) (s : State W) :
  exists text, fst (videoSearch env embeddingId limit s) = Return (VStr text).
Proof.
  unfold videoSearch, tryCatch. unfold bind at 1. cbn [sleep emit].
  unfold bind at 1. unfold cacheGet at 1. cbn [embeddingCache].
  destruct (embeddingCache s !! (embeddingId ++ Js.lit "_1536")) as [embedding|].
  2:{ cbn. eauto. }
  unfold bind at 1.
  destruct (retryOperation env _ 5 2000 _) as [[videos|e] s2] eqn:Hretry.
  - destruct (length videos =? 0)%nat; cbn; eauto.
  - apply retryLoop_throws_defined in Hretry;
      [| intros s1 s3; apply videoSearchQuery_throws_defined | discriminate].
    destruct e; [congruence| | |]; cbn; eauto.
Qed.

Lemma Throw_inj {T} (a b : thrown) : Throw (T := T) a = Throw b -> a = b.
Proof. congruence. Qed.

Lemma mapO_throws {A B} (f : A -> Outcome B) (xs : list A) (e : thrown) :
  mapO f xs = Throw e -> exists x, f x = Throw e.
Proof.
  induction xs as [|x xs IH]; cbn; [discriminate|].
  destruct (f x) as [y|e0] eqn:Hx; [|intros [= <-]; eauto].
  destruct (mapO f xs) as [ys|e0]; [discriminate|].
  intros [= <-]. apply IH. reflexivity.
Qed.

Lemma mapIndexO_throws {A B} (f : A -> nat -> Outcome B) (start : nat) (xs : list A)
    (e : thrown) :
  mapIndexO f start xs = Throw e -> exists x i, f x i = Throw e.
Proof.
  revert start. induction xs as [|x xs IH]; intros start; cbn; [discriminate|].
  destruct (f x start) as [y|e0] eqn:Hx; [|intros [= <-]; eauto].
  destruct (mapIndexO f (S start) xs) as [ys|e0] eqn:Hrest; [discriminate|].
  intros [= <-]. eapply IH, Hrest.
Qed.

(** X4. Whatever goes wrong in the vectorSearch tool reaches the agent
    executor as one kind of error, "Vector search tool failed: <cause>.
    Please check PostgreSQL connection and database status.", [JSON.parse]
    throwing error objects as it does. *)
Theorem X4_vectorSearch_throws_wrapped_error {W : Type} (env : Env W)
    (embeddingId : Js.str) (limit : option Q) (s : State W) (e : thrown) :
  (forall json, parseMetadata env json <> Throw Undefined) ->
  fst (vectorSearch env embeddingId limit s) = Throw e ->
  exists cause,
    e = Error (Js.lit "Vector search tool failed: " ++ cause ++ pleaseCheck).
Proof.
  intros Hparse.
  assert (Hcatch : forall e0 (s0 : State W), e0 <> Undefined ->
            exists cause,
              fst ((bind (liftO (messageOf e0)) (fun message =>
                      throw (A := JsVal)
                        (Error (Js.lit "Vector search tool failed: " ++ message
                                ++ pleaseCheck)))) s0)
              = Throw (Error (Js.lit "Vector search tool failed: " ++ cause ++ pleaseCheck))).
  { intros e0 s0 He0. destruct e0; [congruence| | |]; cbn; eauto. }
  unfold vectorSearch, tryCatch. unfold bind at 1. unfold cacheGet at 1.
  cbn [embeddingCache].
  destruct (embeddingCache s !! (embeddingId ++ Js.lit "_3072")) as [embedding|].
  2:{ cbn [throw fst bind liftO messageOf]. intros Heq. apply Throw_inj in Heq.
      subst e. eexists. reflexivity. }
  unfold bind at 1. cbn [sleep emit]. unfold bind at 1.
  destruct (retryOperation _ _ _ _ _) as [[rows|e0] s2] eqn:Hretry.
  2:{ apply retryLoop_throws_defined in Hretry;
        [| intros s1 s3; apply vectorSearchQuery_throws_defined | discriminate].
      destruct (Hcatch e0 s2 Hretry) as [cause Hc]. rewrite Hc.
      intros [= <-]. eauto. }
  unfold bind at 1. unfold liftO at 1.
  destruct (mapO (toVectorSearchResult env) rows) as [results|e0] eqn:Hmap.
  2:{ assert (He0 : e0 <> Undefined).
      { apply mapO_throws in Hmap. destruct Hmap as [row Hrow].
        unfold toVectorSearchResult in Hrow.
        destruct (row_metadata row); try discriminate.
        destruct (parseMetadata env json) eqn:Hp; [discriminate|].
        injection Hrow as <-. intros ->. apply (Hparse json Hp). }
      destruct (Hcatch e0 s2 He0) as [cause Hc]. rewrite Hc.
      intros [= <-]. eauto. }
  unfold bind at 1. unfold liftO at 1.
  destruct (formattedResults env results) as [formatted|e0] eqn:Hfmt.
  2:{ assert (He0 : e0 <> Undefined).
      { apply mapIndexO_throws in Hfmt. destruct Hfmt as (result & i & Hr).
        unfold metadataOf in Hr. destruct (metadata result); [discriminate|].
        injection Hr as <-. discriminate. }
      destruct (Hcatch e0 s2 He0) as [cause Hc]. rewrite Hc.
      intros [= <-]. eauto. }
  unfold bind at 1. unfold liftO at 1.
  destruct (toolResponse env results) as [text|e0] eqn:Htext.
  2:{ assert (He0 : e0 <> Undefined).
      { unfold toolResponse in Htext.
        destruct (mapIndexO _ _ _) as [entries|e1] eqn:Hentries; [discriminate|].
        injection Htext as <-.
        apply mapIndexO_throws in Hentries. destruct Hentries as (result & i & Hr).
        unfold vectorEntry, metadataOf in Hr. destruct (metadata result); [discriminate|].
        injection Hr as <-. discriminate. }
      destruct (Hcatch e0 s2 He0) as [cause Hc]. rewrite Hc.
      intros [= <-]. eauto. }
  cbn. discriminate.
Qed.

(** A world where the connection to PostgreSQL is refused. *)
Lemma X4_vectorSearch_throws_witness :
  exists cause,
    fst (vectorSearch (Outage.env Sample.docs) (Js.lit "emb_1") None Sample.cached)
    = Throw (Error (Js.lit "Vector search tool failed: " ++ cause ++ pleaseCheck)).
Proof.
  destruct (vectorSearch (Outage.env Sample.docs) (Js.lit "emb_1") None Sample.cached)
    as [o s'] eqn:Hrun.
  assert (Hthrow : exists e, o = Throw e).
  { apply (f_equal fst) in Hrun. vm_compute in Hrun. subst o. eauto. }
  destruct Hthrow as [e ->].
  destruct (X4_vectorSearch_throws_wrapped_error (Outage.env Sample.docs) (Js.lit "emb_1")
              None Sample.cached e) as [cause ->].
  - intros json. discriminate.
  - rewrite Hrun. reflexivity.
  - exists cause. reflexivity.
Defined.

(** X5. Without the 3072-dimension vector in the cache, the vectorSearch
    tool throws at once "Vector search tool failed: 3072D embedding not
    found in cache for ID: <id>. ..." and leaves the service as it was: no
    wait, no connection, no query, no retry. *)
Theorem X5_vectorSearch_missing_embedding_throws {W : Type} (env : Env W)
    (embeddingId : Js.str) (limit : option Q) (s : State W) :
  embeddingCache s !! (embeddingId ++ Js.lit "_3072") = None ->
  vectorSearch env embeddingId limit s
  = (Throw (Error (Js.lit "Vector search tool failed: "
                   ++ Js.lit "3072D embedding not found in cache for ID: " ++ embeddingId
                   ++ Js.lit ". Please check PostgreSQL connection and database status.")),
     s).
Proof.
  intros Hmissing.
  unfold vectorSearch, tryCatch. unfold bind at 1. unfold cacheGet at 1.
  cbn [embeddingCache]. rewrite Hmissing. cbn. unfold pleaseCheck.
  rewrite <- !app_assoc. reflexivity.
Qed.

Lemma X5_vectorSearch_missing_embedding_witness :
  fst (vectorSearch (Sample.env Sample.docs Sample.videos VNull) (Js.lit "emb_9")
         (Some 2%Q) Sample.cached)
  = Throw (Error (Js.lit "Vector search tool failed: "
                  ++ Js.lit "3072D embedding not found in cache for ID: " ++ Js.lit "emb_9"
                  ++ Js.lit ". Please check PostgreSQL connection and database status.")).
Proof.
  rewrite (X5_vectorSearch_missing_embedding_throws
             (Sample.env Sample.docs Sample.videos VNull) (Js.lit "emb_9") (Some 2%Q)
             Sample.cached).
  - reflexivity.
  - vm_compute. reflexivity.
Defined.

(** ** What a call spends *)

Section Spends.
Context {W : Type} (measure : Event -> Z).
Hypothesis measure_nonneg : forall ev, 0 <= measure ev.

Lemma total_nonneg (evs : list Event) : 0 <= total measure evs.
Proof.
  unfold total. induction evs as [|ev evs IH]; cbn; [lia|].
  pose proof (measure_nonneg ev). lia.
Qed.

Lemma spends_weaken {A} (a b : Z) (m : M W A) :
  spends measure a m -> a <= b -> spends measure b m.
Proof. intros Hm Hab s. destruct (Hm s) as (evs & Htr & Hcost). exists evs. split; [auto | lia]. Qed.

Lemma spends_nothing {A} (m : M W A) :
  (forall s, trace (snd (m s)) = trace s) -> spends measure 0 m.
Proof. intros Hm s. exists []. rewrite app_nil_r. cbn. split; [apply Hm | lia]. Qed.

Lemma spends_external {A} (f : W -> A * W) : spends measure 0 (external f).
Proof. apply spends_nothing. intros s. unfold external. destruct (f (world s)). reflexivity. Qed.

Lemma spends_emit (ev : Event) : spends measure (measure ev) (emit (W := W) ev).
Proof. intros s. exists [ev]. cbn. split; [reflexivity | lia]. Qed.

Lemma spends_bind {A B} (a b : Z) (m : M W A) (f : A -> M W B) :
  spends measure a m -> (forall x, spends measure b (f x)) -> 0 <= b ->
  spends measure (a + b) (bind m f).
Proof.
  intros Hm Hf Hb s. unfold bind. destruct (Hm s) as (evs1 & Htr1 & Hc1).
  destruct (m s) as [[x|e] s1]; cbn [snd] in Htr1.
  - destruct (Hf x s1) as (evs2 & Htr2 & Hc2).
    exists (evs1 ++ evs2). rewrite Htr2, Htr1, app_assoc, total_app.
    split; [reflexivity | lia].
  - exists evs1. split; [exact Htr1 | lia].
Qed.

Lemma spends_tryCatch {A} (a b : Z) (m : M W A) (handler : thrown -> M W A) :
  spends measure a m -> (forall e, spends measure b (handler e)) -> 0 <= b ->
  spends measure (a + b) (tryCatch m handler).
Proof.
  intros Hm Hh Hb s. unfold tryCatch. destruct (Hm s) as (evs1 & Htr1 & Hc1).
  destruct (m s) as [[x|e] s1]; cbn [snd] in Htr1.
  - exists evs1. split; [exact Htr1 | lia].
  - destruct (Hh e s1) as (evs2 & Htr2 & Hc2).
    exists (evs1 ++ evs2). rewrite Htr2, Htr1, app_assoc, total_app.
    split; [reflexivity | lia].
Qed.

Context (env : Env W).
Hypothesis random_range :
  forall w, (0 <= fst (mathRandom env w))%Q /\ (fst (mathRandom env w) < 1)%Q.

Lemma retryBudget_nonneg (perAttempt : Z) (perWait : nat -> Z) (maxRetries : nat)
    (remaining attempt : nat) :
  0 <= perAttempt -> (forall k, 0 <= perWait k) ->
  0 <= retryBudget perAttempt perWait maxRetries remaining attempt.
Proof.
  intros Hc Hw. revert attempt.
  induction remaining as [|remaining IH]; intros attempt; cbn; [lia|].
  destruct (attempt =? maxRetries)%nat; [lia|].
  pose proof (Hw attempt). pose proof (IH (S attempt)). lia.
Qed.

Lemma spends_retryLoop {T} (operation : M W T) (perAttempt : Z) (perWait : nat -> Z)
    (maxRetries : nat) (baseDelay : Z) (remaining attempt : nat) (lastError : thrown) :
  0 <= perAttempt -> (forall k, 0 <= perWait k) ->
  (forall k random, (0 <= random)%Q -> (random < 1)%Q ->
     measure (EvSleep (backoffDelay baseDelay k random)) <= perWait k) ->
  spends measure perAttempt operation ->
  spends measure (retryBudget perAttempt perWait maxRetries remaining attempt)
    (retryLoop env operation maxRetries baseDelay remaining attempt lastError).
Proof.
  intros Hc Hw Hsleep Hop. revert attempt lastError.
  induction remaining as [|remaining IH]; intros attempt lastError;
    cbn [retryLoop retryBudget].
  - apply spends_nothing. reflexivity.
  - apply spends_tryCatch; [exact Hop| |].
    2:{ destruct (attempt =? maxRetries)%nat; [lia|].
        pose proof (Hw attempt).
        pose proof (retryBudget_nonneg perAttempt perWait maxRetries remaining (S attempt)
                      Hc Hw). lia. }
    intros error. destruct (messageOf error).
    2:{ eapply spends_weaken; [apply spends_nothing; reflexivity|].
        destruct (attempt =? maxRetries)%nat; [lia|].
        pose proof (Hw attempt).
        pose proof (retryBudget_nonneg perAttempt perWait maxRetries remaining (S attempt)
                      Hc Hw). lia. }
    destruct (attempt =? maxRetries)%nat; [apply spends_nothing; reflexivity|].
    intros s. unfold bind at 1. unfold external at 1.
    destruct (mathRandom env (world s)) as [random w2] eqn:Hrand.
    destruct (random_range (world s)) as [H0 H1]. rewrite Hrand in H0, H1.
    pose proof (Hsleep attempt random H0 H1) as Hd.
    assert (Hrest : spends measure
              (perWait attempt
               + retryBudget perAttempt perWait maxRetries remaining (S attempt))
              (bind (sleep (backoffDelay baseDelay attempt random)) (fun _ =>
                 retryLoop env operation maxRetries baseDelay remaining (S attempt) error))).
    { apply spends_bind.
      - eapply spends_weaken; [apply spends_emit | exact Hd].
      - intros _. apply IH.
      - apply retryBudget_nonneg; assumption. }
    destruct (Hrest (mkState w2 (embeddingCache s) (embeddingCounter s) (trace s)))
      as (evs & Htr & Hcost).
    exists evs. split; [exact Htr | exact Hcost].
Qed.

End Spends.

Lemma sleepOf_nonneg (ev : Event) : 0 <= sleepOf ev.
Proof. destruct ev; cbn; lia. Qed.

Lemma queryOf_nonneg (ev : Event) : 0 <= queryOf ev.
Proof. destruct ev; cbn; lia. Qed.

(** The wait after failed attempt [k] at base delay 2000 ms. *)
Lemma sleepOf_backoff_2000 (k : nat) (random : Q) :
  (0 <= random)%Q -> (random < 1)%Q ->
  sleepOf (EvSleep (backoffDelay 2000 k random)) <= 2600 * 2 ^ Z.of_nat (k - 1).
Proof.
  intros H0 H1. cbn [sleepOf].
  destruct (delayInRange_tenths 2000 k _
              (backoffDelay_bounds 2000 k random ltac:(lia) H0 H1)) as [Hlow Hhigh].
  pose proof (Z.pow_pos_nonneg 2 (Z.of_nat (k - 1)) ltac:(lia) ltac:(lia)). lia.
Qed.

Section ToolBudgets.
Context {W : Type} (env : Env W) (measure : Event -> Z).
Context (perWait : nat -> Z).
Hypothesis measure_nonneg : forall ev, 0 <= measure ev.
Hypothesis perWait_nonneg : forall k, 0 <= perWait k.
Hypothesis random_range :
  forall w, (0 <= fst (mathRandom env w))%Q /\ (fst (mathRandom env w) < 1)%Q.
Hypothesis wait_bound :
  forall k random, (0 <= random)%Q -> (random < 1)%Q ->
    measure (EvSleep (backoffDelay 2000 k random)) <= perWait k.

Lemma spends_vectorSearchQuery (embedding : list Q) (cappedLimit : Q) :
  spends measure (measure (EvMatchDocuments cappedLimit))
    (vectorSearchQuery env embedding cappedLimit).
Proof.
  pose proof (measure_nonneg (EvMatchDocuments cappedLimit)) as Hq.
  unfold vectorSearchQuery.
  eapply spends_weaken.
  - apply (spends_tryCatch measure
             (0 + (0 + (measure (EvMatchDocuments cappedLimit) + (0 + 0)))) 0).
    + apply spends_bind; [apply spends_external| |lia].
      intros connected. apply spends_bind; [apply spends_nothing; reflexivity| |lia].
      intros _. apply spends_bind; [apply spends_emit| |lia].
      intros _. apply spends_bind; [apply spends_external| |lia].
      intros [rows|m|]; apply spends_nothing; reflexivity.
    + intros e. eapply spends_weaken.
      * apply (spends_bind measure 0 0);
          [apply spends_nothing; reflexivity| |lia].
        intros m. apply spends_nothing; reflexivity.
      * lia.
    + lia.
  - lia.
Qed.

Lemma spends_videoSearchQuery (embedding : list Q) (limit : Q) :
  spends measure (measure (EvVideoQuery limit)) (videoSearchQuery env embedding limit).
Proof.
  pose proof (measure_nonneg (EvVideoQuery limit)) as Hq.
  unfold videoSearchQuery.
  eapply spends_weaken.
  - apply (spends_tryCatch measure
             (0 + (0 + (measure (EvVideoQuery limit) + (0 + 0)))) 0).
    + apply spends_bind; [apply spends_external| |lia].
      intros connected. apply spends_bind; [apply spends_nothing; reflexivity| |lia].
      intros _. apply spends_bind; [apply spends_emit| |lia].
      intros _. apply spends_bind; [apply spends_external| |lia].
      intros [rows|m|]; apply spends_nothing; reflexivity.
    + intros e. eapply spends_weaken.
      * apply (spends_bind measure 0 0);
          [apply spends_nothing; reflexivity| |lia].
        intros m. apply spends_nothing; reflexivity.
      * lia.
    + lia.
  - lia.
Qed.

Lemma spends_bind0 {A B} (m : M W A) (f : A -> M W B) :
  spends measure 0 m -> (forall x, spends measure 0 (f x)) ->
  spends measure 0 (bind m f).
Proof.
  intros Hm Hf. eapply spends_weaken; [apply (spends_bind measure 0 0); auto; lia | lia].
Qed.

Context (perQuery : Z).
Hypothesis perQuery_nonneg : 0 <= perQuery.
Hypothesis query_bound :
  forall limit, measure (EvMatchDocuments limit) <= perQuery
                /\ measure (EvVideoQuery limit) <= perQuery.

Lemma spends_generateEmbedding (text : Js.str) :
  spends measure (retryBudget perQuery perWait 5 5 1) (generateEmbedding env text).
Proof.
  unfold generateEmbedding, retryOperation.
  apply spends_retryLoop; auto.
  eapply spends_weaken; [|exact perQuery_nonneg].
  unfold generateEmbeddingOperation.
  apply spends_bind0; [apply spends_external|]. intros r3072.
  apply spends_bind0; [apply spends_external|]. intros r1536.
  destruct r3072, r1536; apply spends_nothing; reflexivity.
Qed.

Lemma spends_vectorSearch (embeddingId : Js.str) (limit : option Q) :
  spends measure (measure (EvSleep 500) + retryBudget perQuery perWait 5 5 1)
    (vectorSearch env embeddingId limit).
Proof.
  pose proof (measure_nonneg (EvSleep 500)) as H500.
  pose proof (retryBudget_nonneg perQuery perWait 5 5 1 perQuery_nonneg perWait_nonneg)
    as Hretry.
  unfold vectorSearch.
  eapply spends_weaken.
  - apply (spends_tryCatch measure
             (0 + (measure (EvSleep 500) + (retryBudget perQuery perWait 5 5 1 + 0))) 0).
    + apply spends_bind; [apply spends_nothing; reflexivity| |lia].
      intros [embedding|].
      * apply spends_bind; [apply spends_emit| |lia].
        intros _. apply spends_bind; [| |lia].
        -- unfold retryOperation. apply spends_retryLoop; auto.
           eapply spends_weaken; [apply spends_vectorSearchQuery|apply query_bound].
        -- intros rows.
           apply spends_bind0; [apply spends_nothing; reflexivity|]. intros results.
           apply spends_bind0; [apply spends_nothing; reflexivity|]. intros _.
           apply spends_bind0; [apply spends_nothing; reflexivity|]. intros text.
           apply spends_nothing; reflexivity.
      * eapply spends_weaken; [apply spends_nothing; reflexivity | lia].
    + intros e. apply spends_bind0; [apply spends_nothing; reflexivity|].
      intros m. apply spends_nothing; reflexivity.
    + lia.
  - lia.
Qed.

Lemma spends_videoSearch (embeddingId : Js.str) (limit : option Q) :
  spends measure (measure (EvSleep 500) + retryBudget perQuery perWait 5 5 1)
    (videoSearch env embeddingId limit).
Proof.
  pose proof (measure_nonneg (EvSleep 500)) as H500.
  pose proof (retryBudget_nonneg perQuery perWait 5 5 1 perQuery_nonneg perWait_nonneg)
    as Hretry.
  unfold videoSearch.
  eapply spends_weaken.
  - apply (spends_tryCatch measure
             (measure (EvSleep 500) + (0 + (retryBudget perQuery perWait 5 5 1 + 0))) 0).
    + apply spends_bind; [apply spends_emit| |lia].
      intros _. apply spends_bind; [apply spends_nothing; reflexivity| |lia].
      intros [embedding|].
      * apply spends_bind; [| |lia].
        -- unfold retryOperation. apply spends_retryLoop; auto.
           eapply spends_weaken; [apply spends_videoSearchQuery|apply query_bound].
        -- intros videos. destruct (length videos =? 0)%nat; apply spends_nothing; reflexivity.
      * eapply spends_weaken; [apply spends_nothing; reflexivity | lia].
    + intros e. apply spends_bind0; [apply spends_nothing; reflexivity|].
      intros m. apply spends_nothing; reflexivity.
    + lia.
  - lia.
Qed.

Lemma spends_runTool (call : ToolCall) :
  spends measure (measure (EvSleep 500) + retryBudget perQuery perWait 5 5 1)
    (runTool env call).
Proof.
  destruct call as [text|embeddingId limit|embeddingId limit]; cbn [runTool].
  - eapply spends_weaken; [apply spends_generateEmbedding|].
    pose proof (measure_nonneg (EvSleep 500)). lia.
  - apply spends_vectorSearch.
  - apply spends_videoSearch.
Qed.

End ToolBudgets.

(** X6. Whatever the embedding service and the store do, one call of a
    tool (generateEmbedding, vectorSearch or videoSearch) issues at most
    five store queries and spends at most 39.5 seconds in its own delays:
    the 500 ms pause and the four back-off waits of 2, 4, 8 and 16
    seconds, each stretched by at most 30 per cent. *)
Theorem X6_tool_call_budget {W} (env : Env W) (call : ToolCall) (s : State W) :
  (forall w, (0 <= fst (mathRandom env w))%Q /\ (fst (mathRandom env w) < 1)%Q) ->
  exists events,
    trace (snd (runTool env call s)) = trace s ++ events
    /\ total queryOf events <= 5
    /\ total sleepOf events <= 39500.
Proof.
  intros Hrandom.
  destruct (spends_runTool env queryOf (fun _ => 0) queryOf_nonneg ltac:(lia) Hrandom
              ltac:(intros; cbn; lia) 1 ltac:(lia) ltac:(intros; cbn; lia) call s)
    as (events & Htrace & Hqueries).
  destruct (spends_runTool env sleepOf (fun k => 2600 * 2 ^ Z.of_nat (k - 1)) sleepOf_nonneg
              ltac:(intros; apply Z.mul_nonneg_nonneg; [lia|apply Z.pow_nonneg; lia])
              Hrandom sleepOf_backoff_2000 0 ltac:(lia) ltac:(intros; cbn; lia) call s)
    as (events' & Htrace' & Hsleeps).
  assert (events' = events) as ->.
  { rewrite Htrace in Htrace'. apply app_inv_head in Htrace'. congruence. }
  exists events. split; [exact Htrace|]. split.
  - etransitivity; [exact Hqueries|]. vm_compute. discriminate.
  - etransitivity; [exact Hsleeps|]. vm_compute. discriminate.
Qed.

Lemma X6_tool_call_budget_witness :
  exists events,
    trace (snd (runTool (Outage.env Sample.docs)
                  (CallVectorSearch (Js.lit "emb_1") (Some 4%Q))
                  Sample.cached)) = trace Sample.cached ++ events
    /\ total queryOf events <= 5
    /\ total sleepOf events <= 39500.
Proof.
  apply (X6_tool_call_budget (Outage.env Sample.docs)).
  intros w. cbn. split; [discriminate | reflexivity].
Defined.


(** X7. A call of the generateEmbedding tool that fails, after all its
    attempts, leaves the embedding cache and the id counter as they were:
    no id is used up and no half of a pair is stored, also when only one
    of the two embedding requests was rejected. *)
Theorem X7_generateEmbedding_failure_keeps_cache {W} (env : Env W) (text : Js.str)
    (s s' : State W) (e : thrown) :
  generateEmbedding env text s = (Throw e, s') ->
  embeddingCache s' = embeddingCache s /\ embeddingCounter s' = embeddingCounter s.
Proof.
  intros Hrun.
  apply (retryLoop_throws env (generateEmbeddingOperation env text) sameService
           sameService_world (fun d => sameService_emit (EvSleep d))
           (fun s1 e1 s2 => generateEmbeddingOperation_throws env text s1 s2 e1)) in Hrun.
  exact Hrun.
Qed.

Lemma X7_generateEmbedding_failure_witness :
  exists e s',
    generateEmbedding (Outage.env Sample.docs) (Js.lit "heart rate") Sample.cached
      = (Throw e, s')
    /\ embeddingCache s' = embeddingCache Sample.cached
    /\ embeddingCounter s' = embeddingCounter Sample.cached.
Proof.
  destruct (generateEmbedding (Outage.env Sample.docs) (Js.lit "heart rate") Sample.cached)
    as [[v|e] s'] eqn:Hrun.
  - exfalso. revert Hrun. vm_compute. discriminate.
  - exists e, s'. split; [reflexivity|].
    exact (X7_generateEmbedding_failure_keeps_cache _ _ _ _ _ Hrun).
Defined.


(** ** Growth of the embedding cache *)

Lemma cacheKey_inj (n n' : nat) (suffix suffix' : string) :
  (suffix = "_3072"%string \/ suffix = "_1536"%string) ->
  (suffix' = "_3072"%string \/ suffix' = "_1536"%string) ->
  cacheKey n suffix = cacheKey n' suffix' -> n = n'.
Proof.
  unfold cacheKey. intros Hs Hs' Heq.
  apply app_inj_2 in Heq.
  - destruct Heq as [Heq _]. apply app_inv_head in Heq. apply ofNat_inj, Heq.
  - destruct Hs as [-> | ->], Hs' as [-> | ->]; reflexivity.
Qed.

#[global] Instance cacheGrows_preorder {W} : PreOrder (cacheGrows (W := W)).
Proof.
  split.
  - intros s Hs. split; [exact Hs|]. split; [lia | auto].
  - intros s1 s2 s3 H12 H23 Hs1.
    destruct (H12 Hs1) as (Hs2 & Hle12 & Hkeep12).
    destruct (H23 Hs2) as (Hs3 & Hle23 & Hkeep23).
    split; [exact Hs3|]. split; [lia | auto].
Qed.

Lemma cacheGrows_sameService {W} (s s' : State W) : sameService s s' -> cacheGrows s s'.
Proof.
  intros [Hcache Hcounter] Hs. unfold pairsCached. rewrite Hcache, Hcounter.
  split; [exact Hs|]. split; [lia | auto].
Qed.

Lemma cacheGrows_world {W} : worldStep (cacheGrows (W := W)).
Proof. intros s w. apply cacheGrows_sameService, sameService_world. Qed.

Lemma cacheGrows_emit {W} (ev : Event) : steps (cacheGrows (W := W)) (emit ev).
Proof. intros s. apply cacheGrows_sameService, sameService_emit. Qed.

Section CacheGrows.
Context {W : Type} (env : Env W).

Lemma cacheGrows_operation (text : Js.str) :
  steps cacheGrows (generateEmbeddingOperation env text).
Proof.
  intros s.
  destruct (generateEmbeddingOperation env text s) as [[v|e] s'] eqn:Hrun; cbn [snd].
  2:{ apply cacheGrows_sameService. eapply generateEmbeddingOperation_throws, Hrun. }
  destruct (generateEmbeddingOperation_returns env text _ _ _ Hrun)
    as (e3072 & e1536 & w & w' & w'' & _ & _ & Hcounter & Hcache & _).
  fold (cacheKey (S (embeddingCounter s)) "_1536") in Hcache.
  fold (cacheKey (S (embeddingCounter s)) "_3072") in Hcache.
  intros Hs.
  assert (Hfresh : forall key suffix,
            (suffix = "_3072"%string \/ suffix = "_1536"%string) ->
            is_Some (embeddingCache s !! key) ->
            key <> cacheKey (S (embeddingCounter s)) suffix).
  { intros key suffix Hsuffix Hin ->. apply Hs in Hin.
    destruct Hin as (n & suffix' & Hn & Hsuffix' & Hkey).
    apply cacheKey_inj in Hkey; auto. lia. }
  split; [|split].
  - intros key. rewrite Hcache, Hcounter. split.
    + intros Hin.
      destruct (decide (key = cacheKey (S (embeddingCounter s)) "_1536")) as [->|Hne1].
      { exists (S (embeddingCounter s)), "_1536"%string. split; [lia|]. auto. }
      destruct (decide (key = cacheKey (S (embeddingCounter s)) "_3072")) as [->|Hne2].
      { exists (S (embeddingCounter s)), "_3072"%string. split; [lia|]. auto. }
      rewrite !lookup_insert_ne in Hin by congruence.
      apply Hs in Hin. destruct Hin as (n & suffix & Hn & Hsuffix & Hkey).
      exists n, suffix. split; [lia|]. auto.
    + intros (n & suffix & Hn & Hsuffix & ->).
      destruct (decide (n = S (embeddingCounter s))) as [->|Hold].
      * destruct Hsuffix as [-> | ->].
        -- rewrite lookup_insert_ne.
           ++ rewrite lookup_insert_eq. eauto.
           ++ unfold cacheKey. intros Heq. apply app_inv_head in Heq.
              apply lit_inj in Heq. discriminate.
        -- rewrite lookup_insert_eq. eauto.
      * assert (Hin : is_Some (embeddingCache s !! cacheKey n suffix)).
        { apply Hs. exists n, suffix. split; [lia|]. auto. }
        rewrite !lookup_insert_ne; [exact Hin| |].
        -- apply not_eq_sym, Hfresh; auto.
        -- apply not_eq_sym, Hfresh; auto.
  - lia.
  - intros key value Hlookup. rewrite Hcache.
    assert (Hin : is_Some (embeddingCache s !! key)) by eauto.
    rewrite !lookup_insert_ne; [exact Hlookup| |].
    + apply not_eq_sym, Hfresh; auto.
    + apply not_eq_sym, Hfresh; auto.
Qed.

Lemma cacheGrows_runTool (call : ToolCall) : steps cacheGrows (runTool env call).
Proof.
  destruct call as [text|embeddingId limit|embeddingId limit]; cbn [runTool].
  - unfold generateEmbedding. apply steps_retryOperation.
    + exact _.
    + apply cacheGrows_world.
    + intros d. apply cacheGrows_emit.
    + apply cacheGrows_operation.
  - apply steps_vectorSearch.
    + exact _.
    + apply cacheGrows_world.
    + intros d. apply cacheGrows_emit.
    + intros l. apply cacheGrows_emit.
  - apply steps_videoSearch.
    + exact _.
    + apply cacheGrows_world.
    + intros d. apply cacheGrows_emit.
    + intros l. apply cacheGrows_emit.
Qed.

Lemma cacheGrows_runAgent (timeoutMs : N) (run : AgentRun) :
  steps cacheGrows (runAgent env timeoutMs run).
Proof.
  induction run as [output|e| |call k IH]; cbn [runAgent].
  - intros s. reflexivity.
  - intros s. reflexivity.
  - intros s. reflexivity.
  - intros s.
    assert (Hstep : steps cacheGrows (bind (emit (EvToolCall (toolName call)))
                                           (fun _ => runTool env call))).
    { apply steps_bind; [exact _ | apply cacheGrows_emit | intros _; apply cacheGrows_runTool]. }
    specialize (Hstep s).
    destruct (bind (emit (EvToolCall (toolName call))) (fun _ => runTool env call) s)
      as [outcome s'].
    cbn [snd] in Hstep. etransitivity; [exact Hstep | apply IH].
Qed.

End CacheGrows.

Lemma pairsCached_cleared {W} (s : State W) : pairsCached (snd (clearEmbeddingCache s)).
Proof.
  intros key. cbn. rewrite lookup_empty. split.
  - intros [v Hv]. discriminate.
  - intros (n & suffix & Hn & _). lia.
Qed.

(** X8. When [generate] ends, however it ends, the embedding cache holds
    exactly the two halves [emb_<n>_3072] and [emb_<n>_1536] of every id
    from [emb_1] to [emb_<embeddingCounter>]: no id without its pair, no
    half pair, nothing left from an earlier request. *)
Theorem X8_generate_leaves_whole_pairs {W} (env : Env W) (q : ServicableQuestionWithImages)
    (systemMessage : Js.str) (s : State W) :
  pairsCached (snd (generate env q systemMessage s)).
Proof.
  assert (Hagent : steps cacheGrows (invokeAgent env q systemMessage)).
  { unfold invokeAgent. apply steps_bind; [exact _| |].
    - destruct (existsb hasMarkdownImage (question q :: options q)).
      + apply steps_bind; [exact _| |intros imageResult; intros s0; reflexivity].
        intros s0. unfold external.
        destruct (processQuestionAndOptions env (question q) (options q) (world s0)).
        apply cacheGrows_world.
      + intros s0. reflexivity.
    - intros processed s0. unfold executeWithTimeout. apply cacheGrows_runAgent. }
  assert (Hrest : forall (A : Type) (o : Outcome A), steps cacheGrows (liftO (W := W) o)).
  { intros A o s0. reflexivity. }
  assert (Hall : steps cacheGrows (tryCatch
              (bind (invokeAgent env q systemMessage) (fun output =>
                 bind (liftO (checkOutput output)) (fun responseText =>
                   bind (liftO (parseResponse env responseText)) (fun parsedResponse =>
                     liftO (validateAndTransformResponse env parsedResponse)))))
              (fun error =>
                 bind (liftO (messageOf error)) (fun message =>
                   throw (LLMGenerationError
                            (Js.lit "Failed to generate solution: " ++ message)))))).
  { apply steps_tryCatch; [exact _| |].
    - apply steps_bind; [exact _|exact Hagent|]. intros output.
      apply steps_bind; [exact _|apply Hrest|]. intros responseText.
      apply steps_bind; [exact _|apply Hrest|]. intros parsedResponse. apply Hrest.
    - intros e. apply steps_bind; [exact _|apply Hrest|]. intros m s1. reflexivity. }
  unfold generate, generateBody, agentResult.
  destruct (Hall _ (pairsCached_cleared s)) as [Hend _].
  unfold tryCatch, bind in *. unfold clearEmbeddingCache at 1.
  exact Hend.
Qed.

(** X9. While the agent runs, an embedding that is cached stays cached
    with the same vector: tool calls add pairs under new ids and never
    overwrite or drop an entry, so an id returned by generateEmbedding
    stays usable until the next request clears the cache. *)
Theorem X9_agent_run_keeps_cached_embeddings {W} (env : Env W) (timeoutMs : N)
    (run : AgentRun) (s : State W) (key : Js.str) (value : list Q) :
  pairsCached s ->
  embeddingCache s !! key = Some value ->
  embeddingCache (snd (runAgent env timeoutMs run s)) !! key = Some value
  /\ (embeddingCounter s <= embeddingCounter (snd (runAgent env timeoutMs run s)))%nat.
Proof.
  intros Hs Hlookup.
  destruct (cacheGrows_runAgent env timeoutMs run s Hs) as (_ & Hle & Hkeep).
  split; [apply Hkeep, Hlookup | exact Hle].
Qed.


Lemma Sample_cached_pairs : pairsCached Sample.cached.
Proof.
  assert (Hne : Js.lit "emb_1_1536" <> Js.lit "emb_1_3072").
  { intros Heq. apply lit_inj in Heq. discriminate. }
  intros key. cbn [Sample.cached embeddingCache embeddingCounter]. split.
  - intros Hin.
    destruct (decide (key = Js.lit "emb_1_1536")) as [->|Hne1].
    { exists 1%nat, "_1536"%string. split; [lia|]. split; [auto | reflexivity]. }
    destruct (decide (key = Js.lit "emb_1_3072")) as [->|Hne2].
    { exists 1%nat, "_3072"%string. split; [lia|]. split; [auto | reflexivity]. }
    rewrite !lookup_insert_ne, lookup_empty in Hin by congruence.
    destruct Hin as [v Hv]. discriminate.
  - intros (n & suffix & Hn & Hsuffix & ->).
    assert (n = 1)%nat as -> by lia.
    destruct Hsuffix as [-> | ->].
    + change (cacheKey 1 "_3072") with (Js.lit "emb_1_3072").
      rewrite lookup_insert_ne by exact Hne. rewrite lookup_insert_eq. eauto.
    + change (cacheKey 1 "_1536") with (Js.lit "emb_1_1536").
      rewrite lookup_insert_eq. eauto.
Qed.

Lemma X9_agent_run_keeps_cached_witness :
  let s' := snd (runAgent (Sample.env Sample.docs Sample.videos VNull) 120000
                   (Sample.agent VNull (mkAgentInput (Js.lit "heart rate") [] []) 0%nat)
                   Sample.cached) in
  embeddingCache s' !! Js.lit "emb_1_3072" = Some [1; 2; 3]%Q
  /\ (embeddingCounter Sample.cached <= embeddingCounter s')%nat.
Proof.
  apply (X9_agent_run_keeps_cached_embeddings
           (Sample.env Sample.docs Sample.videos VNull) 120000
           (Sample.agent VNull (mkAgentInput (Js.lit "heart rate") [] []) 0%nat)
           Sample.cached (Js.lit "emb_1_3072") [1; 2; 3]%Q Sample_cached_pairs).
  cbn [Sample.cached embeddingCache].
  rewrite lookup_insert_ne.
  - apply lookup_insert_eq.
  - intros Heq. apply lit_inj in Heq. discriminate.
Defined.


(** ** The JSON text cut out of the agent's reply *)

Lemma trimStart_drops (text : Js.str) :
  exists dropped, text = dropped ++ Js.trimStart text.
Proof.
  induction text as [|c text [dropped IH]]; cbn.
  - exists []. reflexivity.
  - destruct (Js.isWhiteSpace c).
    + exists (c :: dropped). cbn. f_equal. exact IH.
    + exists []. reflexivity.
Qed.

Lemma trimStart_app (before : Js.str) (c : N) (rest : Js.str) :
  Js.isWhiteSpace c = false ->
  Js.trimStart (before ++ c :: rest) = Js.trimStart before ++ c :: rest.
Proof.
  intros Hc. induction before as [|b before IH]; cbn.
  - rewrite Hc. reflexivity.
  - destruct (Js.isWhiteSpace b); [exact IH | reflexivity].
Qed.

Lemma indexOf_app (c : N) (before rest : Js.str) :
  ~ In c before -> Js.indexOf c (before ++ c :: rest) = Some (length before).
Proof.
  induction before as [|b before IH]; cbn; intros Hnot.
  - rewrite N.eqb_refl. reflexivity.
  - destruct (N.eqb_spec c b) as [->|_]; [tauto|].
    rewrite IH by tauto. reflexivity.
Qed.

Lemma lastIndexOf_absent (c : N) (text : Js.str) :
  ~ In c text -> Js.lastIndexOf c text = None.
Proof.
  induction text as [|d text IH]; cbn; intros Hnot; [reflexivity|].
  rewrite IH by tauto. destruct (N.eqb_spec c d) as [->|_]; [tauto | reflexivity].
Qed.

Lemma lastIndexOf_app (c : N) (before after : Js.str) :
  ~ In c after -> Js.lastIndexOf c (before ++ c :: after) = Some (length before).
Proof.
  intros Hnot. induction before as [|b before IH]; cbn.
  - rewrite (lastIndexOf_absent _ _ Hnot), N.eqb_refl. reflexivity.
  - rewrite IH. reflexivity.
Qed.

(** X10. From a reply that wraps one JSON object in other text, such as
    a Markdown code fence or a sentence before and after, [generate]
    hands [JSON.parse] the object alone: with no opening brace before it
    and no closing brace after it, the text from the first opening to the
    last closing brace is cut out, whatever the object holds. *)
Theorem X10_extractJson_strips_wrapping (before body after : Js.str) :
  ~ In 123%N before ->
  ~ In 125%N after ->
  extractJson (before ++ [123%N] ++ body ++ [125%N] ++ after) = [123%N] ++ body ++ [125%N].
Proof.
  intros Hbefore Hafter. unfold extractJson.
  destruct (trimStart_drops before) as [dropped Hdropped].
  destruct (trimStart_drops (rev after)) as [droppedEnd HdroppedEnd].
  set (before' := Js.trimStart before) in *.
  set (after' := rev (Js.trimStart (rev after))).
  assert (Hbefore' : ~ In 123%N before').
  { intros Hin. apply Hbefore. rewrite Hdropped. apply in_or_app. auto. }
  assert (Hafter' : ~ In 125%N after').
  { intros Hin. apply Hafter. apply in_rev. rewrite HdroppedEnd.
    apply in_or_app. right. unfold after' in Hin. rewrite <- in_rev in Hin. exact Hin. }
  assert (Htrim : Js.trim (before ++ [123%N] ++ body ++ [125%N] ++ after)
                  = before' ++ 123%N :: (body ++ 125%N :: after')).
  { unfold Js.trim, Js.trimEnd. cbn [app].
    rewrite trimStart_app by reflexivity. fold before'.
    replace (before' ++ 123%N :: body ++ 125%N :: after)
      with ((before' ++ 123%N :: body) ++ 125%N :: after)
      by (rewrite <- app_assoc; reflexivity).
    rewrite rev_app_distr. cbn [rev]. rewrite <- app_assoc. cbn [app].
    rewrite trimStart_app by reflexivity.
    rewrite rev_app_distr. cbn [rev]. rewrite rev_involutive. fold after'.
    rewrite <- !app_assoc. reflexivity. }
  rewrite Htrim.
  rewrite indexOf_app by exact Hbefore'.
  replace (before' ++ 123%N :: body ++ 125%N :: after')
    with ((before' ++ 123%N :: body) ++ 125%N :: after')
    by (rewrite <- app_assoc; reflexivity).
  rewrite lastIndexOf_app by exact Hafter'.
  rewrite length_app. cbn [length].
  destruct (Nat.ltb_spec (length before') (length before' + S (length body))) as [_|Hge];
    [|lia].
  unfold Js.substring.
  rewrite <- app_assoc. rewrite drop_app_length'; [|reflexivity].
  replace (length before' + S (length body) + 1 - length before')%nat
    with (length (123%N :: body ++ [125%N])).
  2:{ cbn [length]. rewrite length_app. cbn [length]. lia. }
  replace ((123%N :: body) ++ 125%N :: after') with ((123%N :: body ++ [125%N]) ++ after').
  2:{ cbn [app]. rewrite <- app_assoc. reflexivity. }
  rewrite firstn_app, Nat.sub_diag. cbn [firstn]. rewrite app_nil_r.
  rewrite firstn_all. reflexivity.
Qed.

Lemma X10_extractJson_witness :
  extractJson (Js.lit "Here is the solution: " ++ [123%N] ++ Js.lit "answer: 1"
               ++ [125%N] ++ Js.lit " (end)")
  = [123%N] ++ Js.lit "answer: 1" ++ [125%N].
Proof.
  apply X10_extractJson_strips_wrapping.
  - vm_compute. intuition discriminate.
  - vm_compute. intuition discriminate.
Defined.


(** ** What [generate] throws *)

Lemma messageOf_throws_defined (error e : thrown) : messageOf error = Throw e -> e <> Undefined.
Proof. destruct error; cbn; intros [= <-]; discriminate. Qed.

Lemma checkOutput_throws_defined (output : JsVal) (e : thrown) :
  checkOutput output = Throw e -> e <> Undefined.
Proof.
  destruct output as [| |[]|q|[|c t]|[|x l]|props]; cbn;
    repeat match goal with |- context [if ?b then _ else _] => destruct b end;
    intros [= <-]; discriminate.
Qed.

Section GenerateThrows.
Context {W : Type} (env : Env W).
Hypothesis agent_rejections :
  forall agentInput w, rejectsWithErrors (agentExecutor_invoke env agentInput w).

Lemma runAgent_throws_defined (timeoutMs : N) (run : AgentRun) (s : State W) (e : thrown) :
  rejectsWithErrors run -> fst (runAgent env timeoutMs run s) = Throw e -> e <> Undefined.
Proof using Type.
  revert s. induction run as [output|e0| |call k IH]; intros s; cbn [runAgent rejectsWithErrors].
  - discriminate.
  - intros He0 [= <-]. exact He0.
  - intros _ [= <-]. discriminate.
  - intros Hk.
    destruct (bind (emit (EvToolCall (toolName call))) (fun _ => runTool env call) s)
      as [outcome s'].
    apply IH, Hk.
Qed.

Lemma parseResponse_throws_defined (responseText : Js.str) (e : thrown) :
  parseResponse env responseText = Throw e -> e <> Undefined.
Proof using Type.
  unfold parseResponse. destruct (JSON_parse env _) as [v|parseError]; [discriminate|].
  destruct (messageOf parseError) as [m|e0] eqn:Hm.
  - intros [= <-]. discriminate.
  - intros [= <-]. eapply messageOf_throws_defined, Hm.
Qed.

Lemma validateAndTransformResponse_throws_defined (response : JsVal) (e : thrown) :
  validateAndTransformResponse env response = Throw e -> e <> Undefined.
Proof using Type.
  unfold validateAndTransformResponse.
  destruct response as [| | | | | |props]; try (intros [= <-]; discriminate).
  destruct (validateBody props) as [dto|error]; [discriminate|].
  destruct (messageOf error) as [m|e0] eqn:Hm.
  - intros [= <-]. discriminate.
  - intros [= <-]. eapply messageOf_throws_defined, Hm.
Qed.

Lemma generateBody_throws_defined (q : ServicableQuestionWithImages) (systemMessage : Js.str)
    (s : State W) (e : thrown) :
  fst (generateBody env q systemMessage s) = Throw e -> e <> Undefined.
Proof.
  unfold generateBody, agentResult, invokeAgent.
  unfold bind at 1. unfold bind at 1. unfold clearEmbeddingCache at 1.
  unfold bind at 1.
  match goal with
  | |- context [(if ?b then ?m1 else ?m2) ?s0] =>
      assert (Hprocessed : exists processed s1, (if b then m1 else m2) s0 = (Return processed, s1))
  end.
  { destruct (existsb hasMarkdownImage (question q :: options q)).
    - unfold bind, external. cbn [world].
      destruct (processQuestionAndOptions env (question q) (options q) _). eauto.
    - eauto. }
  destruct Hprocessed as (processed & s1 & ->).
  unfold executeWithTimeout.
  destruct (runAgent env 120000 _ s1) as [[output|e0] s2] eqn:Hrun.
  2:{ intros [= <-]. eapply runAgent_throws_defined; [apply agent_rejections|].
      rewrite Hrun. reflexivity. }
  unfold bind, liftO.
  destruct (checkOutput output) as [responseText|e1] eqn:Hcheck.
  2:{ intros [= <-]. eapply checkOutput_throws_defined, Hcheck. }
  destruct (parseResponse env responseText) as [parsedResponse|e2] eqn:Hparse.
  2:{ intros [= <-]. eapply parseResponse_throws_defined, Hparse. }
  cbn [fst]. apply validateAndTransformResponse_throws_defined.
Qed.

End GenerateThrows.

(** X11. What [generate] throws is always an [LLMGenerationError] whose
    message starts with "Failed to generate solution: ", whatever failed
    inside (the agent, its timer, the empty-output guard, the JSON text,
    the validation), as long as the agent executor rejects with error
    objects. *)
Theorem X11_generate_throws_LLMGenerationError {W} (env : Env W)
    (q : ServicableQuestionWithImages) (systemMessage : Js.str) (s : State W) (e : thrown) :
  (forall agentInput w, rejectsWithErrors (agentExecutor_invoke env agentInput w)) ->
  fst (generate env q systemMessage s) = Throw e ->
  exists cause, e = LLMGenerationError (Js.lit "Failed to generate solution: " ++ cause).
Proof.
  intros Hagent. unfold generate, tryCatch.
  destruct (generateBody env q systemMessage s) as [[v|e0] s1] eqn:Hbody; [discriminate|].
  assert (He0 : e0 <> Undefined).
  { eapply generateBody_throws_defined; [exact Hagent|]. rewrite Hbody. reflexivity. }
  destruct e0 as [|m|m|m]; [congruence| | |]; cbn; intros Heq;
    apply Throw_inj in Heq; subst e; eexists; reflexivity.
Qed.

Lemma X11_generate_throws_witness :
  exists cause,
    fst (generate (Outage.env Sample.docs) Sample.heartRate (Js.lit "You are a tutor.")
           Sample.initial)
    = Throw (LLMGenerationError (Js.lit "Failed to generate solution: " ++ cause)).
Proof.
  destruct (fst (generate (Outage.env Sample.docs) Sample.heartRate
                   (Js.lit "You are a tutor.") Sample.initial)) as [v|e] eqn:Hrun.
  - exfalso. revert Hrun. vm_compute. discriminate.
  - destruct (X11_generate_throws_LLMGenerationError (Outage.env Sample.docs)
                Sample.heartRate (Js.lit "You are a tutor.") Sample.initial e) as [cause ->].
    + intros agentInput w. cbn. discriminate.
    + exact Hrun.
    + exists cause. reflexivity.
Defined.


(** X12. The validation of the answer is a range check only: any number
    from 0 to 3, whole or not (1.5 for one), passes with a description
    that is not blank and well-formed lists, and the response comes back
    as it is. *)
Theorem X12_fractional_answer_accepted {W : Type} (env : Env W)
    (props : list (Js.str * JsVal)) (answer : Q) (description : Js.str) :
  getProp (Js.lit "answer") props = VNum answer ->
  (0 <= answer)%Q -> (answer <= 3)%Q ->
  getProp (Js.lit "ans_description") props = VStr description ->
  hasVisibleCharacter description ->
  listsWellFormed props ->
  validateAndTransformResponse env (VObj props) = Return (VObj props).
Proof.
  intros Ha H0 H3 Hd Hvisible Hlists.
  unfold validateAndTransformResponse, validateBody.
  rewrite (validate_accepts _ _ _ Ha Hd Hlists), Ha, Hd.
  destruct (Qlt_le_dec answer 0) as [Hneg|_]; [lra|].
  destruct (Qlt_le_dec 3 answer) as [Hbig|_]; [lra|].
  pose proof (trim_visible _ Hvisible) as Htrim.
  destruct (Js.trim description); [congruence|]. reflexivity.
Qed.

Lemma X12_fractional_answer_witness :
  validateAndTransformResponse (Sample.env Sample.docs Sample.videos VNull)
    (VObj (Sample.response (3 # 2) "Between B and C."))
  = Return (VObj (Sample.response (3 # 2) "Between B and C.")).
Proof.
  apply (X12_fractional_answer_accepted _ _ (3 # 2)%Q (Js.lit "Between B and C.")).
  - reflexivity.
  - discriminate.
  - discriminate.
  - reflexivity.
  - apply Exists_cons_hd. reflexivity.
  - apply Sample_response_lists.
Defined.


(** ** The tagger's validation *)

Lemma QuestionTagger_validateBody_throws (response : JsVal) (e : thrown) :
  QuestionTagger.validateBody response = Throw e -> exists message, e = Error message.
Proof.
  unfold QuestionTagger.validateBody.
  destruct (QuestionTagger.notAnObject response); [intros [= <-]; eauto|].
  destruct (fieldErrors _ _); [|intros [= <-]; eauto].
  repeat match goal with
         | |- context [if ?b then _ else _] => destruct b
         end; try discriminate; intros [= <-]; eauto.
Qed.

Lemma QuestionTagger_fieldErrors (subject topic category : JsVal) :
  fieldErrors QuestionTagger.ClassificationOutputDto
    [ (Js.lit "subject_id", subject); (Js.lit "topic_id", topic);
      (Js.lit "category_id", category) ]
  = match isNumber (Js.lit "subject_id") subject with
    | [] => []
    | cs => [mkValidationError (Js.lit "subject_id") cs]
    end
    ++ match isOptional (isNumber (Js.lit "topic_id")) topic with
       | [] => []
       | cs => [mkValidationError (Js.lit "topic_id") cs]
       end
    ++ match isOptional (isNumber (Js.lit "category_id")) category with
       | [] => []
       | cs => [mkValidationError (Js.lit "category_id") cs]
       end.
Proof. destruct subject, topic, category; reflexivity. Qed.

(** The responses the tagger's validation lets through, and what it
    returns for them. *)
Lemma QuestionTagger_returns_iff (response dto : JsVal) :
  QuestionTagger.validateAndTransformResponse response = Return dto
  <-> exists props subject,
        response = VObj props
        /\ getProp (Js.lit "subject_id") props = VNum subject
        /\ (0 < subject)%Q
        /\ optionalId (getProp (Js.lit "topic_id") props)
        /\ optionalId (getProp (Js.lit "category_id") props)
        /\ dto = VObj
             [ (Js.lit "subject_id", VNum subject);
               (Js.lit "topic_id",
                 QuestionTagger.zeroToNull (getProp (Js.lit "topic_id") props));
               (Js.lit "category_id",
                 QuestionTagger.zeroToNull (getProp (Js.lit "category_id") props)) ].
Proof.
  assert (Hzero : forall q, Qeq_bool q 0 = true -> (0 <= q)%Q).
  { intros q Hq. apply Qeq_bool_iff in Hq. rewrite Hq. apply Qle_refl. }
  assert (Hpos : forall q, Qeq_bool q 0 = false -> (0 <= q)%Q -> (0 < q)%Q).
  { intros q Hq Hle. apply Qle_lteq in Hle. destruct Hle as [Hlt|Heq]; [exact Hlt|].
    symmetry in Heq. apply Qeq_bool_iff in Heq. congruence. }
  unfold QuestionTagger.validateAndTransformResponse, QuestionTagger.validateBody.
  destruct response as [| |b|q|text|items|props]; cbn [QuestionTagger.notAnObject];
    try (cbn; split; [discriminate | intros (props & subject & [=] & _)]).
  cbn [QuestionTagger.field].
  remember (getProp (Js.lit "subject_id") props) as subject eqn:Hs.
  remember (getProp (Js.lit "topic_id") props) as topic eqn:Ht.
  remember (getProp (Js.lit "category_id") props) as category eqn:Hc.
  change (getProp (Js.lit "subject_id")
            [(Js.lit "subject_id", subject);
             (Js.lit "topic_id", QuestionTagger.zeroToNull topic);
             (Js.lit "category_id", QuestionTagger.zeroToNull category)])
    with subject.
  change (getProp (Js.lit "topic_id")
            [(Js.lit "subject_id", subject);
             (Js.lit "topic_id", QuestionTagger.zeroToNull topic);
             (Js.lit "category_id", QuestionTagger.zeroToNull category)])
    with (QuestionTagger.zeroToNull topic).
  change (getProp (Js.lit "category_id")
            [(Js.lit "subject_id", subject);
             (Js.lit "topic_id", QuestionTagger.zeroToNull topic);
             (Js.lit "category_id", QuestionTagger.zeroToNull category)])
    with (QuestionTagger.zeroToNull category).
  rewrite QuestionTagger_fieldErrors.
  split.
  - intros Hrun. exists props.
    destruct subject as [| | |s| | |]; try (revert Hrun; cbn; discriminate).
    exists s.
    assert (Hshape : (0 < s)%Q /\ optionalId topic /\ optionalId category
                     /\ dto = VObj [ (Js.lit "subject_id", VNum s);
                                     (Js.lit "topic_id", QuestionTagger.zeroToNull topic);
                                     (Js.lit "category_id",
                                       QuestionTagger.zeroToNull category) ]).
    { unfold optionalId. revert Hrun.
      destruct topic as [| | |t| | |]; try (cbn; discriminate);
        destruct category as [| | |c| | |]; try (cbn; discriminate);
        cbn;
        repeat match goal with
               | |- context [Qeq_bool ?x 0] => destruct (Qeq_bool x 0) eqn:?; cbn
               | |- context [Qlt_le_dec 0 ?x] => destruct (Qlt_le_dec 0 x); cbn
               end;
        try discriminate; intros [= <-];
        repeat split; eauto 8 using Qlt_le_weak. }
    destruct Hshape as (Hspos & Htopic & Hcategory & ->). subst topic category.
    split; [reflexivity|]. split; [symmetry; exact Hs|]. auto.
  - intros (props' & s & Hprops & Hs' & Hspos & Htopic & Hcategory & ->).
    injection Hprops as <-.
    rewrite <- Hs in Hs'. rewrite <- Ht in Htopic |- *. rewrite <- Hc in Hcategory |- *.
    rewrite Hs'. clear Hs Hs' subject.
    assert (Hs0 : Qeq_bool s 0 = false).
    { destruct (Qeq_bool s 0) eqn:Hq; [|reflexivity]. apply Qeq_bool_iff in Hq.
      rewrite Hq in Hspos. discriminate Hspos. }
    clear Ht Hc.
    destruct Htopic as [-> | [-> | (t & -> & Htpos)]],
             Hcategory as [-> | [-> | (c & -> & Hcpos)]];
      cbn; rewrite ?Hs0; cbn;
      repeat match goal with
             | |- context [Qeq_bool ?x 0] => destruct (Qeq_bool x 0) eqn:?; cbn
             | |- context [Qlt_le_dec 0 ?x] => destruct (Qlt_le_dec 0 x); cbn
             end;
      try reflexivity; exfalso;
      repeat match goal with
             | H : Qeq_bool ?x 0 = false, H' : (0 <= ?x)%Q |- _ =>
                 pose proof (Hpos x H H'); clear H
             end; lra.
Qed.

(** X13. The tagger's [validateAndTransformResponse] returns exactly when
    the response is an object whose [subject_id] is a number above zero
    and whose [topic_id] and [category_id] are each left out, null, zero
    or a number above zero; the result then holds these three properties
    and no other, a zero turned into null. Everything else is rejected
    with an [LLMGenerationError] "Invalid classification response format:
    ...". *)
Theorem X13_classification_validation (response dto : JsVal) :
  (QuestionTagger.validateAndTransformResponse response = Return dto
   <-> exists props subject,
         response = VObj props
         /\ getProp (Js.lit "subject_id") props = VNum subject
         /\ (0 < subject)%Q
         /\ optionalId (getProp (Js.lit "topic_id") props)
         /\ optionalId (getProp (Js.lit "category_id") props)
         /\ dto = VObj
              [ (Js.lit "subject_id", VNum subject);
                (Js.lit "topic_id",
                  QuestionTagger.zeroToNull (getProp (Js.lit "topic_id") props));
                (Js.lit "category_id",
                  QuestionTagger.zeroToNull (getProp (Js.lit "category_id") props)) ])
  /\ (forall e, QuestionTagger.validateAndTransformResponse response = Throw e ->
        exists message,
          e = LLMGenerationError
                (Js.lit "Invalid classification response format: " ++ message)).
Proof.
  split; [apply QuestionTagger_returns_iff|].
  intros e. unfold QuestionTagger.validateAndTransformResponse.
  destruct (QuestionTagger.validateBody response) as [v|error] eqn:Hbody; [discriminate|].
  destruct (QuestionTagger_validateBody_throws _ _ Hbody) as [message ->].
  cbn. intros Heq. apply Throw_inj in Heq. subst e. eauto.
Qed.


(** ** The image processor *)

Lemma stripPrefix_Some (p s rest : Js.str) :
  ImageProcessor.stripPrefix p s = Some rest <-> s = p ++ rest.
Proof.
  revert s. induction p as [|a p IH]; intros s; cbn.
  - split; [intros [= ->]; reflexivity | intros ->; reflexivity].
  - destruct s as [|b s]; [split; discriminate|].
    destruct (N.eqb_spec a b) as [->|Hne].
    + rewrite IH. split; [intros ->; reflexivity | intros [= ->]; reflexivity].
    + split; [discriminate | intros [= -> _]; congruence].
Qed.

Lemma upTo_app (stop : N) (text : Js.str) :
  text = fst (ImageProcessor.upTo stop text) ++ snd (ImageProcessor.upTo stop text).
Proof.
  induction text as [|c text IH]; cbn; [reflexivity|].
  destruct (c =? stop)%N; [reflexivity|].
  destruct (ImageProcessor.upTo stop text) as [taken after]. cbn in *. congruence.
Qed.

(** A match is the pattern spelled out. *)
Lemma matchAt_Some (text alt url rest : Js.str) :
  ImageProcessor.matchAt text = Some (alt, url, rest) ->
  text = Js.lit "![" ++ alt ++ Js.lit "](" ++ url ++ Js.lit ")" ++ rest /\ url <> [].
Proof.
  unfold ImageProcessor.matchAt.
  destruct (ImageProcessor.stripPrefix (Js.lit "![") text) as [afterOpen|] eqn:Hopen;
    [|discriminate].
  apply stripPrefix_Some in Hopen.
  pose proof (upTo_app 93 afterOpen) as Halt.
  destruct (ImageProcessor.upTo 93 afterOpen) as [alt' closing]. cbn [fst snd] in Halt.
  destruct (ImageProcessor.stripPrefix (Js.lit "](") closing) as [afterParen|] eqn:Hclose;
    [|discriminate].
  apply stripPrefix_Some in Hclose.
  pose proof (upTo_app 41 afterParen) as Hurl.
  destruct (ImageProcessor.upTo 41 afterParen) as [url' closingParen]. cbn [fst snd] in Hurl.
  destruct url' as [|c url']; [discriminate|].
  destruct (ImageProcessor.stripPrefix (Js.lit ")") closingParen) as [rest'|] eqn:Hparen;
    [|discriminate].
  apply stripPrefix_Some in Hparen.
  intros [= <- <- <-]. split; [|discriminate].
  rewrite Hopen, Halt, Hclose, Hurl, Hparen. rewrite <- ?app_assoc. reflexivity.
Qed.

Lemma startsWith_app (p rest : Js.str) : Js.startsWith p (p ++ rest) = true.
Proof. induction p as [|a p IH]; cbn; [reflexivity|]. rewrite N.eqb_refl. exact IH. Qed.

Lemma includes_unfold (p s : Js.str) :
  Js.includes p s
  = Js.startsWith p s || match s with [] => false | _ :: s' => Js.includes p s' end.
Proof. destruct s; reflexivity. Qed.

Lemma includes_cons (p : Js.str) (c : N) (s : Js.str) :
  Js.includes p s = true -> Js.includes p (c :: s) = true.
Proof. intros H. rewrite includes_unfold, H. apply orb_true_r. Qed.

Lemma includes_app (p before after : Js.str) : Js.includes p (before ++ p ++ after) = true.
Proof.
  induction before as [|c before IH]; cbn [app].
  - rewrite includes_unfold, startsWith_app. reflexivity.
  - apply includes_cons, IH.
Qed.

Lemma matchAt_hasMarkdownImage (text : Js.str) :
  hasMarkdownImage text = false -> ImageProcessor.matchAt text = None.
Proof.
  intros Hguard.
  destruct (ImageProcessor.matchAt text) as [[[alt url] rest]|] eqn:Hmatch; [|reflexivity].
  apply matchAt_Some in Hmatch. destruct Hmatch as [-> _].
  unfold hasMarkdownImage in Hguard.
  pose proof (includes_app (Js.lit "![") []
                (alt ++ Js.lit "](" ++ url ++ Js.lit ")" ++ rest)) as Hopen.
  pose proof (includes_app (Js.lit "](") (Js.lit "![" ++ alt)
                (url ++ Js.lit ")" ++ rest)) as Hclose.
  rewrite <- app_assoc in Hclose. cbn [app] in Hopen.
  rewrite Hopen, Hclose in Hguard. discriminate.
Qed.

Lemma hasMarkdownImage_tail (c : N) (text : Js.str) :
  hasMarkdownImage (c :: text) = false -> hasMarkdownImage text = false.
Proof.
  unfold hasMarkdownImage. intros Hguard.
  destruct (Js.includes (Js.lit "![") text) eqn:H1; [|reflexivity].
  destruct (Js.includes (Js.lit "](") text) eqn:H2; [|reflexivity].
  rewrite (includes_cons _ c _ H1), (includes_cons _ c _ H2) in Hguard. discriminate.
Qed.

Lemma matchesFrom_guard (fuel : nat) (text : Js.str) :
  hasMarkdownImage text = false -> ImageProcessor.matchesFrom fuel text = [].
Proof.
  revert text. induction fuel as [|fuel IH]; intros text Hguard; cbn; [reflexivity|].
  rewrite (matchAt_hasMarkdownImage _ Hguard).
  destruct text as [|c text]; [reflexivity|].
  apply IH, (hasMarkdownImage_tail c), Hguard.
Qed.

Lemma removeFrom_guard (fuel : nat) (text : Js.str) :
  hasMarkdownImage text = false -> (length text <= fuel)%nat ->
  ImageProcessor.removeFrom fuel text = text.
Proof.
  revert text. induction fuel as [|fuel IH]; intros text Hguard Hfuel; cbn.
  - destruct text; [reflexivity | cbn in Hfuel; lia].
  - rewrite (matchAt_hasMarkdownImage _ Hguard).
    destruct text as [|c text]; [reflexivity|].
    rewrite IH; [reflexivity | apply (hasMarkdownImage_tail c), Hguard | cbn in Hfuel; lia].
Qed.

(** X14. On one text for which the test of [generate]'s guard,
    [text.includes('![') && text.includes('](')], is false, the image
    pattern has no match: [extractAndProcessImages] on that text downloads
    nothing and returns no image, and [removeImageMarkdown] only trims it.
    This holds text by text and not for what [generate] skips: the guard
    looks at the question and at each option on its own, while
    [processQuestionAndOptions] would search their join, and an image
    written across two texts fails the test on both and still matches in
    the join, as "Look at ![fig" and "1](http://img/a.png) A" show. *)
Theorem X14_text_failing_guard_has_no_image {W} (net : ImageProcessor.Net W)
    (text : Js.str) (w : W) :
  hasMarkdownImage text = false ->
  (ImageProcessor.matches text = []
   /\ ImageProcessor.extractAndProcessImages net text w = ([], w)
   /\ ImageProcessor.removeImageMarkdown text = Js.trim text)
  /\ (existsb hasMarkdownImage [Js.lit "Look at ![fig"; Js.lit "1](http://img/a.png) A"]
      = false
      /\ ImageProcessor.matches
           (Js.join Js.nl [Js.lit "Look at ![fig"; Js.lit "1](http://img/a.png) A"])
         = [(Js.lit "fig" ++ Js.nl ++ Js.lit "1", Js.lit "http://img/a.png")]).
Proof.
  intros Hguard.
  assert (Hnone : ImageProcessor.matches text = []) by apply matchesFrom_guard, Hguard.
  split.
  - split; [exact Hnone|]. split.
    + unfold ImageProcessor.extractAndProcessImages. rewrite Hnone. reflexivity.
    + unfold ImageProcessor.removeImageMarkdown. rewrite removeFrom_guard; auto.
  - split; vm_compute; reflexivity.
Qed.

Lemma X14_text_failing_guard_witness :
  ImageProcessor.matches (Js.lit "Which drug lowers the heart rate? [1](2)") = []
  /\ ImageProcessor.extractAndProcessImages Album.net
       (Js.lit "Which drug lowers the heart rate? [1](2)") 0%nat = ([], 0%nat)
  /\ ImageProcessor.removeImageMarkdown (Js.lit "Which drug lowers the heart rate? [1](2)")
     = Js.trim (Js.lit "Which drug lowers the heart rate? [1](2)").
Proof.
  apply (X14_text_failing_guard_has_no_image Album.net). vm_compute. reflexivity.
Defined.

Section ImageDownloads.
Context {W : Type} (net : ImageProcessor.Net W).

(** Without an [image/...] content type the format comes from the
    extension, and is one of the five supported. *)
Lemma determineMimeType_fallback (header : option Js.str) (imageUrl : Js.str) :
  match header with
  | Some h => Js.startsWith (Js.lit "image/") h = false
  | None => True
  end ->
  ImageProcessor.isSupportedImageFormat
    (ImageProcessor.determineMimeType net header imageUrl) = true.
Proof.
  intros Hheader. unfold ImageProcessor.determineMimeType.
  assert (Hext : forall lower,
            ImageProcessor.isSupportedImageFormat
              (if ImageProcessor.endsWith (Js.lit ".png") lower then Js.lit "image/png"
               else if ImageProcessor.endsWith (Js.lit ".jpg") lower
                       || ImageProcessor.endsWith (Js.lit ".jpeg") lower
                 then Js.lit "image/jpeg"
               else if ImageProcessor.endsWith (Js.lit ".webp") lower then Js.lit "image/webp"
               else if ImageProcessor.endsWith (Js.lit ".heic") lower then Js.lit "image/heic"
               else if ImageProcessor.endsWith (Js.lit ".heif") lower then Js.lit "image/heif"
               else Js.lit "image/jpeg") = true).
  { intros lower.
    repeat match goal with
           | |- context [if ?b then _ else _] => destruct b
           end; reflexivity. }
  destruct header as [h|]; [rewrite Hheader|]; apply Hext.
Qed.

Lemma downloadAndConvertToBase64_returns (imageUrl alt : Js.str) (w w' : W)
    (image : ExtractedImage) :
  ImageProcessor.downloadAndConvertToBase64 net imageUrl alt w = (Return image, w') ->
  ImageProcessor.isSupportedImageFormat (mimeType image) = true
  /\ originalUrl image = imageUrl /\ altText image = Some alt.
Proof.
  unfold ImageProcessor.downloadAndConvertToBase64.
  destruct (ImageProcessor.axios_get net imageUrl w) as [[response|error] w1].
  - destruct (ImageProcessor.isSupportedImageFormat _) eqn:Hsupported.
    + intros [= <- _]. cbn. auto.
    + cbn. discriminate.
  - destruct (messageOf error); discriminate.
Qed.

Lemma downloadAndConvertToBase64_throws (imageUrl alt : Js.str) (w w' : W) (e : thrown) :
  ImageProcessor.downloadAndConvertToBase64 net imageUrl alt w = (Throw e, w') ->
  e <> Undefined.
Proof.
  unfold ImageProcessor.downloadAndConvertToBase64.
  destruct (ImageProcessor.axios_get net imageUrl w) as [[response|error] w1].
  - destruct (ImageProcessor.isSupportedImageFormat _); [discriminate|].
    cbn. intros [= <- _]. discriminate.
  - destruct error; cbn; intros [= <- _]; discriminate.
Qed.

(** The loop keeps what it has, adds supported images of the matches
    still to come, in their order, and does not throw. *)
Lemma processMatches_adds (found : list (Js.str * Js.str)) (extractedImages : list ExtractedImage)
    (w : W) :
  exists added w',
    ImageProcessor.processMatches net found extractedImages w
    = (Return (extractedImages ++ added), w')
    /\ Forall (fun image => ImageProcessor.isSupportedImageFormat (mimeType image) = true)
         added
    /\ sublist (List.map (fun image => (altText image, originalUrl image)) added)
               (List.map (fun '(alt, imageUrl) => (Some alt, imageUrl)) found).
Proof.
  revert extractedImages w.
  induction found as [|[alt imageUrl] found IH]; intros extractedImages w;
    cbn [ImageProcessor.processMatches].
  - exists [], w. rewrite app_nil_r. split; [reflexivity|]. split; constructor.
  - destruct (ImageProcessor.downloadAndConvertToBase64 net imageUrl alt w)
      as [[image|error] w1] eqn:Hdownload.
    + destruct (downloadAndConvertToBase64_returns _ _ _ _ _ Hdownload)
        as (Hsupported & Hurl & Halt).
      destruct (IH (extractedImages ++ [image]) w1) as (added & w' & Hrun & Hall & Hsub).
      exists (image :: added), w'. rewrite Hrun, <- app_assoc. split; [reflexivity|].
      split; [constructor; assumption|].
      cbn [List.map]. rewrite Halt, Hurl. apply sublist_skip, Hsub.
    + pose proof (downloadAndConvertToBase64_throws _ _ _ _ _ Hdownload) as Hdefined.
      destruct (messageOf_defined _ Hdefined) as [message ->].
      destruct (IH extractedImages w1) as (added & w' & Hrun & Hall & Hsub).
      exists added, w'. split; [exact Hrun|]. split; [exact Hall|].
      cbn [List.map]. apply sublist_cons, Hsub.
Qed.

End ImageDownloads.

(** X16. A download that succeeds is rejected for its format only when
    the response declares an [image/...] content type outside the five
    supported ones; the error is then "Unsupported image format: <type>",
    the type being the header up to its first semicolon. With any other
    header, or none, the format comes from the extension of the URL and
    the image is kept. *)
Theorem X16_format_rejection_needs_image_header {W} (net : ImageProcessor.Net W)
    (imageUrl alt : Js.str) (w w' w'' : W) (response : ImageProcessor.AxiosResponse)
    (e : thrown) :
  ImageProcessor.axios_get net imageUrl w = (Return response, w') ->
  ImageProcessor.downloadAndConvertToBase64 net imageUrl alt w = (Throw e, w'') ->
  exists header,
    ImageProcessor.contentType response = Some header
    /\ Js.startsWith (Js.lit "image/") header = true
    /\ ImageProcessor.isSupportedImageFormat (fst (ImageProcessor.upTo 59 header)) = false
    /\ e = Error (Js.lit "Unsupported image format: " ++ fst (ImageProcessor.upTo 59 header)).
Proof.
  intros Hget. unfold ImageProcessor.downloadAndConvertToBase64. rewrite Hget.
  destruct (ImageProcessor.isSupportedImageFormat _) eqn:Hsupported; [discriminate|].
  cbn [messageOf]. intros Heq.
  destruct (ImageProcessor.contentType response) as [header|] eqn:Hheader.
  - destruct (Js.startsWith (Js.lit "image/") header) eqn:Himage.
    + exists header. unfold ImageProcessor.determineMimeType in Hsupported, Heq.
      rewrite Himage in Hsupported, Heq.
      split; [reflexivity|]. split; [exact Himage|]. split; [exact Hsupported|].
      injection Heq as <- _. reflexivity.
    + rewrite (determineMimeType_fallback net (Some header) imageUrl Himage) in Hsupported.
      discriminate.
  - rewrite (determineMimeType_fallback net None imageUrl I) in Hsupported. discriminate.
Qed.

Lemma X16_format_rejection_witness :
  exists header,
    Some (Js.lit "image/gif") = Some header
    /\ Js.startsWith (Js.lit "image/") header = true
    /\ ImageProcessor.isSupportedImageFormat (fst (ImageProcessor.upTo 59 header)) = false
    /\ Error (Js.lit "Unsupported image format: image/gif")
       = Error (Js.lit "Unsupported image format: " ++ fst (ImageProcessor.upTo 59 header)).
Proof.
  apply (X16_format_rejection_needs_image_header Album.net (Js.lit "http://img/a.gif")
           (Js.lit "anim") 0%nat 1%nat 1%nat
           (ImageProcessor.mkAxiosResponse (Some (Js.lit "image/gif")) [71; 73; 70]%N)).
  - reflexivity.
  - reflexivity.
Defined.


(** ** The controller *)

Example Album_images :
  List.map fst (ImageProcessor.matches Album.question)
  = [Js.lit "x-ray"; []; Js.lit "anim"]
  /\ List.map originalUrl (fst (ImageProcessor.extractAndProcessImages Album.net
                                  Album.question 0%nat))
     = [Js.lit "http://img/arm.PNG"].
Proof. split; vm_compute; reflexivity. Qed.

Lemma someBlank_strings (texts : list Js.str) :
  Exists isBlank texts -> Controller.someBlank (List.map VStr texts) = Return true.
Proof.
  induction 1 as [text texts Hblank|text texts _ IH]; cbn.
  - rewrite (trim_blank _ Hblank). reflexivity.
  - destruct (Js.eqb (Js.trim text) []); [reflexivity | exact IH].
Qed.

(** X17. A request whose question is a blank string, whose options are
    missing or an array of other than four elements, or one of whose four
    option strings is blank, is answered with status 400 and one of the
    three messages of the input check, before any service is called: no
    image is downloaded, nothing is generated, the state is untouched. *)
Theorem X17_bad_request_rejected_first {W} (services : Controller.Services W)
    (gradingSettlesFirst : bool) (question options : JsVal) (text : Js.str) (s : State W) :
  question = VStr text ->
  isBlank text
  \/ options = VUndefined
  \/ (exists items, options = VArr items /\ length items <> 4%nat)
  \/ (exists texts, options = VArr (List.map VStr texts) /\ Exists isBlank texts) ->
  exists message,
    In message [ Js.lit "Question text is required";
                 Js.lit "Exactly 4 options (A, B, C, D) are required";
                 Js.lit "All options must have non-empty text" ]
    /\ Controller.generateSolution services gradingSettlesFirst question options s
       = (Controller.Rejected (Controller.HttpException message 400), s).
Proof.
  intros -> Hbad.
  unfold Controller.generateSolution, Controller.catch, Controller.generateSolutionBody.
  unfold Controller.andThen at 1. cbn [Controller.evaluate Controller.await liftO
                                        Controller.questionText].
  destruct (Js.eqb (Js.trim text) []) eqn:Hquestion.
  { eexists. split; [left; reflexivity | reflexivity]. }
  destruct (Controller.notFourOptions options) eqn:Hcount.
  { eexists. split; [right; left; reflexivity | reflexivity]. }
  destruct Hbad as [Hblank | [-> | [(items & -> & Hitems) | (texts & -> & Hblank)]]].
  - rewrite (trim_blank _ Hblank) in Hquestion. discriminate.
  - discriminate.
  - cbn in Hcount. apply negb_false_iff, Nat.eqb_eq in Hcount. contradiction.
  - unfold Controller.andThen at 1.
    cbn [Controller.evaluate Controller.await liftO Controller.anyOptionBlank].
    rewrite (someBlank_strings _ Hblank).
    eexists. split; [right; right; left; reflexivity | reflexivity].
Qed.

Lemma X17_bad_request_witness :
  exists message,
    In message [ Js.lit "Question text is required";
                 Js.lit "Exactly 4 options (A, B, C, D) are required";
                 Js.lit "All options must have non-empty text" ]
    /\ Controller.generateSolution (Desk.services (Outage.env [])) true Desk.question
         (VArr [VStr (Js.lit "A"); VStr (Js.lit "B"); VStr (Js.lit "C")]) Sample.initial
       = (Controller.Rejected (Controller.HttpException message 400), Sample.initial).
Proof.
  apply (X17_bad_request_rejected_first (Desk.services (Outage.env [])) true Desk.question _
           (Js.lit "What is the normal heart rate for an adult?")).
  - reflexivity.
  - right. right. left. eexists. split; [reflexivity|]. cbn. lia.
Defined.

(** X18. A request whose [question] is not a string (left out, null, a
    number, ...) is not answered 400: the first log line reads
    [question.substring] inside the [try], the TypeError is caught and
    wrapped, and the answer is status 500 "Failed to generate
    comprehensive solution: ...", no service having been called. *)
Theorem X18_missing_question_is_500 {W} (services : Controller.Services W)
    (gradingSettlesFirst : bool) (question options : JsVal) (s : State W) :
  (forall text, question <> VStr text) ->
  exists cause,
    Controller.generateSolution services gradingSettlesFirst question options s
    = (Controller.Rejected
         (Controller.HttpException
            (Js.lit "Failed to generate comprehensive solution: " ++ cause) 500), s).
Proof.
  intros Hquestion.
  unfold Controller.generateSolution, Controller.catch, Controller.generateSolutionBody.
  unfold Controller.andThen at 1.
  destruct question as [| |b|n|text|items|props];
    try (eexists; reflexivity).
  destruct (Hquestion text). reflexivity.
Qed.

Lemma X18_missing_question_witness :
  exists cause,
    Controller.generateSolution (Desk.services (Outage.env [])) true VUndefined Desk.options
      Sample.initial
    = (Controller.Rejected
         (Controller.HttpException
            (Js.lit "Failed to generate comprehensive solution: " ++ cause) 500),
       Sample.initial).
Proof.
  apply X18_missing_question_is_500. intros text. discriminate.
Defined.


Lemma eqb_trim_visible (text : Js.str) :
  hasVisibleCharacter text -> Js.eqb (Js.trim text) [] = false.
Proof.
  intros Hvisible. unfold Js.eqb. apply bool_decide_eq_false, trim_visible, Hvisible.
Qed.

Lemma someBlank_visible (texts : list Js.str) :
  Forall hasVisibleCharacter texts -> Controller.someBlank (List.map VStr texts) = Return false.
Proof.
  induction 1 as [|text texts Hvisible _ IH]; cbn; [reflexivity|].
  rewrite (eqb_trim_visible _ Hvisible). exact IH.
Qed.

Lemma optionTexts_strings (texts : list Js.str) :
  Controller.optionTexts (VArr (List.map VStr texts)) = texts.
Proof.
  unfold Controller.optionTexts.
  induction texts as [|text texts IH]; [reflexivity|].
  cbn [List.map]. cbn [omap list_omap]. f_equal. exact IH.
Qed.

(** X19. When the solution generator of this file serves the controller
    and fails on a well-formed request (question and four options, none
    blank), the handler rejects with the generator's own
    [LLMGenerationError] "Failed to generate solution: ...": status 503,
    the message not wrapped a second time, and neither the grader nor the
    tagger is called. *)
Theorem X19_generation_failure_is_503 {W} (env : Env W) (services : Controller.Services W)
    (gradingSettlesFirst : bool) (text : Js.str) (texts : list Js.str) (prompt : Js.str)
    (s : State W) (e : thrown) :
  Controller.solutionGeneratorService_generateSolution services
    = (fun question => generate env question prompt) ->
  (forall agentInput w, rejectsWithErrors (agentExecutor_invoke env agentInput w)) ->
  hasVisibleCharacter text ->
  length texts = 4%nat ->
  Forall hasVisibleCharacter texts ->
  let extraction :=
    external (Controller.imageProcessorService_extractAndProcessImages services
                (text ++ Js.nl ++ Js.join Js.nl texts)) s in
  let images := match fst extraction with Return images => images | Throw _ => [] end in
  let generation := generate env (mkQuestion text texts (Some images)) prompt (snd extraction) in
  fst generation = Throw e ->
  Controller.generateSolution services gradingSettlesFirst (VStr text)
    (VArr (List.map VStr texts)) s
  = (Controller.Rejected (Controller.Thrown e), snd generation)
  /\ Controller.statusOf (Controller.Thrown e) = Some 503%N
  /\ exists cause, e = LLMGenerationError (Js.lit "Failed to generate solution: " ++ cause).
Proof.
  intros Hservice Hagent Hquestion Hfour Hoptions extraction images generation Hfails.
  assert (He : exists cause,
             e = LLMGenerationError (Js.lit "Failed to generate solution: " ++ cause)).
  { revert Hfails. unfold generation, generate, tryCatch.
    destruct (generateBody env _ prompt (snd extraction)) as [[v|e0] s1] eqn:Hbody;
      [discriminate|].
    assert (He0 : e0 <> Undefined).
    { eapply generateBody_throws_defined; [exact Hagent|]. rewrite Hbody. reflexivity. }
    destruct e0 as [|m|m|m]; [congruence| | |]; cbn; intros Heq;
      apply Throw_inj in Heq; subst e; eexists; reflexivity. }
  destruct He as [cause ->].
  split; [|split; [reflexivity | eauto]].
  unfold Controller.generateSolution, Controller.catch, Controller.generateSolutionBody.
  unfold Controller.andThen at 1.
  cbn [Controller.evaluate Controller.await liftO Controller.questionText].
  rewrite (eqb_trim_visible _ Hquestion).
  assert (Hcount : Controller.notFourOptions (VArr (List.map VStr texts)) = false).
  { cbn. rewrite length_map, Hfour. reflexivity. }
  rewrite Hcount.
  unfold Controller.andThen at 1.
  cbn [Controller.evaluate Controller.await liftO Controller.anyOptionBlank].
  rewrite (someBlank_visible _ Hoptions), optionTexts_strings.
  unfold Controller.andThen at 1. unfold Controller.await at 1.
  fold extraction.
  assert (Hextraction : extraction = (Return images, snd extraction)).
  { unfold images, extraction, external.
    destruct (Controller.imageProcessorService_extractAndProcessImages services _ (world s)).
    reflexivity. }
  rewrite Hextraction. cbn [snd].
  unfold Controller.andThen at 1. unfold Controller.await at 1.
  rewrite Hservice. fold generation.
  destruct generation as [[v|e0] s2]; cbn [fst snd] in *; [discriminate|].
  apply Throw_inj in Hfails. subst e0. reflexivity.
Qed.

Lemma X19_generation_failure_witness :
  exists e,
    Controller.generateSolution (Desk.services (Outage.env [])) true Desk.question Desk.options
      Sample.initial
    = (Controller.Rejected (Controller.Thrown e),
       snd (generate (Outage.env [])
              (mkQuestion (Js.lit "What is the normal heart rate for an adult?")
                 [ Js.lit "50-70 bpm"; Js.lit "60-100 bpm"; Js.lit "80-120 bpm";
                   Js.lit "100-140 bpm" ] (Some []))
              (Js.lit "You are a nursing tutor.") Sample.initial))
    /\ Controller.statusOf (Controller.Thrown e) = Some 503%N.
Proof.
  exists (LLMGenerationError (Js.lit "Failed to generate solution: fetch failed")).
  destruct (X19_generation_failure_is_503 (Outage.env []) (Desk.services (Outage.env []))
              true (Js.lit "What is the normal heart rate for an adult?")
              [ Js.lit "50-70 bpm"; Js.lit "60-100 bpm"; Js.lit "80-120 bpm";
                Js.lit "100-140 bpm" ]
              (Js.lit "You are a nursing tutor.") Sample.initial
              (LLMGenerationError (Js.lit "Failed to generate solution: fetch failed")))
    as (Hrun & Hstatus & _).
  - reflexivity.
  - intros agentInput w. cbn. discriminate.
  - apply Exists_cons_hd. reflexivity.
  - reflexivity.
  - repeat constructor.
  - vm_compute. reflexivity.
  - split; [exact Hrun | exact Hstatus].
Defined.


Lemma questionText_throws_defined (question : JsVal) (e : thrown) :
  Controller.questionText question = Throw e -> e <> Undefined.
Proof. destruct question; cbn; intros [= <-]; discriminate. Qed.

Lemma someBlank_throws_defined (options : list JsVal) (e : thrown) :
  Controller.someBlank options = Throw e -> e <> Undefined.
Proof.
  induction options as [|option options IH]; cbn; [discriminate|].
  destruct option as [| |[]|n|text|items|props]; try discriminate;
    try (intros [= <-]; discriminate).
  - destruct (Qeq_bool n 0); [discriminate | intros [= <-]; discriminate].
  - destruct (Js.eqb (Js.trim text) []); [discriminate | exact IH].
Qed.

Lemma anyOptionBlank_throws_defined (options : JsVal) (e : thrown) :
  Controller.anyOptionBlank options = Throw e -> e <> Undefined.
Proof.
  destruct options; cbn; try (intros [= <-]; discriminate).
  apply someBlank_throws_defined.
Qed.

Lemma propOf_throws_defined (value : JsVal) (key : string) (e : thrown) :
  Controller.propOf value key = Throw e -> e <> Undefined.
Proof. destruct value; cbn; intros [= <-]; discriminate. Qed.

Section ControllerRejections.
Context {W : Type} (services : Controller.Services W).

Lemma toReference_throws_defined (ref : JsVal) (e : thrown) :
  Controller.toReference services ref = Throw e -> e <> Undefined.
Proof.
  unfold Controller.toReference.
  destruct (Controller.propOf ref "book_title") as [book|e1] eqn:H1.
  2:{ intros [= <-]. eapply propOf_throws_defined, H1. }
  destruct (Controller.propOf ref "book_id") as [book_id|e2] eqn:H2.
  2:{ intros [= <-]. eapply propOf_throws_defined, H2. }
  destruct (Controller.propOf ref "page_start") as [page_start|e3] eqn:H3.
  - destruct book_id; cbn; try discriminate; intros [= <-]; discriminate.
  - destruct book_id; cbn; intros [= <-]; try discriminate;
      eapply propOf_throws_defined, H3.
Qed.

Lemma mapReferences_throws_defined (references : JsVal) (e : thrown) :
  Controller.mapReferences services references = Throw e -> e <> Undefined.
Proof.
  destruct references as [| | | | |items|]; cbn; try (intros [= <-]; discriminate).
  destruct (mapO (Controller.toReference services) items) as [mapped|e0] eqn:Hmap;
    [discriminate|].
  intros [= <-]. destruct (mapO_throws _ _ _ Hmap) as [ref Href].
  eapply toReference_throws_defined, Href.
Qed.

Lemma comprehensiveSolution_throws_defined
    (question options solutionOutput gradingResult classificationResult : JsVal)
    (e : thrown) :
  Controller.comprehensiveSolution services question options solutionOutput gradingResult
    classificationResult = Throw e ->
  e <> Undefined.
Proof.
  unfold Controller.comprehensiveSolution.
  repeat match goal with
         | |- context [match Controller.propOf ?v ?k with _ => _ end] =>
             let H := fresh "Hread" in
             destruct (Controller.propOf v k) eqn:H;
             [|intros [= <-]; eapply propOf_throws_defined, H]
         | |- context [match Controller.mapReferences ?sv ?r with _ => _ end] =>
             let H := fresh "Hmap" in
             destruct (Controller.mapReferences sv r) eqn:H;
             [|intros [= <-]; eapply mapReferences_throws_defined, H]
         end.
  discriminate.
Qed.

Hypothesis generator_throws :
  forall question s e s',
    Controller.solutionGeneratorService_generateSolution services question s = (Throw e, s') ->
    e <> Undefined.
Hypothesis grader_throws :
  forall question description s e s',
    Controller.difficultyGraderService_gradeQuestion services question description s
    = (Throw e, s') ->
    e <> Undefined.
Hypothesis tagger_throws :
  forall question description s e s',
    Controller.questionTaggerService_classifyQuestion services question description s
    = (Throw e, s') ->
    e <> Undefined.

(** The [try] block rejects with one of its own 400s, the state
    untouched, or with an error object thrown below it. *)
Lemma generateSolutionBody_rejects (gradingSettlesFirst : bool) (question options : JsVal)
    (s s' : State W) (error : Controller.Rejection) :
  Controller.generateSolutionBody services gradingSettlesFirst question options s
  = (Controller.Rejected error, s') ->
  (exists message, error = Controller.HttpException message 400 /\ s' = s)
  \/ (exists e, error = Controller.Thrown e /\ e <> Undefined).
Proof.
  unfold Controller.generateSolutionBody.
  unfold Controller.andThen at 1. cbn [Controller.evaluate Controller.await liftO].
  destruct (Controller.questionText question) as [text|e0] eqn:Hquestion.
  2:{ intros [= <- <-]. right. eexists. split; [reflexivity|].
      eapply questionText_throws_defined, Hquestion. }
  destruct (Js.eqb (Js.trim text) []); [intros [= <- <-]; left; eauto|].
  destruct (Controller.notFourOptions options); [intros [= <- <-]; left; eauto|].
  unfold Controller.andThen at 1. cbn [Controller.evaluate Controller.await liftO].
  destruct (Controller.anyOptionBlank options) as [blank|e0] eqn:Hblank.
  2:{ intros [= <- <-]. right. eexists. split; [reflexivity|].
      eapply anyOptionBlank_throws_defined, Hblank. }
  destruct blank; [intros [= <- <-]; left; eauto|].
  unfold Controller.andThen at 1. unfold Controller.await at 1. unfold external at 1.
  destruct (Controller.imageProcessorService_extractAndProcessImages services _ (world s))
    as [images w1].
  unfold Controller.andThen at 1. unfold Controller.await at 1.
  destruct (Controller.solutionGeneratorService_generateSolution services _ _)
    as [[solutionOutput|e0] s2] eqn:Hgenerate.
  2:{ intros [= <- <-]. right. eexists. split; [reflexivity|].
      eapply generator_throws, Hgenerate. }
  unfold Controller.andThen at 1. cbn [Controller.evaluate Controller.await liftO].
  destruct (Controller.propOf solutionOutput "ans_description") as [description|e0] eqn:Hread.
  2:{ intros [= <- <-]. right. eexists. split; [reflexivity|].
      eapply propOf_throws_defined, Hread. }
  unfold Controller.andThen at 1. unfold Controller.gradeAndClassify at 1.
  destruct (Controller.difficultyGraderService_gradeQuestion services _ _ s2)
    as [grading s3] eqn:Hgrade.
  destruct (Controller.questionTaggerService_classifyQuestion services _ _ s3)
    as [classification s4] eqn:Hclassify.
  destruct grading as [gradingResult|gradingError],
           classification as [classificationResult|classificationError].
  - cbn [Controller.evaluate Controller.await liftO fst snd].
    destruct (Controller.comprehensiveSolution services _ _ _ _ _) as [v|e0] eqn:Hbuild;
      [discriminate|].
    intros [= <- <-]. right. eexists. split; [reflexivity|].
    eapply comprehensiveSolution_throws_defined, Hbuild.
  - intros [= <- <-]. right. eexists. split; [reflexivity|].
    eapply tagger_throws, Hclassify.
  - intros [= <- <-]. right. eexists. split; [reflexivity|].
    eapply grader_throws, Hgrade.
  - intros [= <- <-]. right. eexists. split; [reflexivity|].
    destruct gradingSettlesFirst;
      [eapply grader_throws, Hgrade | eapply tagger_throws, Hclassify].
Qed.

End ControllerRejections.

(** X20. Whatever goes wrong, the handler rejects with an HTTP exception
    of status 400, 500 or 503, the services throwing error objects: 400
    only from the input check and then with the state untouched, 503 for
    an [LLMGenerationError] of a service passed on as it is, 500 "Failed
    to generate comprehensive solution: ..." for anything else; no plain
    error leaves the handler. *)
Theorem X20_rejections_are_http {W} (services : Controller.Services W)
    (gradingSettlesFirst : bool) (question options : JsVal) (s s' : State W)
    (error : Controller.Rejection) :
  (forall question s e s',
     Controller.solutionGeneratorService_generateSolution services question s = (Throw e, s') ->
     e <> Undefined) ->
  (forall question description s e s',
     Controller.difficultyGraderService_gradeQuestion services question description s
     = (Throw e, s') ->
     e <> Undefined) ->
  (forall question description s e s',
     Controller.questionTaggerService_classifyQuestion services question description s
     = (Throw e, s') ->
     e <> Undefined) ->
  Controller.generateSolution services gradingSettlesFirst question options s
  = (Controller.Rejected error, s') ->
  (Controller.statusOf error = Some 400%N /\ s' = s)
  \/ (exists cause,
        error = Controller.HttpException
                  (Js.lit "Failed to generate comprehensive solution: " ++ cause) 500)
  \/ (exists message, error = Controller.Thrown (LLMGenerationError message)
                      /\ Controller.statusOf error = Some 503%N).
Proof.
  intros Hgenerator Hgrader Htagger.
  unfold Controller.generateSolution, Controller.catch.
  destruct (Controller.generateSolutionBody services gradingSettlesFirst question options s)
    as [[v|bodyError] s1] eqn:Hbody; [discriminate|].
  destruct (generateSolutionBody_rejects services Hgenerator Hgrader Htagger _ _ _ _ _ _ Hbody)
    as [(message & -> & ->) | (e & -> & He)].
  - cbn. intros [= <- <-]. left. split; reflexivity.
  - destruct e as [|m|m|m]; [congruence| | |]; cbn; intros [= <- <-].
    + right. left. eauto.
    + right. left. eauto.
    + right. right. eauto.
Qed.

Lemma X20_rejections_are_http_witness :
  exists error s',
    Controller.generateSolution (Desk.services (Outage.env [])) true Desk.question Desk.options
      Sample.initial
    = (Controller.Rejected error, s')
    /\ ((Controller.statusOf error = Some 400%N /\ s' = Sample.initial)
        \/ (exists cause,
              error = Controller.HttpException
                        (Js.lit "Failed to generate comprehensive solution: " ++ cause) 500)
        \/ (exists message, error = Controller.Thrown (LLMGenerationError message)
                            /\ Controller.statusOf error = Some 503%N)).
Proof.
  destruct (Controller.generateSolution (Desk.services (Outage.env [])) true Desk.question
              Desk.options Sample.initial) as [[v|error] s'] eqn:Hrun.
  - exfalso. revert Hrun. vm_compute. discriminate.
  - exists error, s'. split; [reflexivity|].
    apply (X20_rejections_are_http (Desk.services (Outage.env [])) true Desk.question
             Desk.options Sample.initial s' error).
    + intros question s e s1 Hthrows.
      assert (He : fst (generate (Outage.env []) question (Js.lit "You are a nursing tutor.") s)
                   = Throw e) by (cbn in Hthrows; rewrite Hthrows; reflexivity).
      revert He. unfold generate, tryCatch.
      destruct (generateBody _ _ _ s) as [[v|e0] s2] eqn:Hbody; [discriminate|].
      assert (He0 : e0 <> Undefined).
      { eapply (generateBody_throws_defined (Outage.env [])).
        - intros agentInput w. cbn. discriminate.
        - rewrite Hbody. reflexivity. }
      destruct e0; [congruence| | |]; cbn; intros [= <-]; discriminate.
    + intros question description s e s1. cbn. discriminate.
    + intros question description s e s1. cbn. discriminate.
    + exact Hrun.
Defined.


(** ** Images on the way from the controller to the agent *)

Section ImagesTwice.
Context {W : Type} (net : ImageProcessor.Net W).
Hypothesis same_download :
  forall imageUrl w w',
    fst (ImageProcessor.axios_get net imageUrl w) = fst (ImageProcessor.axios_get net imageUrl w').

Lemma downloadAndConvertToBase64_same (imageUrl alt : Js.str) (w w' : W) :
  fst (ImageProcessor.downloadAndConvertToBase64 net imageUrl alt w)
  = fst (ImageProcessor.downloadAndConvertToBase64 net imageUrl alt w').
Proof.
  unfold ImageProcessor.downloadAndConvertToBase64.
  pose proof (same_download imageUrl w w') as Hsame.
  destruct (ImageProcessor.axios_get net imageUrl w) as [r1 w1],
           (ImageProcessor.axios_get net imageUrl w') as [r2 w2].
  cbn in Hsame. subst r2.
  destruct r1 as [response|error]; [|reflexivity].
  destruct (ImageProcessor.isSupportedImageFormat _); reflexivity.
Qed.

Lemma processMatches_same (found : list (Js.str * Js.str))
    (extractedImages : list ExtractedImage) (w w' : W) :
  fst (ImageProcessor.processMatches net found extractedImages w)
  = fst (ImageProcessor.processMatches net found extractedImages w').
Proof.
  revert extractedImages w w'.
  induction found as [|[alt imageUrl] found IH]; intros extractedImages w w';
    cbn [ImageProcessor.processMatches]; [reflexivity|].
  pose proof (downloadAndConvertToBase64_same imageUrl alt w w') as Hsame.
  destruct (ImageProcessor.downloadAndConvertToBase64 net imageUrl alt w) as [r1 w1],
           (ImageProcessor.downloadAndConvertToBase64 net imageUrl alt w') as [r2 w2].
  cbn in Hsame. subst r2.
  destruct r1 as [image|error]; [apply IH|].
  destruct (messageOf error); [apply IH | reflexivity].
Qed.

Lemma extractAndProcessImages_same (markdownText : Js.str) (w w' : W) :
  fst (ImageProcessor.extractAndProcessImages net markdownText w)
  = fst (ImageProcessor.extractAndProcessImages net markdownText w').
Proof.
  unfold ImageProcessor.extractAndProcessImages.
  pose proof (processMatches_same (ImageProcessor.matches markdownText) [] w w') as Hsame.
  destruct (ImageProcessor.processMatches net _ [] w) as [r1 w1],
           (ImageProcessor.processMatches net _ [] w') as [r2 w2].
  cbn in Hsame. subst r2. destruct r1; reflexivity.
Qed.

End ImagesTwice.

(** X21. A question with Markdown images that comes through the
    controller has its images processed twice: the controller extracts
    them and passes them on with the unchanged text, and [generate]
    extracts them again from that text and appends them. With downloads
    that give the same result each time, the agent is told of each image
    twice ("This question includes <2n> image(s)"), and is given the text
    with the Markdown removed. *)
Theorem X21_markdown_images_processed_twice {W} (env : Env W) (net : ImageProcessor.Net W)
    (text : Js.str) (texts : list Js.str) (systemMessage : Js.str) (w : W) (s : State W) :
  processQuestionAndOptions env = ImageProcessor.processQuestionAndOptions net ->
  (forall imageUrl w w',
     fst (ImageProcessor.axios_get net imageUrl w)
     = fst (ImageProcessor.axios_get net imageUrl w')) ->
  texts <> [] ->
  existsb hasMarkdownImage (text :: texts) = true ->
  let markdown := text ++ Js.nl ++ Js.join Js.nl texts in
  let images := fst (ImageProcessor.extractAndProcessImages net markdown w) in
  let world' := snd (ImageProcessor.extractAndProcessImages net markdown (world s)) in
  invokeAgent env (mkQuestion text texts (Some images)) systemMessage s
  = executeWithTimeout env
      (mkAgentInput
         (textMessageOf (ImageProcessor.removeImageMarkdown text)
            (List.map ImageProcessor.removeImageMarkdown texts))
         systemMessage
         (imagesContextOf (images ++ images)))
      120000
      (mkState world' (embeddingCache s) (embeddingCounter s) (trace s))
  /\ length (images ++ images) = (2 * length images)%nat.
Proof.
  intros Hprocess Hsame Htexts Hmarkdown markdown images world'.
  split; [|rewrite length_app; lia].
  unfold invokeAgent. cbn [question options images].
  rewrite Hmarkdown. unfold bind at 1. unfold bind at 1. unfold external at 1.
  rewrite Hprocess. unfold ImageProcessor.processQuestionAndOptions.
  assert (Hjoin : Js.join Js.nl (text :: texts) = markdown).
  { unfold markdown. destruct texts as [|first rest]; [congruence | reflexivity]. }
  rewrite Hjoin.
  pose proof (extractAndProcessImages_same net Hsame markdown (world s) w) as Himages.
  fold images in Himages. unfold world'.
  destruct (ImageProcessor.extractAndProcessImages net markdown (world s)) as [images' w1].
  cbn [fst snd] in *. subst images'. reflexivity.
Qed.


Lemma X21_markdown_images_witness :
  let markdown := Album.question ++ Js.nl ++ Js.join Js.nl Studio.options in
  let images := fst (ImageProcessor.extractAndProcessImages Album.net markdown 0%nat) in
  let world' :=
    snd (ImageProcessor.extractAndProcessImages Album.net markdown (world Sample.initial)) in
  invokeAgent (Studio.env VNull) (mkQuestion Album.question Studio.options (Some images))
    (Js.lit "You are a nursing tutor.") Sample.initial
  = executeWithTimeout (Studio.env VNull)
      (mkAgentInput
         (textMessageOf (ImageProcessor.removeImageMarkdown Album.question)
            (List.map ImageProcessor.removeImageMarkdown Studio.options))
         (Js.lit "You are a nursing tutor.")
         (imagesContextOf (images ++ images)))
      120000
      (mkState world' (embeddingCache Sample.initial) (embeddingCounter Sample.initial)
         (trace Sample.initial))
  /\ length (images ++ images) = (2 * length images)%nat.
Proof.
  apply (X21_markdown_images_processed_twice (Studio.env VNull) Album.net Album.question
           Studio.options (Js.lit "You are a nursing tutor.") 0%nat Sample.initial).
  - reflexivity.
  - intros imageUrl w w'. cbn.
    destruct (Js.includes (Js.lit "missing") imageUrl); [reflexivity|].
    destruct (ImageProcessor.endsWith (Js.lit ".gif") imageUrl); reflexivity.
  - discriminate.
  - vm_compute. reflexivity.
Defined.


(** ** The fuel of the pattern search *)

Lemma matchAt_shorter (text alt url rest : Js.str) :
  ImageProcessor.matchAt text = Some (alt, url, rest) -> (length rest < length text)%nat.
Proof.
  intros Hmatch. apply matchAt_Some in Hmatch. destruct Hmatch as [-> _].
  rewrite !length_app. change (length (Js.lit ")")) with 1%nat. lia.
Qed.

(** Fuel beyond the length of the text changes nothing: the search has
    reached the end of the text by then. *)
Lemma matchesFrom_enough (fuel : nat) (text : Js.str) :
  (length text <= fuel)%nat ->
  ImageProcessor.matchesFrom fuel text = ImageProcessor.matches text.
Proof.
  unfold ImageProcessor.matches.
  remember (length text) as n eqn:Hn.
  assert (Hlen : (length text <= n)%nat) by lia. clear Hn.
  revert fuel text Hlen.
  induction n as [|n IH]; intros fuel text Hlen Hfuel.
  - destruct text; [|cbn in Hlen; lia].
    destruct fuel; reflexivity.
  - destruct fuel as [|fuel]; [lia|]. cbn.
    destruct (ImageProcessor.matchAt text) as [[[alt url] rest]|] eqn:Hmatch.
    + pose proof (matchAt_shorter _ _ _ _ Hmatch). f_equal. apply IH; lia.
    + destruct text as [|c text]; [reflexivity|]. cbn in Hlen. apply IH; lia.
Qed.

Lemma removeFrom_enough (fuel : nat) (text : Js.str) :
  (length text <= fuel)%nat ->
  ImageProcessor.removeFrom fuel text = ImageProcessor.removeFrom (length text) text.
Proof.
  remember (length text) as n eqn:Hn.
  assert (Hlen : (length text <= n)%nat) by lia. clear Hn.
  revert fuel text Hlen.
  induction n as [|n IH]; intros fuel text Hlen Hfuel.
  - destruct text; [|cbn in Hlen; lia].
    destruct fuel; reflexivity.
  - destruct fuel as [|fuel]; [lia|]. cbn.
    destruct (ImageProcessor.matchAt text) as [[[alt url] rest]|] eqn:Hmatch.
    + pose proof (matchAt_shorter _ _ _ _ Hmatch). apply IH; lia.
    + destruct text as [|c text]; [reflexivity|]. cbn in Hlen. f_equal. apply IH; lia.
Qed.


(** ** classifyQuestion *)






(** ** The cost of a whole request *)

Lemma toolCallOf_nonneg (ev : Event) : 0 <= toolCallOf ev.
Proof. destruct ev; cbn; lia. Qed.

#[global] Instance withinToolBudget_preorder {W} : PreOrder (withinToolBudget (W := W)).
Proof.
  split.
  - intros s. exists []. rewrite app_nil_r. cbn. split; [reflexivity | lia].
  - intros s1 s2 s3 (evs1 & H1 & Hq1 & Hs1) (evs2 & H2 & Hq2 & Hs2).
    exists (evs1 ++ evs2). rewrite H2, H1, app_assoc, !total_app.
    split; [reflexivity | lia].
Qed.

Lemma withinToolBudget_world {W} : worldStep (withinToolBudget (W := W)).
Proof. intros s w. exists []. cbn. rewrite app_nil_r. split; [reflexivity | lia]. Qed.

Section RequestCost.
Context {W : Type} (env : Env W).
Hypothesis random_range :
  forall w, (0 <= fst (mathRandom env w))%Q /\ (fst (mathRandom env w) < 1)%Q.

(** One tool call, announced and run. *)
Lemma withinToolBudget_toolCall (call : ToolCall) :
  steps withinToolBudget
    (bind (emit (EvToolCall (toolName call))) (fun _ => runTool env call)).
Proof using random_range.
  intros s. unfold bind, emit.
  set (s1 := mkState (world s) (embeddingCache s) (embeddingCounter s)
               (trace s ++ [EvToolCall (toolName call)])).
  destruct (spends_runTool env queryOf (fun _ => 0) queryOf_nonneg ltac:(lia) random_range
              ltac:(intros; cbn; lia) 1 ltac:(lia) ltac:(intros; cbn; lia) call s1)
    as (events & Htrace & Hqueries).
  destruct (spends_runTool env sleepOf (fun k => 2600 * 2 ^ Z.of_nat (k - 1)) sleepOf_nonneg
              ltac:(intros; apply Z.mul_nonneg_nonneg; [lia|apply Z.pow_nonneg; lia])
              random_range sleepOf_backoff_2000 0 ltac:(lia) ltac:(intros; cbn; lia) call s1)
    as (events' & Htrace' & Hsleeps).
  assert (events' = events) as ->.
  { rewrite Htrace in Htrace'. apply app_inv_head in Htrace'. congruence. }
  assert (Hq : total queryOf events <= 5).
  { etransitivity; [exact Hqueries|]. vm_compute. discriminate. }
  assert (Hs : total sleepOf events <= 39500).
  { etransitivity; [exact Hsleeps|]. vm_compute. discriminate. }
  exists (EvToolCall (toolName call) :: events).
  cbn [snd]. rewrite Htrace. unfold s1. cbn [trace]. rewrite <- app_assoc.
  split; [reflexivity|].
  pose proof (total_nonneg toolCallOf toolCallOf_nonneg events) as Hcalls.
  change (total queryOf (EvToolCall (toolName call) :: events))
    with (0 + total queryOf events).
  change (total sleepOf (EvToolCall (toolName call) :: events))
    with (0 + total sleepOf events).
  change (total toolCallOf (EvToolCall (toolName call) :: events))
    with (1 + total toolCallOf events).
  lia.
Qed.

Lemma withinToolBudget_runAgent (timeoutMs : N) (run : AgentRun) :
  steps withinToolBudget (runAgent env timeoutMs run).
Proof using random_range.
  induction run as [output|e| |call k IH]; cbn [runAgent].
  - intros s. reflexivity.
  - intros s. reflexivity.
  - intros s. reflexivity.
  - intros s. pose proof (withinToolBudget_toolCall call s) as Hstep.
    destruct (bind (emit (EvToolCall (toolName call))) (fun _ => runTool env call) s)
      as [outcome s'].
    cbn [snd] in Hstep. etransitivity; [exact Hstep | apply IH].
Qed.

End RequestCost.

(** X23. Over a whole call of [generate], however the agent behaves, the
    store queries number at most five for each tool call the agent made,
    and the waits of the service (pauses and back-off) add up to at most
    39.5 seconds for each tool call: all the waiting and querying of a
    request is accounted for by the agent's tool calls. *)
Theorem X23_generate_cost_per_tool_call {W} (env : Env W)
    (q : ServicableQuestionWithImages) (systemMessage : Js.str) (s : State W) :
  (forall w, (0 <= fst (mathRandom env w))%Q /\ (fst (mathRandom env w) < 1)%Q) ->
  exists events,
    trace (snd (generate env q systemMessage s)) = trace s ++ events
    /\ total queryOf events <= 5 * total toolCallOf events
    /\ total sleepOf events <= 39500 * total toolCallOf events.
Proof.
  intros Hrandom.
  assert (Hpure : forall (A : Type) (o : Outcome A), steps withinToolBudget (liftO (W := W) o)).
  { intros A o s0. reflexivity. }
  assert (Hclear : steps withinToolBudget (clearEmbeddingCache (W := W))).
  { intros s0. exists [EvCacheCleared]. cbn. split; [reflexivity | lia]. }
  assert (Hagent : steps withinToolBudget (invokeAgent env q systemMessage)).
  { unfold invokeAgent. apply steps_bind; [exact _| |].
    - destruct (existsb hasMarkdownImage (question q :: options q)).
      + apply steps_bind; [exact _| |intros imageResult s0; reflexivity].
        apply steps_external, withinToolBudget_world.
      + intros s0. reflexivity.
    - intros processed s0. unfold executeWithTimeout.
      apply withinToolBudget_runAgent, Hrandom. }
  assert (Hall : steps withinToolBudget (generate env q systemMessage)).
  { unfold generate, generateBody, agentResult.
    apply steps_tryCatch; [exact _| |].
    - apply steps_bind; [exact _| |].
      + apply steps_bind; [exact _ | exact Hclear | intros _; exact Hagent].
      + intros output.
        apply steps_bind; [exact _|apply Hpure|]. intros responseText.
        apply steps_bind; [exact _|apply Hpure|]. intros parsedResponse. apply Hpure.
    - intros e. apply steps_bind; [exact _|apply Hpure|]. intros m s1. reflexivity. }
  exact (Hall s).
Qed.

Lemma X23_generate_cost_witness :
  exists events,
    trace (snd (generate (Sample.env Sample.docs Sample.videos (VStr Sample.json))
                  Sample.heartRate (Js.lit "You are a nursing tutor.") Sample.initial))
    = trace Sample.initial ++ events
    /\ total queryOf events <= 5 * total toolCallOf events
    /\ total sleepOf events <= 39500 * total toolCallOf events.
Proof.
  apply (X23_generate_cost_per_tool_call (Sample.env Sample.docs Sample.videos
                                            (VStr Sample.json))).
  intros w. cbn. split; [discriminate | reflexivity].
Defined.


(** ** What the controller resolves with *)

Lemma blank_or_visible (text : Js.str) : isBlank text \/ hasVisibleCharacter text.
Proof.
  induction text as [|c text [IH|IH]].
  - left. constructor.
  - destruct (Js.isWhiteSpace c) eqn:Hc.
    + left. constructor; assumption.
    + right. apply Exists_cons_hd. exact Hc.
  - right. apply Exists_cons_tl. exact IH.
Qed.

Lemma mapO_Forall {A B} (f : A -> Outcome B) (P : B -> Prop) (xs : list A) (ys : list B) :
  (forall x y, f x = Return y -> P y) -> mapO f xs = Return ys -> Forall P ys.
Proof.
  intros Hf. revert ys. induction xs as [|x xs IH]; intros ys; cbn.
  - intros [= <-]. constructor.
  - destruct (f x) as [y|] eqn:Hx; [|discriminate].
    destruct (mapO f xs) as [ys'|]; [|discriminate].
    intros [= <-]. constructor; [eapply Hf, Hx | apply IH; reflexivity].
Qed.

(** What [generate] returns passed the validation. *)
Lemma generate_returns_validated {W} (env : Env W) (q : ServicableQuestionWithImages)
    (systemMessage : Js.str) (s s' : State W) (v : JsVal) :
  generate env q systemMessage s = (Return v, s') ->
  exists props, v = VObj props /\ validateBody props = Return v.
Proof.
  unfold generate, tryCatch.
  destruct (generateBody env q systemMessage s) as [[v0|e] s1] eqn:Hbody.
  2:{ unfold bind, liftO, throw. destruct (messageOf e); discriminate. }
  intros [= <- <-]. revert Hbody. unfold generateBody. unfold bind at 1.
  destruct (agentResult env q systemMessage s) as [[output|e] s2]; [|discriminate].
  unfold bind, liftO.
  destruct (checkOutput output) as [responseText|e]; [|discriminate].
  destruct (parseResponse env responseText) as [parsedResponse|e]; [|discriminate].
  destruct (validateAndTransformResponse env parsedResponse) as [dto|e] eqn:Hvalid;
    [|discriminate].
  intros [= <- <-].
  apply validateAndTransformResponse_returns in Hvalid.
  destruct Hvalid as (props & -> & Hvalid).
  pose proof (validateBody_returns _ _ Hvalid) as (_ & _ & _ & _ & _ & _ & _ & _ & Hdto).
  exists props. split; [exact Hdto | exact Hvalid].
Qed.

Section ControllerResolves.
Context {W : Type} (services : Controller.Services W).

Lemma toReference_returns (ref mapped : JsVal) :
  Controller.toReference services ref = Return mapped ->
  exists fields, mapped = VObj fields
                 /\ getProp (Js.lit "paragraph_number") fields = VNum 1.
Proof.
  unfold Controller.toReference.
  destruct (Controller.propOf ref "book_title") as [book|]; [|discriminate].
  destruct (Controller.propOf ref "book_id") as [book_id|]; [|discriminate].
  destruct (Controller.propOf ref "page_start") as [page_start|];
    destruct book_id; try discriminate; intros [= <-]; eexists; split; reflexivity.
Qed.

(** The [try] block resolves after the input check let the request
    through, the generator returned, and the response was assembled from
    its result. *)
Lemma generateSolutionBody_resolves (gradingSettlesFirst : bool) (question options : JsVal)
    (s s' : State W) (v : JsVal) :
  Controller.generateSolutionBody services gradingSettlesFirst question options s
  = (Controller.Resolved v, s') ->
  exists text request s1 s2 solutionOutput gradingResult classificationResult,
    question = VStr text
    /\ Js.trim text <> []
    /\ Controller.solutionGeneratorService_generateSolution services request s1
       = (Return solutionOutput, s2)
    /\ Controller.comprehensiveSolution services question options solutionOutput
         gradingResult classificationResult = Return v.
Proof.
  unfold Controller.generateSolutionBody.
  unfold Controller.andThen at 1. cbn [Controller.evaluate Controller.await liftO].
  destruct question as [| | | |text| |]; try discriminate.
  cbn [Controller.questionText].
  destruct (Js.eqb (Js.trim text) []) eqn:Hblank; [discriminate|].
  destruct (Controller.notFourOptions options); [discriminate|].
  unfold Controller.andThen at 1. cbn [Controller.evaluate Controller.await liftO].
  destruct (Controller.anyOptionBlank options) as [[]|]; try discriminate.
  unfold Controller.andThen at 1. unfold Controller.await at 1. unfold external at 1.
  destruct (Controller.imageProcessorService_extractAndProcessImages services _ (world s))
    as [images w1].
  unfold Controller.andThen at 1. unfold Controller.await at 1.
  destruct (Controller.solutionGeneratorService_generateSolution services _ _)
    as [[solutionOutput|] s2] eqn:Hgenerate; [|discriminate].
  unfold Controller.andThen at 1. cbn [Controller.evaluate Controller.await liftO].
  destruct (Controller.propOf solutionOutput "ans_description"); [|discriminate].
  unfold Controller.andThen at 1. unfold Controller.gradeAndClassify at 1.
  destruct (Controller.difficultyGraderService_gradeQuestion services _ _ s2)
    as [[gradingResult|] s3];
    destruct (Controller.questionTaggerService_classifyQuestion services _ _ s3)
      as [[classificationResult|] s4]; try discriminate.
  cbn [Controller.evaluate Controller.await liftO fst snd].
  destruct (Controller.comprehensiveSolution services _ _ _ _ _) as [built|] eqn:Hbuild;
    [|discriminate].
  intros [= <- <-].
  eexists text, _, _, _, solutionOutput, gradingResult, classificationResult.
  split; [reflexivity|]. split.
  - unfold Js.eqb in Hblank. apply bool_decide_eq_false in Hblank. exact Hblank.
  - split; [exact Hgenerate | exact Hbuild].
Qed.

End ControllerResolves.

(** X24. When the controller, served by the generator of this file,
    resolves, the response echoes the question and the options of the
    request as they were sent, its answer is a number from 0 to 3, its
    description is a string that is not blank, and every reference has
    [paragraph_number] 1: no response leaves the handler with an answer
    the generator's validation would have refused. *)
Theorem X24_resolved_response_is_validated {W} (env : Env W)
    (services : Controller.Services W) (gradingSettlesFirst : bool)
    (question options : JsVal) (prompt : Js.str) (s s' : State W) (v : JsVal) :
  Controller.solutionGeneratorService_generateSolution services
    = (fun question => generate env question prompt) ->
  Controller.generateSolution services gradingSettlesFirst question options s
  = (Controller.Resolved v, s') ->
  exists props answer description references,
    v = VObj props
    /\ getProp (Js.lit "question") props = question
    /\ getProp (Js.lit "options") props = options
    /\ getProp (Js.lit "answer") props = VNum answer
    /\ (0 <= answer)%Q /\ (answer <= 3)%Q
    /\ getProp (Js.lit "ans_description") props = VStr description
    /\ hasVisibleCharacter description
    /\ getProp (Js.lit "references") props = VArr references
    /\ Forall (fun reference =>
                 exists fields, reference = VObj fields
                                /\ getProp (Js.lit "paragraph_number") fields = VNum 1)
              references.
Proof.
  intros Hservice.
  unfold Controller.generateSolution, Controller.catch.
  destruct (Controller.generateSolutionBody services gradingSettlesFirst question options s)
    as [[v0|error] s1] eqn:Hbody.
  2:{ unfold Controller.andThen, Controller.evaluate, Controller.await, liftO.
      destruct (Controller.messageOfRejection error); [|discriminate].
      destruct (Controller.instanceofHttpException error); discriminate. }
  intros [= <- <-].
  apply generateSolutionBody_resolves in Hbody.
  destruct Hbody as (text & request & s2 & s3 & solutionOutput & gradingResult
                     & classificationResult & -> & _ & Hgenerate & Hbuild).
  rewrite Hservice in Hgenerate.
  apply generate_returns_validated in Hgenerate.
  destruct Hgenerate as (solution & -> & Hvalid).
  apply validateBody_returns in Hvalid.
  destruct Hvalid as (answer & description & Ha & Hd & H0 & H3 & Htrim & _ & _).
  revert Hbuild. unfold Controller.comprehensiveSolution.
  cbn [Controller.propOf]. rewrite Ha, Hd.
  destruct (Controller.mapReferences services (getProp (Js.lit "references") solution))
    as [mapped|] eqn:Hmap; [|discriminate].
  destruct (Controller.propOf classificationResult "subject_id"); [|discriminate].
  destruct (Controller.propOf classificationResult "topic_id"); [|discriminate].
  destruct (Controller.propOf classificationResult "category_id"); [|discriminate].
  destruct (Controller.propOf gradingResult "difficultyRating"); [|discriminate].
  intros [= <-].
  assert (Hrefs : exists references,
             mapped = VArr references
             /\ Forall (fun reference =>
                          exists fields, reference = VObj fields
                            /\ getProp (Js.lit "paragraph_number") fields = VNum 1)
                       references).
  { revert Hmap. unfold Controller.mapReferences.
    destruct (getProp (Js.lit "references") solution) as [| | | | |items|]; try discriminate.
    destruct (mapO (Controller.toReference services) items) as [references|] eqn:Hitems;
      [|discriminate].
    intros [= <-]. exists references. split; [reflexivity|].
    eapply mapO_Forall; [|exact Hitems]. apply toReference_returns. }
  destruct Hrefs as (references & -> & Hall).
  eexists _, answer, description, references.
  split; [reflexivity|].
  repeat (split; [reflexivity || assumption|]).
  split.
  - destruct (blank_or_visible description) as [Hblank|Hvisible]; [|exact Hvisible].
    destruct Htrim. apply trim_blank, Hblank.
  - split; [reflexivity | exact Hall].
Qed.


Lemma X24_resolved_response_witness :
  exists v s',
    Controller.generateSolution
      (Desk.services (Sample.env Sample.docs Sample.videos (VStr Sample.json)))
      true Desk.question Desk.options Sample.initial
    = (Controller.Resolved v, s')
    /\ exists props answer description references,
         v = VObj props
         /\ getProp (Js.lit "question") props = Desk.question
         /\ getProp (Js.lit "options") props = Desk.options
         /\ getProp (Js.lit "answer") props = VNum answer
         /\ (0 <= answer)%Q /\ (answer <= 3)%Q
         /\ getProp (Js.lit "ans_description") props = VStr description
         /\ hasVisibleCharacter description
         /\ getProp (Js.lit "references") props = VArr references
         /\ Forall (fun reference =>
                      exists fields, reference = VObj fields
                        /\ getProp (Js.lit "paragraph_number") fields = VNum 1)
                   references.
Proof.
  destruct (Controller.generateSolution
              (Desk.services (Sample.env Sample.docs Sample.videos (VStr Sample.json)))
              true Desk.question Desk.options Sample.initial) as [[v|error] s'] eqn:Hrun.
  - exists v, s'. split; [reflexivity|].
    apply (X24_resolved_response_is_validated
             (Sample.env Sample.docs Sample.videos (VStr Sample.json))
             (Desk.services (Sample.env Sample.docs Sample.videos (VStr Sample.json)))
             true Desk.question Desk.options (Js.lit "You are a nursing tutor.")
             Sample.initial s' v).
    + reflexivity.
    + exact Hrun.
  - exfalso. revert Hrun. vm_compute. discriminate.
Defined.


(** ** One image in a text *)

Lemma upTo_stop (stop : N) (taken rest : Js.str) :
  ~ In stop taken ->
  ImageProcessor.upTo stop (taken ++ stop :: rest) = (taken, stop :: rest).
Proof.
  induction taken as [|c taken IH]; intros Hnot; cbn.
  - rewrite N.eqb_refl. reflexivity.
  - destruct (N.eqb_spec c stop) as [->|_]; [cbn in Hnot; tauto|].
    rewrite IH by (cbn in Hnot; tauto). reflexivity.
Qed.

(** The pattern matches what it spells. *)
Lemma matchAt_image (alt url rest : Js.str) :
  ~ In 93%N alt -> ~ In 41%N url -> url <> [] ->
  ImageProcessor.matchAt (Js.lit "![" ++ alt ++ Js.lit "](" ++ url ++ Js.lit ")" ++ rest)
  = Some (alt, url, rest).
Proof.
  intros Halt Hurl Hnonempty. unfold ImageProcessor.matchAt.
  rewrite (proj2 (stripPrefix_Some (Js.lit "![") _ _) eq_refl).
  change (Js.lit "](" ++ url ++ Js.lit ")" ++ rest)
    with (93%N :: (Js.lit "(" ++ url ++ Js.lit ")" ++ rest)).
  rewrite (upTo_stop 93 alt _ Halt).
  change (93%N :: Js.lit "(" ++ url ++ Js.lit ")" ++ rest)
    with (Js.lit "](" ++ url ++ Js.lit ")" ++ rest).
  rewrite (proj2 (stripPrefix_Some (Js.lit "](") _ _) eq_refl).
  change (Js.lit ")" ++ rest) with (41%N :: rest).
  rewrite (upTo_stop 41 url _ Hurl).
  change (41%N :: rest) with (Js.lit ")" ++ rest).
  rewrite (proj2 (stripPrefix_Some (Js.lit ")") _ _) eq_refl).
  destruct url; [congruence | reflexivity].
Qed.

Lemma matchAt_other (c : N) (text : Js.str) :
  c <> 33%N -> ImageProcessor.matchAt (c :: text) = None.
Proof.
  intros Hc. unfold ImageProcessor.matchAt.
  change (Js.lit "![") with [33; 91]%N. cbn [ImageProcessor.stripPrefix].
  destruct (N.eqb_spec 33 c) as [<-|_]; [congruence | reflexivity].
Qed.

Lemma matches_skip (before text : Js.str) :
  ~ In 33%N before -> ImageProcessor.matches (before ++ text) = ImageProcessor.matches text.
Proof.
  induction before as [|c before IH]; intros Hnot; [reflexivity|].
  cbn [app]. unfold ImageProcessor.matches at 1. cbn [length ImageProcessor.matchesFrom].
  rewrite matchAt_other by (cbn in Hnot; tauto).
  fold (ImageProcessor.matches (before ++ text)). apply IH. cbn in Hnot. tauto.
Qed.

Lemma matches_found (text alt url rest : Js.str) :
  ImageProcessor.matchAt text = Some (alt, url, rest) ->
  ImageProcessor.matches text = (alt, url) :: ImageProcessor.matches rest.
Proof.
  intros Hmatch. pose proof (matchAt_shorter _ _ _ _ Hmatch) as Hshorter.
  unfold ImageProcessor.matches at 1.
  destruct (length text) as [|n] eqn:Hlen; [lia|].
  cbn [ImageProcessor.matchesFrom]. rewrite Hmatch. f_equal.
  apply matchesFrom_enough. lia.
Qed.

Lemma removeFrom_skip (before text : Js.str) :
  ~ In 33%N before ->
  ImageProcessor.removeFrom (length (before ++ text)) (before ++ text)
  = before ++ ImageProcessor.removeFrom (length text) text.
Proof.
  induction before as [|c before IH]; intros Hnot; [reflexivity|].
  cbn [app length ImageProcessor.removeFrom].
  rewrite matchAt_other by (cbn in Hnot; tauto).
  f_equal. apply IH. cbn in Hnot. tauto.
Qed.

Lemma removeFrom_found (text alt url rest : Js.str) :
  ImageProcessor.matchAt text = Some (alt, url, rest) ->
  ImageProcessor.removeFrom (length text) text
  = ImageProcessor.removeFrom (length rest) rest.
Proof.
  intros Hmatch. pose proof (matchAt_shorter _ _ _ _ Hmatch) as Hshorter.
  destruct (length text) as [|n] eqn:Hlen; [lia|].
  cbn [ImageProcessor.removeFrom]. rewrite Hmatch.
  apply removeFrom_enough. lia.
Qed.

(** X25. For a text with one Markdown image, [before ![alt](url) after],
    where [before] has no exclamation mark, the alt text no closing
    bracket, the URL is not empty and has no closing parenthesis, and
    [after] has no image, the image pattern finds exactly that image, with
    its alt text and URL, and [removeImageMarkdown] returns the text
    around it, trimmed. *)
Theorem X25_single_image_found_and_removed (before alt url after : Js.str) :
  ~ In 33%N before ->
  ~ In 93%N alt ->
  ~ In 41%N url ->
  url <> [] ->
  hasMarkdownImage after = false ->
  let text := before ++ Js.lit "![" ++ alt ++ Js.lit "](" ++ url ++ Js.lit ")" ++ after in
  ImageProcessor.matches text = [(alt, url)]
  /\ ImageProcessor.removeImageMarkdown text = Js.trim (before ++ after).
Proof.
  intros Hbefore Halt Hurl Hnonempty Hafter text.
  pose proof (matchAt_image alt url after Halt Hurl Hnonempty) as Hmatch.
  split.
  - unfold text. rewrite (matches_skip _ _ Hbefore), (matches_found _ _ _ _ Hmatch).
    unfold ImageProcessor.matches. rewrite (matchesFrom_guard _ _ Hafter). reflexivity.
  - unfold ImageProcessor.removeImageMarkdown, text.
    rewrite (removeFrom_skip _ _ Hbefore), (removeFrom_found _ _ _ _ Hmatch).
    rewrite (removeFrom_guard _ _ Hafter) by lia. reflexivity.
Qed.

Lemma X25_single_image_witness :
  let text := Js.lit "Name the bone " ++ Js.lit "![" ++ Js.lit "x-ray" ++ Js.lit "]("
              ++ Js.lit "http://img/arm.PNG" ++ Js.lit ")" ++ Js.lit " shown here." in
  ImageProcessor.matches text = [(Js.lit "x-ray", Js.lit "http://img/arm.PNG")]
  /\ ImageProcessor.removeImageMarkdown text
     = Js.trim (Js.lit "Name the bone " ++ Js.lit " shown here.").
Proof.
  apply X25_single_image_found_and_removed.
  - vm_compute. intuition discriminate.
  - vm_compute. intuition discriminate.
  - vm_compute. intuition discriminate.
  - discriminate.
  - vm_compute. reflexivity.
Defined.


(** ** The tagger's fetchers *)

Section TaggerFetch.
Context {W : Type} (api : TaggerApi.Api W).

Lemma fetch_contract (path : Js.str) (params : list (Js.str * Js.str))
    (failedWithStatus : N -> Js.str) (failed : Js.str) (w : W) :
  (forall request w0 e responseStatus,
     fst (TaggerApi.httpService_get api request w0) = TaggerApi.Errored e responseStatus ->
     e <> Undefined) ->
  match TaggerApi.fetch api path params failedWithStatus failed w with
  | (TaggerApi.Resolved data, w') =>
      exists bearer request,
        TaggerApi.token api = Some bearer /\ bearer <> []
        /\ TaggerApi.authorization request = Js.lit "Bearer " ++ bearer
        /\ TaggerApi.httpService_get api request w = (TaggerApi.Responded 200 data, w')
  | (TaggerApi.Rejected error, w') =>
      exists message statusCode,
        error = TaggerApi.ApiRequestError message statusCode
        /\ (TaggerApi.token api = None \/ TaggerApi.token api = Some [] ->
            statusCode = 502%N /\ w' = w)
  end.
Proof.
  intros Herrors. unfold TaggerApi.fetch.
  destruct (TaggerApi.token api) as [[|c bearer]|] eqn:Htoken.
  - eexists _, _. split; [reflexivity|]. auto.
  - match goal with
    | |- context [TaggerApi.httpService_get api ?request w] =>
        pose proof (Herrors request w) as Herror;
        destruct (TaggerApi.httpService_get api request w) as [[status data|e responseStatus] w']
          eqn:Hget
    end.
    + destruct (N.eqb_spec status 200) as [->|Hstatus].
      * eexists (c :: bearer), _. split; [reflexivity|]. split; [discriminate|].
        split; [|exact Hget]. reflexivity.
      * eexists _, _. split; [reflexivity|]. intros [H|H]; discriminate.
    + specialize (Herror e responseStatus eq_refl).
      destruct e; [congruence| | |]; cbn;
        (eexists _, _; split; [reflexivity|]; intros [H|H]; discriminate).
  - eexists _, _. split; [reflexivity|]. auto.
Qed.

End TaggerFetch.

(** X26. Each of the tagger's three fetchers ([getSubjects],
    [getTopics], [getCategories]) resolves only with the data of a
    response of status 200 to a request that carried the configured
    token as "Bearer <token>"; otherwise it rejects with an
    [ApiRequestError], the request errors being error objects; and
    without a token (absent or empty) it rejects with status 502 before
    any request is sent. *)
Theorem X26_fetchers_contract {W} (api : TaggerApi.Api W) (listing : TaggerApi.Listing)
    (w : W) :
  (forall request w0 e responseStatus,
     fst (TaggerApi.httpService_get api request w0) = TaggerApi.Errored e responseStatus ->
     e <> Undefined) ->
  match TaggerApi.get api listing w with
  | (TaggerApi.Resolved data, w') =>
      exists bearer request,
        TaggerApi.token api = Some bearer /\ bearer <> []
        /\ TaggerApi.authorization request = Js.lit "Bearer " ++ bearer
        /\ TaggerApi.httpService_get api request w = (TaggerApi.Responded 200 data, w')
  | (TaggerApi.Rejected error, w') =>
      exists message statusCode,
        error = TaggerApi.ApiRequestError message statusCode
        /\ (TaggerApi.token api = None \/ TaggerApi.token api = Some [] ->
            statusCode = 502%N /\ w' = w)
  end.
Proof.
  intros Herrors.
  destruct listing as [|subjectId|topicId]; cbn [TaggerApi.get];
    unfold TaggerApi.getSubjects, TaggerApi.getTopics, TaggerApi.getCategories;
    apply fetch_contract, Herrors.
Qed.

Lemma X26_fetchers_witness :
  exists message statusCode,
    TaggerApi.get (TaggerApi.down None) (TaggerApi.Topics 3) 0%nat
    = (TaggerApi.Rejected (TaggerApi.ApiRequestError message statusCode), 0%nat)
    /\ statusCode = 502%N.
Proof.
  pose proof (X26_fetchers_contract (TaggerApi.down None) (TaggerApi.Topics 3) 0%nat) as H.
  destruct (TaggerApi.get (TaggerApi.down None) (TaggerApi.Topics 3) 0%nat)
    as [[data|error] w'] eqn:Hrun.
  - exfalso. revert Hrun. vm_compute. discriminate.
  - destruct H as (message & statusCode & -> & Hmissing).
    + intros request w0 e responseStatus. cbn. intros [= <- _]. discriminate.
    + destruct (Hmissing (or_introl eq_refl)) as [-> ->].
      exists message, 502%N. split; reflexivity.
Defined.


(** ** The search tools and the cache *)

(** X27. The two search tools only read the embedding cache: after a
    call of vectorSearch or videoSearch, whatever it returned or threw
    and however many retries it took, the cache and the id counter are
    exactly what they were. *)
Theorem X27_search_tools_leave_cache {W} (env : Env W) (embeddingId : Js.str)
    (limit : option Q) (s : State W) :
  (embeddingCache (snd (vectorSearch env embeddingId limit s)) = embeddingCache s
   /\ embeddingCounter (snd (vectorSearch env embeddingId limit s)) = embeddingCounter s)
  /\ (embeddingCache (snd (videoSearch env embeddingId limit s)) = embeddingCache s
      /\ embeddingCounter (snd (videoSearch env embeddingId limit s)) = embeddingCounter s).
Proof.
  split.
  - apply steps_vectorSearch.
    + exact _.
    + apply sameService_world.
    + intros d. apply sameService_emit.
    + intros l. apply sameService_emit.
  - apply steps_videoSearch.
    + exact _.
    + apply sameService_world.
    + intros d. apply sameService_emit.
    + intros l. apply sameService_emit.
Qed.

(** ** The images that are kept *)

Section ImagesKept.
Context {W : Type} (net : ImageProcessor.Net W).

(** An image whose URL can be downloaded as a supported image whenever
    it is asked for is in the result. *)
Lemma processMatches_keeps (found : list (Js.str * Js.str))
    (extractedImages images : list ExtractedImage) (w w' : W) (alt imageUrl : Js.str) :
  ImageProcessor.processMatches net found extractedImages w = (Return images, w') ->
  In (alt, imageUrl) found ->
  (forall w0, exists response w1,
      ImageProcessor.axios_get net imageUrl w0 = (Return response, w1)
      /\ ImageProcessor.isSupportedImageFormat
           (ImageProcessor.determineMimeType net (ImageProcessor.contentType response)
              imageUrl) = true) ->
  exists image, In image images /\ originalUrl image = imageUrl /\ altText image = Some alt.
Proof.
  intros Hrun Hin Hreliable. revert extractedImages w Hrun.
  induction found as [|[alt0 url0] found IH]; intros extractedImages w;
    cbn [ImageProcessor.processMatches]; [destruct Hin|].
  destruct Hin as [[= -> ->]|Hin].
  - destruct (Hreliable w) as (response & w1 & Hget & Hsupported).
    unfold ImageProcessor.downloadAndConvertToBase64. rewrite Hget, Hsupported.
    set (image := mkExtractedImage
                    (ImageProcessor.determineMimeType net
                       (ImageProcessor.contentType response) imageUrl)
                    (ImageProcessor.base64 net (ImageProcessor.body response))
                    imageUrl (Some alt)).
    intros Hrun.
    destruct (processMatches_adds net found (extractedImages ++ [image]) w1)
      as (added & w2 & Hadds & _ & _).
    rewrite Hadds in Hrun. injection Hrun as Himages _. subst images.
    exists image. split; [|split; reflexivity].
    apply in_or_app. left. apply in_or_app. right. left. reflexivity.
  - destruct (ImageProcessor.downloadAndConvertToBase64 net url0 alt0 w)
      as [[image0|error] w1] eqn:Hdownload.
    + apply IH, Hin.
    + pose proof (downloadAndConvertToBase64_throws _ _ _ _ _ _ Hdownload) as Hdefined.
      destruct (messageOf_defined _ Hdefined) as [message ->].
      apply IH, Hin.
Qed.

Hypothesis same_download :
  forall imageUrl w w',
    fst (ImageProcessor.axios_get net imageUrl w) = fst (ImageProcessor.axios_get net imageUrl w').

(** With downloads that do not depend on when they are made, the loop
    returns the successful downloads of the matches, one by one. *)
Lemma processMatches_exact (found : list (Js.str * Js.str))
    (extractedImages : list ExtractedImage) (w w0 : W) :
  fst (ImageProcessor.processMatches net found extractedImages w)
  = Return (extractedImages
            ++ omap (fun '(alt, imageUrl) =>
                       match fst (ImageProcessor.downloadAndConvertToBase64 net imageUrl alt w0)
                       with
                       | Return image => Some image
                       | Throw _ => None
                       end) found).
Proof.
  revert extractedImages w.
  induction found as [|[alt imageUrl] found IH]; intros extractedImages w;
    cbn [ImageProcessor.processMatches omap list_omap].
  - rewrite app_nil_r. reflexivity.
  - rewrite (downloadAndConvertToBase64_same net same_download imageUrl alt w0 w).
    destruct (ImageProcessor.downloadAndConvertToBase64 net imageUrl alt w)
      as [[image|error] w1] eqn:Hdownload; cbn [fst].
    + rewrite IH, <- app_assoc. reflexivity.
    + pose proof (downloadAndConvertToBase64_throws _ _ _ _ _ _ Hdownload) as Hdefined.
      destruct (messageOf_defined _ Hdefined) as [message ->].
      apply IH.
Qed.

End ImagesKept.

(** X15. [extractAndProcessImages] returns only images of a supported
    format (PNG, JPEG, WebP, HEIC, HEIF), at most one per Markdown image
    of the text and in the order of the text, each with the URL and the
    alt text of its match. A failure does not stop the loop: every image
    of the text whose URL can be downloaded as a supported image is in the
    result, whatever happened to the images before it; and when a download
    gives the same result whenever it is made, the result is exactly the
    list of the successful downloads of the matches, in order. *)
Theorem X15_images_are_the_successful_downloads {W} (net : ImageProcessor.Net W)
    (markdownText : Js.str) (w : W) :
  let images := fst (ImageProcessor.extractAndProcessImages net markdownText w) in
  Forall (fun image => ImageProcessor.isSupportedImageFormat (mimeType image) = true) images
  /\ sublist (List.map (fun image => (altText image, originalUrl image)) images)
             (List.map (fun '(alt, imageUrl) => (Some alt, imageUrl))
                       (ImageProcessor.matches markdownText))
  /\ (forall alt imageUrl,
        In (alt, imageUrl) (ImageProcessor.matches markdownText) ->
        (forall w0, exists response w1,
            ImageProcessor.axios_get net imageUrl w0 = (Return response, w1)
            /\ ImageProcessor.isSupportedImageFormat
                 (ImageProcessor.determineMimeType net
                    (ImageProcessor.contentType response) imageUrl) = true) ->
        exists image,
          In image images /\ originalUrl image = imageUrl /\ altText image = Some alt)
  /\ ((forall imageUrl w1 w2,
          fst (ImageProcessor.axios_get net imageUrl w1)
          = fst (ImageProcessor.axios_get net imageUrl w2)) ->
      images
      = omap (fun '(alt, imageUrl) =>
                match fst (ImageProcessor.downloadAndConvertToBase64 net imageUrl alt w) with
                | Return image => Some image
                | Throw _ => None
                end) (ImageProcessor.matches markdownText)).
Proof.
  unfold ImageProcessor.extractAndProcessImages.
  destruct (processMatches_adds net (ImageProcessor.matches markdownText) [] w)
    as (added & w' & Hrun & Hall & Hsub).
  rewrite Hrun. cbn [fst app].
  split; [exact Hall|]. split; [exact Hsub|]. split.
  - intros alt imageUrl Hin Hreliable.
    apply (processMatches_keeps net _ _ _ _ _ _ _ Hrun Hin Hreliable).
  - intros Hsame.
    pose proof (processMatches_exact net Hsame (ImageProcessor.matches markdownText) [] w w)
      as Hexact.
    rewrite Hrun in Hexact. cbn [fst app] in Hexact. injection Hexact as ->. reflexivity.
Qed.

Lemma X15_image_after_failure_witness :
  exists image,
    In image (fst (ImageProcessor.extractAndProcessImages Album.net Album.afterFailure 0%nat))
    /\ originalUrl image = Js.lit "http://img/arm.PNG"
    /\ altText image = Some (Js.lit "x-ray").
Proof.
  apply (proj1 (proj2 (proj2 (X15_images_are_the_successful_downloads Album.net
                                Album.afterFailure 0%nat)))).
  - vm_compute. auto.
  - intros w0. eexists _, _. split; vm_compute; reflexivity.
Defined.

(** The failed download before it is left out, and nothing else is
    returned. *)
Example Album_afterFailure_images :
  List.map fst (ImageProcessor.matches Album.afterFailure) = [[]; Js.lit "x-ray"]
  /\ List.map originalUrl
       (fst (ImageProcessor.extractAndProcessImages Album.net Album.afterFailure 0%nat))
     = [Js.lit "http://img/arm.PNG"].
Proof. split; vm_compute; reflexivity. Qed.

(** An array with a null among its references does not pass the
    validation. *)
Example validator_rejects_null_reference :
  exists message,
    validateAndTransformResponse (Sample.env [] [] VNull)
      (VObj [ (Js.lit "answer", VNum 1);
              (Js.lit "ans_description", VStr (Js.lit "60-100 beats per minute."));
              (Js.lit "references", VArr [VNull]);
              (Js.lit "video_references", VArr []);
              (Js.lit "images", VArr []) ])
    = Throw (LLMGenerationError (Js.lit "Invalid response format: " ++ message)).
Proof. eexists. vm_compute. reflexivity. Qed.
